(** * ParkTayo backend diagnostic scripts: a shallow embedding

    The repository holds three standalone Python scripts:
    - [test_places_api.py]   (Google Places tester, direct or via a backend),
    - [analyze_sms_config.py] (reads [.env], scans [smsService.js], lists devices),
    - [test_sms_api.py]      (exercises the SMS gateway).

    Part I embeds the Python values and operations the scripts use, then the
    functions of each script, one [Module] per source file.  Part II states
    and proves the properties of the specification.  Part III proves further
    properties of the scripts: what their probes can raise, the exit status
    of a run, the requests a run can make, and what each reply leads to.

    Conventions of the embedding:
    - a Python [str] is the list of its Unicode code points ([list N]);
    - a [dict] is a [gmap]; a decoded JSON document is a [json] value;
    - a function that prints or raises is a computation in [M]: the text it
      wrote so far together with a returned value or a raised exception;
    - the outside world (files, environment, network replies, the operator's
      answers, and the [json] / [float] library routines) is passed in as
      arguments. *)

From Stdlib Require Import ZArith NArith List String Ascii SpecFloat Bool Lia.
From stdpp Require Import base option list gmap strings pretty.

#[local] Set Warnings "-register-all,-clear-no-such-hyp".
#[local] Open Scope N_scope.

(** ** Part I.a  Python strings *)

Module Py.

(** A [str] is the sequence of its code points, of type [list N]. *)

(** A source literal, written as a Rocq string of ASCII characters. *)
Definition lit (s : string) : list N :=
  map N_of_ascii (list_ascii_of_string s).

Arguments lit : simpl never.

Definition LF : N := 10.
Definition CR : N := 13.

(** [str.isspace] on one code point: CPython's [_PyUnicode_IsWhitespace]. *)
Definition isspace (c : N) : bool :=
  ((9 <=? c) && (c <=? 13)) || ((28 <=? c) && (c <=? 32))
  || (c =? 133) || (c =? 160) || (c =? 5760)
  || ((8192 <=? c) && (c <=? 8202))
  || (c =? 8232) || (c =? 8233) || (c =? 8239) || (c =? 8287) || (c =? 12288).

(** [s.lstrip()], [s.rstrip()], [s.strip()] with no argument. *)
Fixpoint lstrip (s : list N) : list N :=
  match s with
  | [] => []
  | c :: s' => if isspace c then lstrip s' else s
  end.

Definition rstrip (s : list N) : list N := rev (lstrip (rev s)).

Definition strip (s : list N) : list N := rstrip (lstrip s).

(** [s.rstrip('/')]: trailing occurrences of one given character. *)
Fixpoint lstrip_char (x : N) (s : list N) : list N :=
  match s with
  | [] => []
  | c :: s' => if c =? x then lstrip_char x s' else s
  end.

Definition rstrip_char (x : N) (s : list N) : list N :=
  rev (lstrip_char x (rev s)).

(** [s.startswith(p)]. *)
Fixpoint startswith (p s : list N) : bool :=
  match p, s with
  | [], _ => true
  | _ :: _, [] => false
  | a :: p', b :: s' => (a =? b) && startswith p' s'
  end.

(** [sub in s] for strings. *)
Fixpoint contains (sub s : list N) : bool :=
  startswith sub s ||
  match s with
  | [] => false
  | _ :: s' => contains sub s'
  end.

(** [s.split(sep)] for a one-character separator [sep]. *)
Fixpoint split (sep : N) (s : list N) : list (list N) :=
  match s with
  | [] => [[]]
  | c :: s' =>
      if c =? sep then [] :: split sep s'
      else match split sep s' with
           | [] => [[c]]
           | w :: ws => (c :: w) :: ws
           end
  end.

(** [s.split(sep, 1)] for a one-character separator: at most one cut, at the
    first occurrence. *)
Fixpoint split1 (sep : N) (s : list N) : list (list N) :=
  match s with
  | [] => [[]]
  | c :: s' =>
      if c =? sep then [[]; s']
      else match split1 sep s' with
           | w :: ws => (c :: w) :: ws
           | [] => [[c]]
           end
  end.

(** Slices [s[:n]] and [s[-n:]] (for [n > 0]). *)
Definition slice_to {A} (n : nat) (s : list A) : list A := take n s.
Definition slice_last {A} (n : nat) (s : list A) : list A :=
  drop (length s - n) s.

(** Text-mode reading with the default [newline=None]: ["\r\n"] and a lone
    ["\r"] are handed to the program as ["\n"]. *)
Fixpoint universal_newlines (s : list N) : list N :=
  match s with
  | [] => []
  | c :: s' =>
      if c =? CR then
        LF :: match s' with
              | d :: s'' =>
                  if d =? LF then universal_newlines s''
                  else universal_newlines s'
              | [] => []
              end
      else c :: universal_newlines s'
  end.

(** The lines of a text, each with its terminating ["\n"] when it has one. *)
Fixpoint keepends (s : list N) : list (list N) :=
  match s with
  | [] => []
  | c :: s' =>
      if c =? LF then [LF] :: keepends s'
      else match keepends s' with
           | [] => [[c]]
           | l :: ls => (c :: l) :: ls
           end
  end.

(** [for line in f] over a file opened with [open(path, 'r')]. *)
Definition file_lines (content : list N) : list (list N) :=
  keepends (universal_newlines content).

(** Truthiness of a string and of an optional string ([str | None]). *)
Definition nonempty (s : list N) : bool :=
  match s with [] => false | _ :: _ => true end.

Definition truthy_opt (o : option (list N)) : bool :=
  match o with Some s => nonempty s | None => false end.

(** ** Part I.b  Decoded JSON values *)

(** What [json.loads] returns.  An object is a [dict] with string keys; a
    number is an [int] or a [float] (kept as the exact binary value). *)
Unset Elimination Schemes.
Inductive json : Type :=
| JNull
| JBool (b : bool)
| JInt (n : Z)
| JFloat (f : spec_float)
| JStr (s : list N)
| JArr (l : list json)
| JObj (m : gmap (list N) json).
Set Elimination Schemes.

(** [bool(v)]: [None], [False], zero, and empty containers are false. *)
Definition truthy (v : json) : bool :=
  match v with
  | JNull => false
  | JBool b => b
  | JInt n => negb (n =? 0)%Z
  | JFloat (S754_zero _) => false
  | JFloat _ => true
  | JStr s => nonempty s
  | JArr l => match l with [] => false | _ :: _ => true end
  | JObj m => negb (bool_decide (m = ∅))
  end.

(** [a or b]. *)
Definition py_or (a b : json) : json := if truthy a then a else b.

(** [d.get(k)] and [d.get(k, dflt)] on a dict; [k in d]. *)
Definition dict_get (d : gmap (list N) json) (k : list N) : json :=
  default JNull (d !! k).

Definition dict_get_or (d : gmap (list N) json) (k : list N) (dflt : json) : json :=
  default dflt (d !! k).

Definition dict_has (d : gmap (list N) json) (k : list N) : bool :=
  bool_decide (is_Some (d !! k)).

(** [v == n] for an [int] literal [n]: numbers compare by value across
    [int], [float] and [bool] ([True == 1]); nothing else equals an int. *)
Definition float_eq_int (f : spec_float) (n : Z) : bool :=
  match f with
  | S754_zero _ => (n =? 0)%Z
  | S754_finite sgn m e =>
      let v := if sgn then Z.neg m else Z.pos m in
      if (0 <=? e)%Z then (v * 2 ^ e =? n)%Z else (v =? n * 2 ^ (- e))%Z
  | S754_infinity _ | S754_nan => false
  end.

Definition eq_int (v : json) (n : Z) : bool :=
  match v with
  | JInt k => (k =? n)%Z
  | JBool b => ((if b then 1 else 0) =? n)%Z
  | JFloat f => float_eq_int f n
  | _ => false
  end.

(** ** Part I.c  Exceptions and the console *)

(** The argument of [SystemExit] / [sys.exit]. *)
Inductive exit_arg : Type :=
| ExitNone
| ExitCode (n : Z)
| ExitMsg (msg : string).

(** Classes below [Exception] that the scripts meet or name in an [except]
    clause.  [ConnectTimeout] is both a [ConnectionError] and a [Timeout] of
    [requests]; [OtherError] stands for any further subclass of [Exception]. *)
Inductive error_class : Type :=
| AttributeError
| TypeError
| ValueError
| JSONDecodeError
| FileNotFoundError
| ConnectionError
| ConnectTimeout
| ReadTimeout
| OtherError (name : string).

Inductive exn : Type :=
| KeyboardInterrupt
| SystemExit (arg : exit_arg)
| Error (c : error_class).

(** [except Exception]: everything but [KeyboardInterrupt] and [SystemExit]. *)
Definition is_Exception (e : exn) : bool :=
  match e with Error _ => true | _ => false end.

(** [except requests.exceptions.ConnectionError] and [... .Timeout]. *)
Definition is_ConnectionError (e : exn) : bool :=
  match e with Error ConnectionError | Error ConnectTimeout => true | _ => false end.

Definition is_Timeout (e : exn) : bool :=
  match e with Error ConnectTimeout | Error ReadTimeout => true | _ => false end.

Definition is_JSONDecodeError (e : exn) : bool :=
  match e with Error JSONDecodeError => true | _ => false end.

(** What a call of [json.loads] or of [response.json()] comes to: the decoded
    value, or the error the decoder raised.  That is [JSONDecodeError] for a
    text that is not JSON; the decoder also gives up with another error on
    some texts, such as [RecursionError] (here [OtherError "RecursionError"])
    on a text nested too deep and a plain [ValueError] on an integer literal
    of too many digits. *)
Inductive decoding : Type :=
| Decoded (v : json)
| Undecoded (c : error_class).

(** A piece of formatted text: a literal of the source, a program string, a
    value or an integer rendered by [str()], [json.dumps(v, indent=2)], or
    [str(e)] of a caught exception. *)
Inductive frag : Type :=
| Lit (s : string)
| Txt (s : list N)
| Val (v : json)
| Int (n : Z)
| Dumps (v : json)
| ExcText (e : exn).

(** One write to the console. *)
Inductive output : Type :=
| Stdout (t : list frag)          (* print(t) *)
| StdoutNoEnd (t : list frag)     (* print(t, end='') and the prompt of input(t) *)
| Traceback (e : exn).            (* traceback.print_exc() *)

Definition nl : string := String (ascii_of_nat 10) EmptyString.

Fixpoint times (s : string) (n : nat) : string :=
  match n with O => EmptyString | S n' => (s ++ times s n')%string end.

Arguments times : simpl never.

(** ** Part I.d  Computations: console output, then a value or an exception *)

Inductive res (A : Type) : Type :=
| Ret (a : A)
| Raise (e : exn).
Arguments Ret {A} a.
Arguments Raise {A} e.

Definition M (A : Type) : Type := (list output * res A)%type.

Definition ret {A} (a : A) : M A := ([], Ret a).
Definition raise {A} (e : exn) : M A := ([], Raise e).

Definition bind {A B} (m : M A) (k : A -> M B) : M B :=
  match m with
  | (o, Ret a) => let '(o', r) := k a in (o ++ o', r)
  | (o, Raise e) => (o, Raise e)
  end.

Definition print (t : list frag) : M unit := ([Stdout t], Ret tt).

(** [try: m  except <classes h catches>: h e].  [handler e = None] when no
    clause matches [e], which then propagates. *)
Definition try_except {A} (m : M A) (handler : exn -> option (M A)) : M A :=
  match m with
  | (o, Raise e) =>
      match handler e with
      | Some h => let '(o', r) := h in (o ++ o', r)
      | None => (o, Raise e)
      end
  | _ => m
  end.

(** [for x in xs: body x]. *)
Fixpoint for_each {A} (xs : list A) (body : A -> M unit) : M unit :=
  match xs with
  | [] => ret tt
  | x :: xs' => bind (body x) (fun _ => for_each xs' body)
  end.

(** [for x in xs: acc = body acc x]. *)
Fixpoint for_fold {A S} (xs : list A) (acc : S) (body : S -> A -> M S) : M S :=
  match xs with
  | [] => ret acc
  | x :: xs' => bind (body acc x) (fun acc' => for_fold xs' acc' body)
  end.

(** [if c: body]. *)
Definition when (c : bool) (body : M unit) : M unit :=
  if c then body else ret tt.

(** Attribute and container operations on a value of unknown shape. *)
Definition attr_get (v : json) (k : list N) : M json :=   (* v.get(k) *)
  match v with
  | JObj d => ret (dict_get d k)
  | _ => raise (Error AttributeError)
  end.

Definition attr_get_or (v : json) (k : list N) (dflt : json) : M json :=
  match v with
  | JObj d => ret (dict_get_or d k dflt)
  | _ => raise (Error AttributeError)
  end.

Definition py_len (v : json) : M Z :=                      (* len(v) *)
  match v with
  | JArr l => ret (Z.of_nat (length l))
  | JStr s => ret (Z.of_nat (length s))
  | JObj d => ret (Z.of_nat (size d))
  | _ => raise (Error TypeError)
  end.

(** [v[:n]], then iteration over the slice: the first [n] elements of a list,
    the first [n] characters of a string. *)
Definition py_slice_items (n : nat) (v : json) : M (list json) :=
  match v with
  | JArr l => ret (take n l)
  | JStr s => ret (map (fun c => JStr [c]) (take n s))
  | _ => raise (Error TypeError)
  end.

(** [for x in v] / [[... for x in v]] over a value of unknown shape: the
    elements of a list, the characters of a string, the keys of a dict (whose
    order the model does not keep; a key is a string, on which every loop body
    of the scripts raises at its first [.get]). *)
Definition py_iter (v : json) : M (list json) :=
  match v with
  | JArr l => ret l
  | JStr s => ret (map (fun c => JStr [c]) s)
  | JObj d => ret (map (fun kv => JStr kv.1) (map_to_list d))
  | _ => raise (Error TypeError)
  end.

(** [v[0]]. *)
Definition py_first (v : json) : M json :=
  match v with
  | JArr (x :: _) => ret x
  | JArr [] => raise (Error (OtherError "IndexError"))
  | JStr (c :: _) => ret (JStr [c])
  | JStr [] => raise (Error (OtherError "IndexError"))
  | JObj _ => raise (Error (OtherError "KeyError"))
  | _ => raise (Error TypeError)
  end.

(** [[f(x) for x in xs]]. *)
Fixpoint map_m {A B} (f : A -> M B) (xs : list A) : M (list B) :=
  match xs with
  | [] => ret []
  | x :: xs' => bind (f x) (fun y => bind (map_m f xs') (fun ys => ret (y :: ys)))
  end.

(** [next((x for x in xs if p(x)), None)]. *)
Fixpoint next_where (p : json -> M bool) (xs : list json) : M json :=
  match xs with
  | [] => ret JNull
  | x :: xs' => bind (p x) (fun b => if b then ret x else next_where p xs')
  end.

(** [s.lower()] on the ASCII letters (what a comparison with ['y'] can see). *)
Definition lower (s : list N) : list N :=
  map (fun c => if (65 <=? c) && (c <=? 90) then c + 32 else c) s.

(** One entry [k: v] of a dict display whose keys are literals. *)
Definition kv {A} (k : string) (v : A) : string * A := (k, v).

(** A dict display [{k1: v1, ...}] with literal keys. *)
Definition dict (entries : list (string * json)) : json :=
  JObj (list_to_map (map (fun e => (lit e.1, e.2)) entries)).

(** [str(n)] for an [int]. *)
Definition str_of_int (n : Z) : list N := lit (pretty n).

(** The exit status the interpreter reports for an exception that reaches
    the top of the program: [SystemExit] carries it (a message is written to
    stderr and counts as 1); an interrupt ends the process by SIGINT, which a
    shell shows as 130; any other exception prints its traceback and gives 1. *)
Definition exit_status_of (e : exn) : Z :=
  match e with
  | SystemExit ExitNone => 0
  | SystemExit (ExitCode n) => n
  | SystemExit (ExitMsg _) => 1
  | KeyboardInterrupt => 130
  | Error _ => 1
  end.

Definition exit_status {A} (r : res A) : Z :=
  match r with Ret _ => 0 | Raise e => exit_status_of e end.

End Py.

Notation "'let*' x ':=' m 'in' k" := (Py.bind m (fun x => k))
  (at level 10, x pattern, m at level 100, k at level 200, only parsing).
Notation "m ';;' k" := (Py.bind m (fun _ => k))
  (at level 100, k at level 200, right associativity, only parsing).

(** ** Part I.e  [test_places_api.py] *)

Module test_places_api.
Import Py.

Definition GOOGLE_MAPS_API_KEY : list N := lit "GOOGLE_MAPS_API_KEY".

(** What [urllib.request.Request(url, data=..., headers=...)] carries, with
    the [timeout] given to [urlopen]. *)
Record request : Type := Request {
  req_url : list N;
  req_data : option (list N);
  req_headers : list (string * string);
  req_timeout : Z
}.

Section World.

(** [files path]: the decoded text of the file at [path]; [None] when
    [open(path)] raises [FileNotFoundError]. *)
Variable files : list N -> option (list N).
(** [os.environ]. *)
Variable environ : gmap (list N) (list N).
(** [json.loads]: the value, or the error it raised. *)
Variable json_loads : list N -> decoding.
(** [json.dumps(v).encode('utf-8')], kept as text. *)
Variable json_dumps : json -> list N.
(** [urlopen(req, timeout)] followed by [getcode()] and
    [read().decode('utf-8')]: the status and the body text, or the
    exception the transport raised. *)
Variable urlopen : request -> res (Z * list N).
(** [urllib.parse.urlencode] on the parameters in dict order. *)
Variable urlencode : list (string * list N) -> list N.
(** [float(s)] ([None] stands for [ValueError]) and [str(x)] of a float. *)
Variable float_of_str : list N -> option spec_float.
Variable str_of_float : spec_float -> list N.

(** Lines 32-35: the body of [for line in f]. *)
Definition env_line (config : gmap (list N) (list N)) (line : list N)
  : M (gmap (list N) (list N)) :=
  let line := strip line in
  if nonempty line && negb (startswith (lit "#") line) && contains (lit "=") line
  then
    match split1 61 line with
    | [key; value] => ret (<[strip key := strip value]> config)
    | _ => raise (Error ValueError)        (* key, value = ... would not unpack *)
    end
  else ret config.

Definition read_env_file (env_path : list N) : M (gmap (list N) (list N)) :=
  match files env_path with
  | Some content => for_fold (file_lines content) ∅ env_line
  | None => ret ∅                          (* except FileNotFoundError: pass *)
  end.

Definition not_found_message : string :=
  "GOOGLE_MAPS_API_KEY not found. Provide --key, set env var, or put it in .env".

Definition resolve_api_key (cli_key : option (list N)) (env_path : list N)
  : M (list N) :=
  if truthy_opt cli_key then ret (default [] cli_key)
  else if truthy_opt (environ !! GOOGLE_MAPS_API_KEY)
  then ret (default [] (environ !! GOOGLE_MAPS_API_KEY))
  else
    let* env := read_env_file env_path in
    let key := env !! GOOGLE_MAPS_API_KEY in
    if negb (truthy_opt key) then raise (SystemExit (ExitMsg not_found_message))
    else ret (default [] key).

(** Lines 58-61 and 71-74: [json.loads(body)] guarded by
    [except json.JSONDecodeError]. *)
Definition loads (body : list N) : M json :=
  match json_loads body with
  | Decoded v => ret v
  | Undecoded c => raise (Error c)
  end.

Definition decode_body (body : list N) : M json :=
  try_except (loads body)
    (fun e => if is_JSONDecodeError e
              then Some (ret (JObj {[ lit "raw" := JStr body ]}))
              else None).

Definition http_get (url : list N) : M (Z * json) :=
  let req := Request url None [] 10 in
  let* (status, body) := ([], urlopen req) in
  let* data := decode_body body in
  ret (status, data).

Definition http_post_json (url : list N) (payload : json) : M (Z * json) :=
  let data := json_dumps payload in
  let req := Request url (Some data) [("Content-Type", "application/json")%string] 10 in
  let* (status, body) := ([], urlopen req) in
  let* data := decode_body body in
  ret (status, data).

(** ['k' in data] for a value of any shape: key of a dict, element of a
    list, substring of a string. *)
Definition key_in (k : list N) (data : json) : M bool :=
  match data with
  | JObj d => ret (dict_has d k)
  | JArr l => ret (existsb (fun v => match v with
                                     | JStr s => bool_decide (s = k)
                                     | _ => false
                                     end) l)
  | JStr s => ret (contains k s)
  | _ => raise (Error TypeError)
  end.

(** [data['data']]. *)
Definition subscript (data : json) (k : list N) : M json :=
  match data with
  | JObj d => match d !! k with
              | Some v => ret v
              | None => raise (Error (OtherError "KeyError"))
              end
  | _ => raise (Error TypeError)
  end.

(** Lines 139-147 of [summarize]: the value bound to [items]. *)
Definition items_of (data : json) : M json :=
  let* has_predictions := key_in (lit "predictions") data in
  if has_predictions then attr_get_or data (lit "predictions") (JArr [])
  else
    let* has_results := key_in (lit "results") data in
    if has_results then attr_get_or data (lit "results") (JArr [])
    else
      let* nested := attr_get data (lit "data") in
      match nested with
      | JObj _ =>
          let* d := subscript data (lit "data") in
          let* p := attr_get d (lit "predictions") in
          let* r := attr_get d (lit "results") in
          ret (py_or (py_or p r) (JArr []))
      | _ => ret (JArr [])
      end.

(** Lines 149-151: one displayed row. *)
Definition show_item (i : nat) (item : json) : M unit :=
  let* description := attr_get item (lit "description") in
  let* desc :=
    if truthy description then ret [Val description]
    else
      let* main := attr_get_or item (lit "mainText") (JStr []) in
      let* secondary := attr_get_or item (lit "secondaryText") (JStr []) in
      ret [Val main; Lit " - "; Val secondary] in
  let* place_id := attr_get item (lit "place_id") in
  let* pid := if truthy place_id then ret place_id
              else attr_get item (lit "placeId") in
  print ([Int (Z.of_nat i + 1); Lit ". "] ++ desc ++ [Lit " | placeId="; Val pid]).

(** The rows [summarize] goes through: [enumerate(items[:5])]. *)
Definition displayed (items : json) : M (list (nat * json)) :=
  let* shown := py_slice_items 5 items in
  ret (imap (fun i item => (i, item)) shown).

Definition summarize (title : string) (status : Z) (data : json) : M unit :=
  print [Lit nl; Lit "=== "; Lit title; Lit " ==="] ;;
  print [Lit "Status: "; Int status] ;;
  let* items := items_of data in
  let* n := py_len items in
  print [Lit "Items: "; Int n] ;;
  let* rows := displayed items in
  for_each rows (fun '(i, item) => show_item i item).

Definition do_google_autocomplete (key query : list N) (sessiontoken : option (list N))
    (lat lng : spec_float) (radius : Z) : M (Z * json) :=
  let params :=
    [kv "input" query; kv "key" key; kv "language" (lit "en");
     kv "components" (lit "country:ph"); kv "types" (lit "establishment");
     kv "location" (str_of_float lat ++ lit "," ++ str_of_float lng);
     kv "radius" (str_of_int radius); kv "strictbounds" (lit "true")] in
  let params :=
    if truthy_opt sessiontoken
    then params ++ [kv "sessiontoken" (default [] sessiontoken)] else params in
  let url := lit "https://maps.googleapis.com/maps/api/place/autocomplete/json?"
             ++ urlencode params in
  print [Lit "GET "; Txt url] ;;
  http_get url.

Definition do_google_textsearch (key query : list N) (lat lng : spec_float)
    (radius : Z) : M (Z * json) :=
  let params :=
    [kv "query" query; kv "key" key; kv "language" (lit "en");
     kv "location" (str_of_float lat ++ lit "," ++ str_of_float lng);
     kv "radius" (str_of_int radius)] in
  let url := lit "https://maps.googleapis.com/maps/api/place/textsearch/json?"
             ++ urlencode params in
  print [Lit "GET "; Txt url] ;;
  http_get url.

Definition do_backend_autocomplete (backend query : list N)
    (sessiontoken : option (list N)) (lat lng : spec_float) (radius : Z)
  : M (Z * json) :=
  let url := rstrip_char 47 backend ++ lit "/places/autocomplete" in
  let payload :=
    [kv "query" (JStr query); kv "language" (JStr (lit "en"));
     kv "components" (JStr (lit "country:ph"));
     kv "location" (dict [kv "lat" (JFloat lat); kv "lng" (JFloat lng)]);
     kv "radius" (JInt radius)] in
  let payload :=
    if truthy_opt sessiontoken
    then payload ++ [kv "sessionToken" (JStr (default [] sessiontoken))]
    else payload in
  print [Lit "POST "; Txt url; Lit " payload="; Val (dict payload)] ;;
  http_post_json url (dict payload).

Definition do_backend_textsearch (backend query : list N) (lat lng : spec_float)
    (radius : Z) : M (Z * json) :=
  let url := rstrip_char 47 backend ++ lit "/places/textsearch" in
  let payload :=
    dict [kv "query" (JStr query); kv "language" (JStr (lit "en"));
          kv "location" (dict [kv "lat" (JFloat lat); kv "lng" (JFloat lng)]);
          kv "radius" (JInt radius)] in
  print [Lit "POST "; Txt url; Lit " payload="; Val payload] ;;
  http_post_json url payload.

Definition dq : string := String (ascii_of_nat 34) EmptyString.

Definition bad_location_message : string :=
  ("Invalid --location format. Use " ++ dq ++ "lat,lng" ++ dq
   ++ " e.g. 14.5995,120.9842")%string.

(** [float(s)]. *)
Definition to_float (s : list N) : M spec_float :=
  match float_of_str s with
  | Some x => ret x
  | None => raise (Error ValueError)
  end.

Definition parse_location (loc : list N) : M (spec_float * spec_float) :=
  try_except
    (match split 44 loc with
     | [lat_str; lng_str] =>
         let* lat := to_float lat_str in
         let* lng := to_float lng_str in
         ret (lat, lng)
     | _ => raise (Error ValueError)      (* lat_str, lng_str = ... would not unpack *)
     end)
    (fun e => if is_Exception e
              then Some (raise (SystemExit (ExitMsg bad_location_message)))
              else None).

(** [--mode]. *)
Inductive mode : Type := autocomplete | textsearch | both.

(** The namespace [parser.parse_args()] returns. *)
Record args : Type := Args {
  arg_query : list N;
  arg_mode : mode;
  arg_key : option (list N);
  arg_env : list N;
  arg_backend : option (list N);
  arg_location : list N;
  arg_radius : Z;
  arg_session : option (list N)
}.

Definition wants_autocomplete (m : mode) : bool :=
  match m with autocomplete | both => true | textsearch => false end.
Definition wants_textsearch (m : mode) : bool :=
  match m with textsearch | both => true | autocomplete => false end.

(** [main], from the parsed arguments on. *)
Definition main (a : args) : M unit :=
  let* (lat, lng) := parse_location (arg_location a) in
  if truthy_opt (arg_backend a) then
    let backend := default [] (arg_backend a) in
    when (wants_autocomplete (arg_mode a))
      (let* (s, d) := do_backend_autocomplete backend (arg_query a) (arg_session a)
                        lat lng (arg_radius a) in
       summarize "Backend Autocomplete" s d) ;;
    when (wants_textsearch (arg_mode a))
      (let* (s, d) := do_backend_textsearch backend (arg_query a) lat lng (arg_radius a) in
       summarize "Backend TextSearch" s d)
  else
    let* key := resolve_api_key (arg_key a) (arg_env a) in
    when (wants_autocomplete (arg_mode a))
      (let* (s, d) := do_google_autocomplete key (arg_query a) (arg_session a)
                        lat lng (arg_radius a) in
       summarize "Google Autocomplete" s d) ;;
    when (wants_textsearch (arg_mode a))
      (let* (s, d) := do_google_textsearch key (arg_query a) lat lng (arg_radius a) in
       summarize "Google TextSearch" s d).

End World.

(** Lines 195-196, the [__main__] guard around a given [main]: a bare call,
    with no [try]. *)
Definition run_as_script (main : M unit) : M unit := main.

End test_places_api.

(** ** Part I.f  The [requests] interface of the two SMS scripts *)

Module Requests.
Import Py.

(** [requests.post(url, data=payload, headers=..., timeout=...)]: a form
    payload is a dict of fields, kept in source order. *)
Record post_request : Type := Post {
  post_url : list N;
  post_data : list (string * json);
  post_headers : list (string * string);
  post_timeout : Z
}.

Record response : Type := Response {
  status_code : Z;
  text : list N
}.

Definition form_headers : list (string * string) :=
  [("Content-Type", "application/x-www-form-urlencoded")%string].

End Requests.

(** ** Part I.g  [analyze_sms_config.py] *)

Module analyze_sms_config.
Import Py Requests.

Definition print_header (t : list frag) : M unit :=
  print [Lit nl; Lit (times "=" 60)] ;;
  print t ;;
  print [Lit (times "=" 60); Lit nl].

Definition print_success (t : list frag) : M unit := print (Lit "[OK] " :: t).
Definition print_error (t : list frag) : M unit := print (Lit "[ERROR] " :: t).
Definition print_warning (t : list frag) : M unit := print (Lit "[WARN] " :: t).
Definition print_info (t : list frag) : M unit := print (Lit "[INFO] " :: t).

Definition NOT_SET : list N := lit "NOT SET".

(** One finding of the code scan: [{'line': .., 'issue': .., 'fix': ..}]. *)
Record issue : Type := Issue {
  issue_line : nat;
  issue_text : string;
  issue_fix : string
}.

(** The dict [sms_config]: five fixed keys, each a string. *)
Record sms_config : Type := SmsConfig {
  SMS_SERVER_URL : list N;
  SMS_API_KEY : list N;
  SMS_DEFAULT_DEVICE : list N;
  SMS_DEFAULT_SIM_SLOT : list N;
  SMS_ENABLE_NOTIFICATIONS : list N
}.

Section World.

(** [files path]: the decoded text of the file at [path] (relative to the
    working directory); [None] when nothing exists there, which is when
    [os.path.exists(path)] is false. *)
Variable files : list N -> option (list N).
(** [response.json()]'s decoder: the value, or the error it raised. *)
Variable json_loads : list N -> decoding.
(** [requests.post]: the reply, or the exception the transport raised. *)
Variable post : post_request -> res response.
(** What [input(prompt)] returns, or raises. *)
Variable input : res (list N).
(** Lines 243-244 of [main], [if os.path.exists('parktayo-backend'):
    os.chdir('parktayo-backend')]: [Ret tt] when nothing of that name exists
    or the directory is entered, [Raise e] when [os.chdir] raises (the name
    is no directory, or may not be entered).  [files] is the view from the
    directory in effect afterwards. *)
Variable enter_backend : res unit.

(** Lines 42-45: the body of [for line in f]. *)
Definition env_line (config : gmap (list N) (list N)) (line : list N)
  : M (gmap (list N) (list N)) :=
  let line := strip line in
  if nonempty line && negb (startswith (lit "#") line) && contains (lit "=") line
  then
    match split1 61 line with
    | [key; value] => ret (<[strip key := strip value]> config)
    | _ => raise (Error ValueError)
    end
  else ret config.

(** Returns [None] (Python's [None]) when the file is missing. *)
Definition read_env_file (env_path : list N)
  : M (option (gmap (list N) (list N))) :=
  match files env_path with
  | None =>
      print_error [Lit ".env file not found at: "; Txt env_path] ;;
      ret None
  | Some content =>
      let* config := for_fold (file_lines content) ∅ env_line in
      ret (Some config)
  end.

(** [not config] for [config] either [None] or a dict. *)
Definition not_config (config : option (gmap (list N) (list N))) : bool :=
  match config with
  | None => true
  | Some c => bool_decide (c = ∅)
  end.

(** [sms_config.items()]: the five entries in the order of the dict
    display. *)
Definition items (c : sms_config) : list (list N * list N) :=
  [(lit "SMS_SERVER_URL", SMS_SERVER_URL c);
   (lit "SMS_API_KEY", SMS_API_KEY c);
   (lit "SMS_DEFAULT_DEVICE", SMS_DEFAULT_DEVICE c);
   (lit "SMS_DEFAULT_SIM_SLOT", SMS_DEFAULT_SIM_SLOT c);
   (lit "SMS_ENABLE_NOTIFICATIONS", SMS_ENABLE_NOTIFICATIONS c)].

(** Lines 67-72: one line of the listing, the API key masked. *)
Definition show_variable (kv : list N * list N) : M unit :=
  let '(key, value) := kv in
  if contains (lit "API_KEY") key && negb (bool_decide (value = NOT_SET)) then
    let masked_value :=
      if (14 <? length value)%nat
      then slice_to 10 value ++ lit "..." ++ slice_last 4 value
      else lit "***" in
    print [Lit "   "; Txt key; Lit ": "; Txt masked_value]
  else
    print [Lit "   "; Txt key; Lit ": "; Txt value].

(** Lines 79-93: one of the four checks; gives the new [issues_found]. *)
Definition check_set (value : list N) (warning : string) (issues_found : bool)
  : M bool :=
  if bool_decide (value = NOT_SET)
  then print_warning [Lit warning] ;; ret true
  else ret issues_found.

(** [config.get(key, 'NOT SET')]. *)
Definition get_or_not_set (config : gmap (list N) (list N)) (key : string) : list N :=
  default NOT_SET (config !! lit key).

Definition analyze_sms_configuration : M (option sms_config) :=
  print_header [Lit "SMS CONFIGURATION ANALYSIS"] ;;
  let* config := read_env_file (lit ".env") in
  if not_config config then
    print_error [Lit "Failed to read .env file"] ;;
    ret None
  else
    let config := default ∅ config in
    let sms_config := {|
      SMS_SERVER_URL := get_or_not_set config "SMS_SERVER_URL";
      SMS_API_KEY := get_or_not_set config "SMS_API_KEY";
      SMS_DEFAULT_DEVICE := get_or_not_set config "SMS_DEFAULT_DEVICE";
      SMS_DEFAULT_SIM_SLOT := get_or_not_set config "SMS_DEFAULT_SIM_SLOT";
      SMS_ENABLE_NOTIFICATIONS := get_or_not_set config "SMS_ENABLE_NOTIFICATIONS"
    |} in
    print_info [Lit "Environment Variables:"] ;;
    for_each (items sms_config) show_variable ;;
    print [Lit nl; Lit "Configuration Issues:"] ;;
    let issues_found := false in
    let* issues_found :=
      check_set (SMS_SERVER_URL sms_config) "SMS_SERVER_URL is not set" issues_found in
    let* issues_found :=
      check_set (SMS_API_KEY sms_config) "SMS_API_KEY is not set" issues_found in
    let* issues_found :=
      check_set (SMS_DEFAULT_DEVICE sms_config)
        "SMS_DEFAULT_DEVICE is not set (hardcoded to 2 in smsService.js)" issues_found in
    let* issues_found :=
      check_set (SMS_DEFAULT_SIM_SLOT sms_config)
        "SMS_DEFAULT_SIM_SLOT is not set (hardcoded to 1 in smsService.js)" issues_found in
    when (negb issues_found) (print_success [Lit "All required variables are set"]) ;;
    ret (Some sms_config).

Definition service_file : list N := lit "src/services/smsService.js".

Definition hardcoded_fix : string :=
  "Use environment variables: devices: `${this.defaultDevice}|${this.defaultSimSlot}`".

(** Lines 119-131: the body of the first scan loop, [i] counted from 1. *)
Definition scan_line (issues : list issue) (numbered : nat * list N)
  : M (list issue) :=
  let '(i, line) := numbered in
  let* issues :=
    if contains (lit "devices:") line
       && (contains (lit "'1|1'") line || contains (lit "'2|2'") line
           || contains (lit "'0|0'") line)
    then
      print_error [Lit "Line "; Int (Z.of_nat i); Lit ": Hardcoded device ID found!"] ;;
      print [Lit "   "; Txt (strip line)] ;;
      ret (issues ++ [Issue i "Hardcoded device ID" hardcoded_fix])
    else ret issues in
  when (contains (lit "devices:") line && contains (lit "${this.defaultDevice}") line)
    (print_success [Lit "Line "; Int (Z.of_nat i);
                    Lit ": Correctly using environment variables"]) ;;
  ret issues.

(** Lines 135-140: the body of the second loop; gives [env_vars_loaded]. *)
Definition env_usage_line (env_vars_loaded : bool) (numbered : nat * list N)
  : M bool :=
  let '(i, line) := numbered in
  let* env_vars_loaded :=
    if contains (lit "this.defaultDevice") line
       && contains (lit "process.env.SMS_DEFAULT_DEVICE") line
    then
      print_success [Lit "Line "; Int (Z.of_nat i);
                     Lit ": SMS_DEFAULT_DEVICE is loaded from environment"] ;;
      ret true
    else ret env_vars_loaded in
  when (contains (lit "this.defaultSimSlot") line
        && contains (lit "process.env.SMS_DEFAULT_SIM_SLOT") line)
    (print_success [Lit "Line "; Int (Z.of_nat i);
                    Lit ": SMS_DEFAULT_SIM_SLOT is loaded from environment"]) ;;
  ret env_vars_loaded.

(** [enumerate(lines, 1)]. *)
Definition enumerate1 {A} (xs : list A) : list (nat * A) :=
  imap (fun i x => (S i, x)) xs.

Definition report_issue (i : issue) : M unit :=
  print [Lit nl; Lit "  Line "; Int (Z.of_nat (issue_line i)); Lit ": ";
         Lit (issue_text i)] ;;
  print [Lit "  Fix: "; Lit (issue_fix i)].

Definition check_sms_service_code : M (list issue) :=
  print_header [Lit "SMS SERVICE CODE ANALYSIS"] ;;
  match files service_file with
  | None =>
      print_error [Lit "smsService.js not found at: "; Txt service_file] ;;
      ret []
  | Some raw =>
      let content := universal_newlines raw in
      let lines := split LF content in
      print_info [Lit "Analyzing smsService.js for hardcoded values..."] ;;
      let* issues := for_fold (enumerate1 lines) [] scan_line in
      let* env_vars_loaded := for_fold (enumerate1 lines) false env_usage_line in
      when (negb env_vars_loaded)
        (print_warning [Lit "Could not verify environment variable loading"]) ;;
      (match issues with
       | _ :: _ =>
           print [Lit nl; Lit "Found "; Int (Z.of_nat (length issues)); Lit " issue(s)"] ;;
           for_each issues report_issue
       | [] => print_success [Lit "Code looks good - using environment variables!"]
       end) ;;
      ret issues
  end.

(** Lines 194-208: the body of [for device in devices]. *)
Definition show_device (device : json) : M unit :=
  let* enabled := attr_get device (lit "enabled") in
  let status := if truthy enabled then "Online"%string else "Offline"%string in
  let* id := attr_get device (lit "id") in
  print [Lit nl; Lit "   Device ID: "; Val id] ;;
  let* name := attr_get device (lit "name") in
  print [Lit "   Name: "; Val name] ;;
  let* model := attr_get device (lit "model") in
  print [Lit "   Model: "; Val model] ;;
  print [Lit "   Status: "; Lit status] ;;
  let* sim1 := attr_get_or device (lit "sim1") (JObj ∅) in
  let* sim2 := attr_get_or device (lit "sim2") (JObj ∅) in
  when (truthy sim1)
    (let* operator := attr_get sim1 (lit "operator") in
     let* number := attr_get_or sim1 (lit "number") (JStr (lit "No number")) in
     print [Lit "   SIM 1: "; Val operator; Lit " ("; Val number; Lit ")"]) ;;
  when (truthy sim2)
    (let* operator := attr_get sim2 (lit "operator") in
     let* number := attr_get_or sim2 (lit "number") (JStr (lit "No number")) in
     print [Lit "   SIM 2: "; Val operator; Lit " ("; Val number; Lit ")"]).

(** [response.json()]. *)
Definition response_json (response : response) : M json :=
  match json_loads (text response) with
  | Decoded v => ret v
  | Undecoded c => raise (Error c)
  end.

(** Lines 221-223: [except json.JSONDecodeError] around the decoding. *)
Definition invalid_json_handler (response : response) (e : exn) : option (M unit) :=
  if is_JSONDecodeError e then
    Some (print_error [Lit "Invalid JSON response"] ;;
          print [Lit "Response text:"; Lit " "; Txt (slice_to 500 (text response))])
  else None.

(** Lines 228-234: the three outer [except] clauses, in order. *)
Definition devices_handler (server_url : list N) (e : exn) : option (M unit) :=
  if is_ConnectionError e then
    Some (print_error [Lit "Connection failed to: "; Txt server_url] ;;
          print_warning [Lit "Make sure the SMS server URL is correct and accessible"])
  else if is_Timeout e then
    Some (print_error [Lit "Request timed out (15 seconds)"])
  else if is_Exception e then
    Some (print_error [Lit "Unexpected error: "; ExcText e])
  else None.

Definition test_sms_api_devices (api_key server_url : list N) : M unit :=
  print_header [Lit "SMS API DEVICE TEST"] ;;
  if bool_decide (api_key = NOT_SET) then
    print_error [Lit "Cannot test API: SMS_API_KEY is not configured"]
  else
    try_except
      (print_info [Lit "Testing SMS API at: "; Txt server_url] ;;
       print_info [Lit "API Key: "; Txt (slice_to 10 api_key); Lit "...";
                   Txt (slice_last 4 api_key)] ;;
       let payload := [kv "key" (JStr api_key)] in
       print_info [Lit nl; Lit "Fetching available devices from SMS server..."] ;;
       let* response :=
         ([], post (Post (server_url ++ lit "/services/get-devices.php")
                         payload form_headers 15)) in
       print [Lit nl; Lit "Response Status: "; Int (status_code response)] ;;
       if (status_code response =? 200)%Z then
         try_except
           (let* data := response_json response in
            print_success [Lit "API response received"] ;;
            print [Lit nl; Lit "Response Data:"] ;;
            print [Dumps data] ;;
            let* success := attr_get data (lit "success") in
            if truthy success then
              let* inner := attr_get_or data (lit "data") (JObj ∅) in
              let* devices := attr_get_or inner (lit "devices") (JArr []) in
              let* n := py_len devices in
              print [Lit nl; Lit "Available Devices: "; Int n] ;;
              let* ds := py_iter devices in
              for_each ds show_device ;;
              print [Lit nl; Lit "Recommendation:"] ;;
              if truthy devices then
                let* first_device := py_first devices in
                print [Lit "   Update your .env file:"] ;;
                let* id := attr_get first_device (lit "id") in
                print [Lit "   SMS_DEFAULT_DEVICE="; Val id] ;;
                print [Lit "   SMS_DEFAULT_SIM_SLOT=1 or 2 (depending on which SIM you want to use)"]
              else
                print_error [Lit "No devices found! You need to register a device in your SMS server."]
            else
              let* error := attr_get_or data (lit "error") (JStr (lit "Unknown error")) in
              print_error [Lit "API Error: "; Val error])
           (invalid_json_handler response)
       else
         print_error [Lit "HTTP Error: "; Int (status_code response)] ;;
         print [Lit "Response:"; Lit " "; Txt (slice_to 500 (text response))])
      (devices_handler server_url).

Definition main : M unit :=
  print [Lit nl; Lit (times "=" 60)] ;;
  print [Lit "      ParkTayo SMS Configuration Analyzer"] ;;
  print [Lit (times "=" 60); Lit nl] ;;
  ([], enter_backend) ;;
  let* sms_config := analyze_sms_configuration in
  let* code_issues := check_sms_service_code in
  (match sms_config with
   | Some c =>
       when (negb (bool_decide (SMS_API_KEY c = NOT_SET)))
         (print [Lit nl; Lit (times "-" 60)] ;;
          ([StdoutNoEnd
              [Lit "Do you want to test the SMS API to get available devices? (y/n): "]],
           Ret tt) ;;
          let* proceed := ([], input) in
          when (bool_decide (lower proceed = lit "y"))
            (test_sms_api_devices (SMS_API_KEY c) (SMS_SERVER_URL c)))
   | None => ret tt
   end) ;;
  print_header [Lit "SUMMARY & SOLUTION"] ;;
  print [Lit "Root Cause:"] ;;
  print [Lit "   smsService.js was using hardcoded device ID"] ;;
  print [Lit "   The SMS server doesn't recognize that device"] ;;
  print [Lit "   Error: 'This device doesn't exist in database.'"] ;;
  print [Lit nl; Lit "Solution Applied:"] ;;
  print [Lit "   [OK] Updated smsService.js to use environment variables"] ;;
  print [Lit "   [OK] Now uses: SMS_DEFAULT_DEVICE and SMS_DEFAULT_SIM_SLOT from .env"] ;;
  print [Lit nl; Lit "Next Steps:"] ;;
  print [Lit "   1. Check your .env file for:"] ;;
  print [Lit "      SMS_DEFAULT_DEVICE=? (should match a device in your SMS server)"] ;;
  print [Lit "      SMS_DEFAULT_SIM_SLOT=? (1 or 2)"] ;;
  print [Lit "   2. Run the API test to see available devices"] ;;
  print [Lit "   3. Update .env with correct device ID"] ;;
  print [Lit "   4. Restart backend server"] ;;
  print [Lit nl; Lit "Current .env values:"] ;;
  (match sms_config with
   | Some c =>
       print [Lit "   SMS_DEFAULT_DEVICE="; Txt (SMS_DEFAULT_DEVICE c)] ;;
       print [Lit "   SMS_DEFAULT_SIM_SLOT="; Txt (SMS_DEFAULT_SIM_SLOT c)]
   | None => ret tt
   end) ;;
  print [].

End World.

(** Lines 289-299, the [__main__] guard around a given [main]: the two
    [except] clauses. *)
Definition top_level_handler (e : exn) : option (M unit) :=
  match e with
  | KeyboardInterrupt =>
      Some (print [Lit nl; Lit nl; Lit "Analysis interrupted by user"] ;;
            raise (SystemExit (ExitCode 0)))              (* sys.exit(0) *)
  | Error _ =>
      Some (print [Lit "[ERROR] Unexpected error: "; ExcText e] ;;
            ([Traceback e], Ret tt) ;;
            raise (SystemExit (ExitCode 1)))              (* sys.exit(1) *)
  | SystemExit _ => None
  end.

Definition run_as_script (main : M unit) : M unit :=
  try_except main top_level_handler.

End analyze_sms_config.

(** ** Part I.h  [test_sms_api.py] *)

Module test_sms_api.
Import Py Requests.

Definition print_header (t : list frag) : M unit :=
  print [Lit nl; Lit (times "=" 60)] ;;
  print t ;;
  print [Lit (times "=" 60); Lit nl].

Definition print_success (t : list frag) : M unit := print (Lit "[OK] " :: t).
Definition print_error (t : list frag) : M unit := print (Lit "[ERROR] " :: t).
Definition print_info (t : list frag) : M unit := print (Lit "[INFO] " :: t).

Section Script.

(** The module constants (lines 14-17).  They are variables here so that a
    property can be stated for every configuration; [Configured] below
    supplies the values of the source. *)
Variable SERVER : list N.
Variable API_KEY : list N.
Variable DEFAULT_DEVICE : Z.
Variable DEFAULT_SIM_SLOT : Z.

(** [response.json()]'s decoder: the value, or the error it raised. *)
Variable json_loads : list N -> decoding.
(** [requests.post]: the reply, or the exception the transport raised. *)
Variable post : post_request -> res response.
(** What [input()] returns, or raises. *)
Variable input : res (list N).

(** [response.json()]. *)
Definition response_json (response : response) : M json :=
  match json_loads (text response) with
  | Decoded v => ret v
  | Undecoded c => raise (Error c)
  end.

(** Lines 65-84: the body of [for device in devices]. *)
Definition show_device (device : json) : M unit :=
  print [Lit nl; Lit (times "=" 40)] ;;
  let* id := attr_get device (lit "id") in
  print [Lit "Device ID: "; Val id] ;;
  let* name := attr_get device (lit "name") in
  print [Lit "Name: "; Val name] ;;
  let* model := attr_get device (lit "model") in
  print [Lit "Model: "; Val model] ;;
  let* enabled := attr_get device (lit "enabled") in
  print [Lit "Enabled: "; Val enabled] ;;
  let* priority := attr_get device (lit "priority") in
  print [Lit "Priority: "; Val priority] ;;
  let* sim1 := attr_get_or device (lit "sim1") (JObj ∅) in
  let* sim2 := attr_get_or device (lit "sim2") (JObj ∅) in
  when (truthy sim1)
    (print [Lit nl; Lit "SIM Slot 0 (First SIM):"] ;;
     let* number := attr_get_or sim1 (lit "number") (JStr (lit "N/A")) in
     print [Lit "  Number: "; Val number] ;;
     let* operator := attr_get_or sim1 (lit "operator") (JStr (lit "N/A")) in
     print [Lit "  Operator: "; Val operator]) ;;
  when (truthy sim2)
    (print [Lit nl; Lit "SIM Slot 1 (Second SIM):"] ;;
     let* number := attr_get_or sim2 (lit "number") (JStr (lit "N/A")) in
     print [Lit "  Number: "; Val number] ;;
     let* operator := attr_get_or sim2 (lit "operator") (JStr (lit "N/A")) in
     print [Lit "  Operator: "; Val operator]).

(** Lines 102-104 and 106-108: the details of the SIM in use. *)
Definition show_sim (sim : json) : M unit :=
  let* number := attr_get_or sim (lit "number") (JStr (lit "N/A")) in
  print [Lit "  SIM Number: "; Val number] ;;
  let* operator := attr_get_or sim (lit "operator") (JStr (lit "N/A")) in
  print [Lit "  SIM Operator: "; Val operator].

(** [d.get('id') == DEFAULT_DEVICE]. *)
Definition has_default_id (d : json) : M bool :=
  let* id := attr_get d (lit "id") in
  ret (eq_int id DEFAULT_DEVICE).

(** Lines 86-113: the configuration check. *)
Definition configuration_check (devices : json) : M unit :=
  print [Lit nl; Lit (times "=" 60)] ;;
  print [Lit "CONFIGURATION CHECK:"] ;;
  let* ds := py_iter devices in
  let* device_ids := map_m (fun d => attr_get d (lit "id")) ds in
  if existsb (fun id => eq_int id DEFAULT_DEVICE) device_ids then
    print_success [Lit "Device ID "; Int DEFAULT_DEVICE; Lit " EXISTS in the SMS server!"] ;;
    let* ds := py_iter devices in
    let* target_device := next_where has_default_id ds in
    when (truthy target_device)
      (print [Lit nl; Lit "Your configured device:"] ;;
       print [Lit "  Device ID: "; Int DEFAULT_DEVICE] ;;
       print [Lit "  SIM Slot: "; Int DEFAULT_SIM_SLOT; Lit " (0=First, 1=Second)"] ;;
       let* first_sim :=                  (* DEFAULT_SIM_SLOT == 0 and ...get('sim1') *)
         if (DEFAULT_SIM_SLOT =? 0)%Z
         then let* sim1 := attr_get target_device (lit "sim1") in ret (truthy sim1)
         else ret false in
       if first_sim then
         let* sim := attr_get target_device (lit "sim1") in
         show_sim sim
       else
         let* second_sim :=               (* DEFAULT_SIM_SLOT == 1 and ...get('sim2') *)
           if (DEFAULT_SIM_SLOT =? 1)%Z
           then let* sim2 := attr_get target_device (lit "sim2") in ret (truthy sim2)
           else ret false in
         if second_sim then
           let* sim := attr_get target_device (lit "sim2") in
           show_sim sim
         else
           print_error [Lit "SIM Slot "; Int DEFAULT_SIM_SLOT;
                        Lit " not found on this device!"])
  else
    print_error [Lit "Device ID "; Int DEFAULT_DEVICE; Lit " NOT FOUND!"] ;;
    print [Lit "Available device IDs: "; Val (JArr device_ids)].

(** The three [except] clauses of [test_get_devices], in order. *)
Definition get_devices_handler (e : exn) : option (M json) :=
  if is_ConnectionError e then
    Some (print_error [Lit "Connection failed to: "; Txt SERVER] ;;
          print_error [Lit "Make sure you have internet access and the SMS server is online"] ;;
          ret JNull)
  else if is_Timeout e then
    Some (print_error [Lit "Request timed out (15 seconds)"] ;; ret JNull)
  else if is_Exception e then
    Some (print_error [Lit "Unexpected error: "; ExcText e] ;; ret JNull)
  else None.

(** Returns the device list, or [None] ([JNull]). *)
Definition test_get_devices : M json :=
  print_header [Lit "TEST 1: GET AVAILABLE DEVICES"] ;;
  try_except
    (let url := SERVER ++ lit "/services/get-devices.php" in
     let payload := [kv "key" (JStr API_KEY)] in
     print_info [Lit "Requesting: "; Txt url] ;;
     print_info [Lit "API Key: "; Txt (slice_to 15 API_KEY); Lit "...";
                 Txt (slice_last 10 API_KEY)] ;;
     let* response := ([], post (Post url payload form_headers 15)) in
     print_info [Lit "Response Status: "; Int (status_code response)] ;;
     if (status_code response =? 200)%Z then
       let* data := response_json response in
       let* success := attr_get data (lit "success") in
       if truthy success then
         print_success [Lit "Successfully retrieved devices!"] ;;
         let* inner := attr_get_or data (lit "data") (JObj ∅) in
         let* devices := attr_get_or inner (lit "devices") (JArr []) in
         let* n := py_len devices in
         print [Lit nl; Lit "Total Devices: "; Int n] ;;
         let* ds := py_iter devices in
         for_each ds show_device ;;
         configuration_check devices ;;
         ret devices
       else
         let* error := attr_get_or data (lit "error") (JStr (lit "Unknown error")) in
         print_error [Lit "API Error: "; Val error] ;;
         ret JNull
     else
       print_error [Lit "HTTP Error: "; Int (status_code response)] ;;
       print [Lit "Response: "; Txt (slice_to 500 (text response))] ;;
       ret JNull)
    get_devices_handler.

(** [test_send_single_message], with its two default arguments. *)
Definition test_number : list N := lit "+639613085792".
Definition test_message : list N := lit "ParkTayo SMS Test - This is a test message".

Definition send_handler (e : exn) : option (M json) :=
  if is_Exception e then
    Some (print_error [Lit "Error sending message: "; ExcText e] ;;
          ([Traceback e], Ret tt) ;;
          ret JNull)
  else None.

Definition show_message (msg : json) : M unit :=
  print [Lit nl; Lit "Message Details:"] ;;
  let* v := attr_get msg (lit "ID") in print [Lit "  Message ID: "; Val v] ;;
  let* v := attr_get msg (lit "number") in print [Lit "  Number: "; Val v] ;;
  let* v := attr_get msg (lit "deviceID") in print [Lit "  Device ID: "; Val v] ;;
  let* v := attr_get msg (lit "simSlot") in print [Lit "  SIM Slot: "; Val v] ;;
  let* v := attr_get msg (lit "status") in print [Lit "  Status: "; Val v] ;;
  let* v := attr_get msg (lit "type") in print [Lit "  Type: "; Val v] ;;
  let* v := attr_get msg (lit "sentDate") in print [Lit "  Sent Date: "; Val v] ;;
  let* v := attr_get msg (lit "groupID") in print [Lit "  Group ID: "; Val v].

Definition test_send_single_message : M json :=
  print_header [Lit "TEST 2: SEND SINGLE SMS MESSAGE"] ;;
  try_except
    (let url := SERVER ++ lit "/services/send.php" in
     let devices_param :=
       str_of_int DEFAULT_DEVICE ++ lit "|" ++ str_of_int DEFAULT_SIM_SLOT in
     let payload :=
       [kv "key" (JStr API_KEY); kv "number" (JStr test_number);
        kv "message" (JStr test_message); kv "devices" (JStr devices_param);
        kv "type" (JStr (lit "sms")); kv "prioritize" (JInt 1)] in
     print_info [Lit "Sending to: "; Txt test_number] ;;
     print_info [Lit "Message: "; Txt test_message] ;;
     print_info [Lit "Device Config: "; Txt devices_param; Lit " (Device ";
                 Int DEFAULT_DEVICE; Lit ", SIM Slot "; Int DEFAULT_SIM_SLOT; Lit ")"] ;;
     print_info [Lit "URL: "; Txt url] ;;
     print_info [Lit "Payload: ";
                 Dumps (dict payload)] ;;
     ([StdoutNoEnd [Lit nl; Lit "[CONFIRM] Do you want to send this test SMS? (y/n): "]],
      Ret tt) ;;
     let* answer := ([], input) in
     let confirm := lower (strip answer) in
     if negb (bool_decide (confirm = lit "y")) then
       print_info [Lit "Test cancelled by user"] ;;
       ret JNull
     else
       let* response := ([], post (Post url payload form_headers 30)) in
       print_info [Lit "Response Status: "; Int (status_code response)] ;;
       if (status_code response =? 200)%Z then
         let* data := response_json response in
         print [Lit nl; Lit "Full Response:"] ;;
         print [Dumps data] ;;
         let* success := attr_get data (lit "success") in
         if truthy success then
           print_success [Lit "Message sent successfully!"] ;;
           let* inner := attr_get_or data (lit "data") (JObj ∅) in
           let* messages := attr_get_or inner (lit "messages") (JArr []) in
           (if truthy messages then
              let* msg := py_first messages in
              show_message msg
            else ret tt) ;;
           if truthy messages then py_first messages else ret JNull
         else
           let* error_msg := attr_get_or data (lit "error") (JObj ∅) in
           match error_msg with
           | JObj e =>
               print_error [Lit "API Error: ";
                            Val (dict_get_or e (lit "message") (JStr (lit "Unknown error")))] ;;
               ret JNull
           | _ =>
               print_error [Lit "API Error: "; Val error_msg] ;;
               ret JNull
           end
       else
         print_error [Lit "HTTP Error: "; Int (status_code response)] ;;
         print [Lit "Response: "; Txt (text response)] ;;
         ret JNull)
    send_handler.

Definition balance_handler (e : exn) : option (M json) :=
  if is_Exception e then
    Some (print_error [Lit "Error getting balance: "; ExcText e] ;; ret JNull)
  else None.

(** Returns the credits, or [None] ([JNull]). *)
Definition test_get_balance : M json :=
  print_header [Lit "TEST 3: GET MESSAGE CREDITS BALANCE"] ;;
  try_except
    (let url := SERVER ++ lit "/services/send.php" in
     let payload := [kv "key" (JStr API_KEY)] in
     print_info [Lit "Requesting balance from: "; Txt url] ;;
     let* response := ([], post (Post url payload form_headers 15)) in
     if (status_code response =? 200)%Z then
       let* data := response_json response in
       let* success := attr_get data (lit "success") in
       if truthy success then
         let* inner := attr_get_or data (lit "data") (JObj ∅) in
         let* credits := attr_get inner (lit "credits") in
         (match credits with
          | JNull => print_success [Lit "Message Credits: UNLIMITED"]
          | _ => print_success [Lit "Message Credits Remaining: "; Val credits]
          end) ;;
         ret credits
       else
         let* error := attr_get_or data (lit "error") (JStr (lit "Unknown error")) in
         print_error [Lit "API Error: "; Val error] ;;
         ret JNull
     else
       print_error [Lit "HTTP Error: "; Int (status_code response)] ;;
       ret JNull)
    balance_handler.

(** Whether the name [os] is bound in the module: the only [import os] of
    the file is line 342, under the [__main__] guard, so the name is bound
    once the file has run as a script and is not when the module has been
    imported. *)
Variable os_bound : bool.
(** [files path]: the decoded text of the file at [path]; [None] when
    [os.path.exists(path)] is false. *)
Variable files : list N -> option (list N).

Definition service_file : list N := lit "src/services/smsService.js".

(** [enumerate(lines, 1)]. *)
Definition enumerate1 {A} (xs : list A) : list (nat * A) :=
  imap (fun i x => (S i, x)) xs.

(** Lines 275-279: the body of the loop over [lines[:20]]. *)
Definition mention_line (numbered : nat * list N) : M unit :=
  let '(i, line) := numbered in
  when (contains (lit "SMS_DEFAULT_DEVICE") line)
    (print [Lit "Line "; Int (Z.of_nat i); Lit ": "; Txt (strip line)]) ;;
  when (contains (lit "SMS_DEFAULT_SIM_SLOT") line)
    (print [Lit "Line "; Int (Z.of_nat i); Lit ": "; Txt (strip line)]).

(** Lines 284-290: the body of the second loop; gives [found_hardcoded]. *)
Definition verify_line (found_hardcoded : bool) (numbered : nat * list N) : M bool :=
  let '(i, line) := numbered in
  if contains (lit "devices:") line
     && (contains (lit "'1|1'") line || contains (lit "'2|2'") line
         || contains (lit "'0|0'") line)
  then
    print_error [Lit "Line "; Int (Z.of_nat i); Lit ": HARDCODED device found!"] ;;
    print [Lit "   "; Txt (strip line)] ;;
    ret true
  else if contains (lit "devices:") line && contains (lit "${this.defaultDevice}") line
  then
    print_success [Lit "Line "; Int (Z.of_nat i);
                   Lit ": Using environment variables correctly"] ;;
    ret found_hardcoded
  else ret found_hardcoded.

Definition verify_current_config : M unit :=
  print_header [Lit "VERIFY CURRENT CODE CONFIGURATION"] ;;
  if negb os_bound then raise (Error (OtherError "NameError"))   (* line 265: os *)
  else
  match files service_file with
  | None => print_error [Lit "smsService.js not found at: "; Txt service_file]
  | Some raw =>
      let content := universal_newlines raw in
      let lines := split LF content in
      print_info [Lit "Checking environment variable configuration..."] ;;
      for_each (enumerate1 (slice_to 20 lines)) mention_line ;;
      print [Lit nl; Lit "Checking for hardcoded device IDs..."] ;;
      let* found_hardcoded := for_fold (enumerate1 lines) false verify_line in
      when (negb found_hardcoded)
        (print_success [Lit "No hardcoded device IDs found!"])
  end.

Definition main : M unit :=
  print [Lit nl; Lit (times "=" 60)] ;;
  print [Lit "      ParkTayo SMS API Direct Tester"] ;;
  print [Lit (times "=" 60)] ;;
  print [Lit nl; Lit "Configuration:"] ;;
  print [Lit "  Server: "; Txt SERVER] ;;
  print [Lit "  API Key: "; Txt (slice_to 15 API_KEY); Lit "..."; Txt (slice_last 10 API_KEY)] ;;
  print [Lit "  Device ID: "; Int DEFAULT_DEVICE] ;;
  print [Lit "  SIM Slot: "; Int DEFAULT_SIM_SLOT; Lit " (0=First SIM, 1=Second SIM)"] ;;
  print [Lit (times "=" 60)] ;;
  let* devices := test_get_devices in
  if negb (truthy devices) then
    print_error [Lit nl; Lit "Cannot proceed without device information"]
  else
    test_get_balance ;;
    print [Lit nl; Lit (times "-" 60)] ;;
    print [Lit "Ready to send test SMS"] ;;
    print [Lit (times "-" 60)] ;;
    test_send_single_message ;;
    print_header [Lit "SUMMARY & RECOMMENDATIONS"] ;;
    print [Lit "Based on the test results:"] ;;
    print [Lit nl; Lit "1. Update your .env file with:"] ;;
    print [Lit "   SMS_SERVER_URL="; Txt SERVER] ;;
    print [Lit "   SMS_API_KEY="; Txt API_KEY] ;;
    print [Lit "   SMS_DEFAULT_DEVICE="; Int DEFAULT_DEVICE] ;;
    print [Lit "   SMS_DEFAULT_SIM_SLOT="; Int DEFAULT_SIM_SLOT] ;;
    print [Lit "   SMS_ENABLE_NOTIFICATIONS=true"] ;;
    print [Lit nl; Lit "2. Verify smsService.js is using environment variables:"] ;;
    print [Lit "   Line 104 should be:"] ;;
    print [Lit "   devices: `${this.defaultDevice}|${this.defaultSimSlot}`,"] ;;
    print [Lit nl; Lit "3. Restart your backend server after updating .env"] ;;
    print [Lit nl].

End Script.

(** Lines 341-357, the [__main__] guard around a given [main]: the two
    [except] clauses.  (The change of directory before the [try] touches no
    computation of this script.) *)
Definition top_level_handler (e : exn) : option (M unit) :=
  match e with
  | KeyboardInterrupt =>
      Some (print [Lit nl; Lit nl; Lit "Test interrupted by user"] ;;
            raise (SystemExit (ExitCode 0)))              (* sys.exit(0) *)
  | Error _ =>
      Some (print_error [Lit "Unexpected error: "; ExcText e] ;;
            ([Traceback e], Ret tt) ;;
            raise (SystemExit (ExitCode 1)))              (* sys.exit(1) *)
  | SystemExit _ => None
  end.

Definition run_as_script (main : M unit) : M unit :=
  try_except main top_level_handler.

(** The configuration of the source. *)
Module Configured.
Definition SERVER : list N := lit "https://sms.parktayo.com".
Definition API_KEY : list N := lit "3347205ca1a5deeb578ad3b24e79705cfcda38ff".
Definition DEFAULT_DEVICE : Z := 2.
Definition DEFAULT_SIM_SLOT : Z := 1.
End Configured.

End test_sms_api.

(** ** Part I.i  The vocabulary of the specification *)

Module Spec.
Import Py.

(** Section 4.1: a line is significant when, after trimming, it is
    non-empty, does not start with [#] (35) and contains [=] (61). *)
Definition significant (line : list N) : Prop :=
  strip line <> [] /\ (forall rest, strip line <> 35 :: rest) /\ 61 ∈ strip line.

(** Section 4.1: the trimmed line is cut at its first [=] only; the key and
    the value are the two parts, each trimmed. *)
Definition entry (line key value : list N) : Prop :=
  exists a b, strip line = a ++ 61 :: b /\ (61 ∉ a) /\
              key = strip a /\ value = strip b.

Definition contributes (line key value : list N) : Prop :=
  significant line /\ entry line key value.

(** Last line wins: [key] gets [value] from some line, and no later line
    contributes [key] again. *)
Definition last_wins (lines : list (list N)) (key value : list N) : Prop :=
  exists before line after,
    lines = before ++ line :: after /\
    contributes line key value /\
    forall l v, l ∈ after -> ~ contributes l key v.

(** An optional string that is absent or empty. *)
Definition absent_or_empty (o : option (list N)) : Prop :=
  o = None \/ o = Some [].

(** The value the [.env] file at [path] gives to [key], if any. *)
Definition file_value (files : list N -> option (list N)) (path key value : list N)
  : Prop :=
  exists content, files path = Some content /\
                  last_wins (file_lines content) key value.

(** Section 4.4: [line] contains the literal [sub] as a substring. *)
Definition has (sub : string) (line : list N) : Prop :=
  exists pre post, line = pre ++ lit sub ++ post.

(** Section 4.4 (a): [devices:] together with one of the three quoted
    literal pairs. *)
Definition hardcoded_line (line : list N) : Prop :=
  has "devices:" line /\
  (has "'1|1'" line \/ has "'2|2'" line \/ has "'0|0'" line).

(** Section 4.4 (b): [devices:] together with the templated expression. *)
Definition templated_line (line : list N) : Prop :=
  has "devices:" line /\ has "${this.defaultDevice}" line.

(** What the scan leaves for a flagged line [i], and what it prints for a
    line it recognizes as templated. *)
Definition finding (i : nat) : analyze_sms_config.issue :=
  analyze_sms_config.Issue i "Hardcoded device ID" analyze_sms_config.hardcoded_fix.

Definition recognized (i : nat) : output :=
  Stdout [Lit "[OK] "; Lit "Line "; Int (Z.of_nat i);
          Lit ": Correctly using environment variables"].

(** The report of the configuration check of [test_get_devices]. *)
Definition check_heading : list output :=
  [ Stdout [Lit nl; Lit (times "=" 60)];
    Stdout [Lit "CONFIGURATION CHECK:"] ].

Definition device_exists (device : Z) : output :=
  Stdout [Lit "[OK] "; Lit "Device ID "; Int device; Lit " EXISTS in the SMS server!"].

Definition configured_lines (device slot : Z) : list output :=
  [ Stdout [Lit nl; Lit "Your configured device:"];
    Stdout [Lit "  Device ID: "; Int device];
    Stdout [Lit "  SIM Slot: "; Int slot; Lit " (0=First, 1=Second)"] ].

Definition sim_lines (sim : gmap (list N) json) : list output :=
  [ Stdout [Lit "  SIM Number: "; Val (dict_get_or sim (lit "number") (JStr (lit "N/A")))];
    Stdout [Lit "  SIM Operator: "; Val (dict_get_or sim (lit "operator") (JStr (lit "N/A")))] ].

Definition slot_missing (slot : Z) : output :=
  Stdout [Lit "[ERROR] "; Lit "SIM Slot "; Int slot; Lit " not found on this device!"].

Definition device_missing (device : Z) (ids : list json) : list output :=
  [ Stdout [Lit "[ERROR] "; Lit "Device ID "; Int device; Lit " NOT FOUND!"];
    Stdout [Lit "Available device IDs: "; Val (JArr ids)] ].

(** The id of a device record, and the record having the configured id. *)
Definition id_of (d : gmap (list N) json) : json := dict_get d (lit "id").
Definition has_id (device : Z) (d : gmap (list N) json) : Prop :=
  eq_int (id_of d) device = true.

(** A SIM slot of a device record is present when the record holds a
    non-empty descriptor under the slot's key. *)
Definition sim_present (d : gmap (list N) json) (key : string)
    (sim : gmap (list N) json) : Prop :=
  d !! lit key = Some (JObj sim) /\ sim <> ∅.
Definition sim_absent (d : gmap (list N) json) (key : string) : Prop :=
  truthy (dict_get d (lit key)) = false.

(** Sample device records. *)
Definition globe_sim : gmap (list N) json :=
  {[ lit "number" := JStr (lit "+639170000000"); lit "operator" := JStr (lit "Globe") ]}.
Definition device_1 : gmap (list N) json :=
  {[ lit "id" := JInt 1; lit "sim1" := JObj globe_sim ]}.
Definition device_2 : gmap (list N) json :=
  {[ lit "id" := JInt 2; lit "sim2" := JObj globe_sim ]}.
Definition device_2_one_sim : gmap (list N) json :=
  {[ lit "id" := JInt 2; lit "sim1" := JObj globe_sim; lit "sim2" := JObj ∅ ]}.

(** A device record whose SIM entries, where they hold anything, hold a SIM
    descriptor (a dict). *)
Definition sims_well_formed (d : gmap (list N) json) : Prop :=
  forall key v, key = lit "sim1" \/ key = lit "sim2" ->
    d !! key = Some v -> truthy v = true -> exists sim, v = JObj sim.

(** What [test_get_devices] writes before it lists the devices. *)
Definition devices_intro (SERVER API_KEY : list N) (n : nat) : list output :=
  [ Stdout [Lit nl; Lit (times "=" 60)];
    Stdout [Lit "TEST 1: GET AVAILABLE DEVICES"];
    Stdout [Lit (times "=" 60); Lit nl];
    Stdout [Lit "[INFO] "; Lit "Requesting: "; Txt (SERVER ++ lit "/services/get-devices.php")];
    Stdout [Lit "[INFO] "; Lit "API Key: "; Txt (slice_to 15 API_KEY); Lit "...";
            Txt (slice_last 10 API_KEY)];
    Stdout [Lit "[INFO] "; Lit "Response Status: "; Int 200];
    Stdout [Lit "[OK] "; Lit "Successfully retrieved devices!"];
    Stdout [Lit nl; Lit "Total Devices: "; Int (Z.of_nat n)] ].

(** What [print_header("SMS CONFIGURATION ANALYSIS")] writes. *)
Definition analysis_heading : list output :=
  [ Stdout [Lit nl; Lit (times "=" 60)];
    Stdout [Lit "SMS CONFIGURATION ANALYSIS"];
    Stdout [Lit (times "=" 60); Lit nl] ].

(** Section 8: the two sample source lines. *)
Definition hardcoded_sample : list N := lit "devices: '2|2',".
Definition templated_sample : list N :=
  lit "devices: `${this.defaultDevice}|${this.defaultSimSlot}`,".

(** Section 8: the decoded body
    [{"predictions":[{"description":"X"},{"description":"Y"}]}]. *)
Definition item_X : json := JObj {[ lit "description" := JStr (lit "X") ]}.
Definition item_Y : json := JObj {[ lit "description" := JStr (lit "Y") ]}.
Definition sample_predictions : gmap (list N) json :=
  {[ lit "predictions" := JArr [item_X; item_Y] ]}.

(** Section 8: the sample body ["A=1\nB=2\nA=3\n"]. *)
Definition sample_env : list N :=
  lit "A=1" ++ [LF] ++ lit "B=2" ++ [LF] ++ lit "A=3" ++ [LF].

End Spec.

(** ** Part I.j  Outcomes of a computation *)

Module Outcome.
Import Py.

(** Whatever [m] raises satisfies [P]. *)
Definition raises_only {A} (P : exn -> Prop) (m : M A) : Prop :=
  forall e, m.2 = Raise e -> P e.

(** [m] returns normally. *)
Definition returns {A} (m : M A) : Prop := exists a, m.2 = Ret a.

(** [line] is among what [m] wrote. *)
Definition wrote {A} (m : M A) (line : output) : Prop := line ∈ m.1.

(** An outcome of the outside world that is no request to exit. *)
Definition no_exit {A} (r : res A) : Prop :=
  forall a, r <> Raise (SystemExit a).

(** What the body of a probe of the SMS scripts may raise: an error, or
    what the transport or the operator's input raised. *)
Definition inside (post : Requests.post_request -> res Requests.response)
    (input : res (list N)) (e : exn) : Prop :=
  (exists c, e = Error c) \/ (exists r, post r = Raise e) \/ input = Raise e.

(** What may leave a probe: something the outside world raised that is no
    [Exception]. *)
Definition passed_on (post : Requests.post_request -> res Requests.response)
    (input : res (list N)) (e : exn) : Prop :=
  is_Exception e = false /\ ((exists r, post r = Raise e) \/ input = Raise e).

End Outcome.

(** ** Part I.k  Console blocks of the SMS tester *)

Module Report.
Import Py.

(** What [test_get_devices] writes before its request. *)
Definition devices_request (SERVER API_KEY : list N) : list output :=
  [ Stdout [Lit nl; Lit (times "=" 60)];
    Stdout [Lit "TEST 1: GET AVAILABLE DEVICES"];
    Stdout [Lit (times "=" 60); Lit nl];
    Stdout [Lit "[INFO] "; Lit "Requesting: "; Txt (SERVER ++ lit "/services/get-devices.php")];
    Stdout [Lit "[INFO] "; Lit "API Key: "; Txt (slice_to 15 API_KEY); Lit "...";
            Txt (slice_last 10 API_KEY)] ].

Definition response_status (status : Z) : output :=
  Stdout [Lit "[INFO] "; Lit "Response Status: "; Int status].

(** What [test_get_balance] writes before its request. *)
Definition balance_request (SERVER : list N) : list output :=
  [ Stdout [Lit nl; Lit (times "=" 60)];
    Stdout [Lit "TEST 3: GET MESSAGE CREDITS BALANCE"];
    Stdout [Lit (times "=" 60); Lit nl];
    Stdout [Lit "[INFO] "; Lit "Requesting balance from: ";
            Txt (SERVER ++ lit "/services/send.php")] ].

Definition cancelled : output :=
  Stdout [Lit "[INFO] "; Lit "Test cancelled by user"].

Definition cannot_proceed : output :=
  Stdout [Lit "[ERROR] "; Lit nl; Lit "Cannot proceed without device information"].

(** The request of [test_get_devices] and of [test_get_balance]. *)
Definition devices_post (SERVER API_KEY : list N) : Requests.post_request :=
  Requests.Post (SERVER ++ lit "/services/get-devices.php")
    [kv "key" (JStr API_KEY)] Requests.form_headers 15.

Definition balance_post (SERVER API_KEY : list N) : Requests.post_request :=
  Requests.Post (SERVER ++ lit "/services/send.php")
    [kv "key" (JStr API_KEY)] Requests.form_headers 15.

(** The request of [test_send_single_message], made once the operator has
    confirmed. *)
Definition send_post (SERVER API_KEY : list N) (DEFAULT_DEVICE DEFAULT_SIM_SLOT : Z)
  : Requests.post_request :=
  Requests.Post (SERVER ++ lit "/services/send.php")
    [kv "key" (JStr API_KEY); kv "number" (JStr test_sms_api.test_number);
     kv "message" (JStr test_sms_api.test_message);
     kv "devices" (JStr (str_of_int DEFAULT_DEVICE ++ lit "|"
                         ++ str_of_int DEFAULT_SIM_SLOT));
     kv "type" (JStr (lit "sms")); kv "prioritize" (JInt 1)]
    Requests.form_headers 30.

(** A gateway that cannot be reached for the requests of the two SMS
    scripts (which wait 15 or 30 seconds), and answers any other request
    with an empty page. *)
Definition unreachable_for_scripts (r : Requests.post_request)
  : res Requests.response :=
  if ((Requests.post_timeout r =? 15) || (Requests.post_timeout r =? 30))%Z
  then Raise (Error ConnectionError)
  else Ret (Requests.Response 200 []).

(** The recommendation that ends a successful device test of the analyzer
    when the gateway lists a device. *)
Definition recommendation (id : json) : list output :=
  [ Stdout [Lit nl; Lit "Recommendation:"];
    Stdout [Lit "   Update your .env file:"];
    Stdout [Lit "   SMS_DEFAULT_DEVICE="; Val id];
    Stdout [Lit "   SMS_DEFAULT_SIM_SLOT=1 or 2 (depending on which SIM you want to use)"] ].

Definition no_devices : list output :=
  [ Stdout [Lit nl; Lit "Recommendation:"];
    Stdout [Lit "[ERROR] ";
            Lit "No devices found! You need to register a device in your SMS server."] ].

(** What the device test of the analyzer writes, on a successful reply
    [data] that lists [n] devices, before it goes through them. *)
Definition device_test_intro (server_url api_key : list N) (data : json) (n : nat)
  : list output :=
  [ Stdout [Lit nl; Lit (times "=" 60)];
    Stdout [Lit "SMS API DEVICE TEST"];
    Stdout [Lit (times "=" 60); Lit nl];
    Stdout [Lit "[INFO] "; Lit "Testing SMS API at: "; Txt server_url];
    Stdout [Lit "[INFO] "; Lit "API Key: "; Txt (slice_to 10 api_key); Lit "...";
            Txt (slice_last 4 api_key)];
    Stdout [Lit "[INFO] "; Lit nl; Lit "Fetching available devices from SMS server..."];
    Stdout [Lit nl; Lit "Response Status: "; Int 200];
    Stdout [Lit "[OK] "; Lit "API response received"];
    Stdout [Lit nl; Lit "Response Data:"];
    Stdout [Dumps data];
    Stdout [Lit nl; Lit "Available Devices: "; Int (Z.of_nat n)] ].

(** Lines of the configuration analysis. *)
Definition not_set_warning (text : string) : output :=
  Stdout [Lit "[WARN] "; Lit text].

Definition all_set : output :=
  Stdout [Lit "[OK] "; Lit "All required variables are set"].

(** The [sms_config] built from a parsed [.env]: each entry the file's value
    or ['NOT SET']. *)
Definition sms_config_of (config : gmap (list N) (list N))
  : analyze_sms_config.sms_config :=
  {| analyze_sms_config.SMS_SERVER_URL :=
       default analyze_sms_config.NOT_SET (config !! lit "SMS_SERVER_URL");
     analyze_sms_config.SMS_API_KEY :=
       default analyze_sms_config.NOT_SET (config !! lit "SMS_API_KEY");
     analyze_sms_config.SMS_DEFAULT_DEVICE :=
       default analyze_sms_config.NOT_SET (config !! lit "SMS_DEFAULT_DEVICE");
     analyze_sms_config.SMS_DEFAULT_SIM_SLOT :=
       default analyze_sms_config.NOT_SET (config !! lit "SMS_DEFAULT_SIM_SLOT");
     analyze_sms_config.SMS_ENABLE_NOTIFICATIONS :=
       default analyze_sms_config.NOT_SET (config !! lit "SMS_ENABLE_NOTIFICATIONS") |}.

(** The text the listing of the analysis shows for the API key: the value
    ['NOT SET'] as it is, a value of more than 14 characters cut to its
    first 10 and last 4, and any other value hidden. *)
Definition masked (value : list N) : list N :=
  if bool_decide (value = analyze_sms_config.NOT_SET) then value
  else if (14 <? length value)%nat
       then slice_to 10 value ++ lit "..." ++ slice_last 4 value
       else lit "***".

(** One line of the listing. *)
Definition listed (key : string) (shown : list N) : output :=
  Stdout [Lit "   "; Txt (lit key); Lit ": "; Txt shown].

(** The listing under "Environment Variables:". *)
Definition listing (c : analyze_sms_config.sms_config) : list output :=
  [ listed "SMS_SERVER_URL" (analyze_sms_config.SMS_SERVER_URL c);
    listed "SMS_API_KEY" (masked (analyze_sms_config.SMS_API_KEY c));
    listed "SMS_DEFAULT_DEVICE" (analyze_sms_config.SMS_DEFAULT_DEVICE c);
    listed "SMS_DEFAULT_SIM_SLOT" (analyze_sms_config.SMS_DEFAULT_SIM_SLOT c);
    listed "SMS_ENABLE_NOTIFICATIONS" (analyze_sms_config.SMS_ENABLE_NOTIFICATIONS c) ].

(** What the analysis writes under "Configuration Issues:". *)
Definition configuration_issues (c : analyze_sms_config.sms_config) : list output :=
  (if bool_decide (analyze_sms_config.SMS_SERVER_URL c = analyze_sms_config.NOT_SET)
   then [not_set_warning "SMS_SERVER_URL is not set"] else [])
  ++ (if bool_decide (analyze_sms_config.SMS_API_KEY c = analyze_sms_config.NOT_SET)
      then [not_set_warning "SMS_API_KEY is not set"] else [])
  ++ (if bool_decide (analyze_sms_config.SMS_DEFAULT_DEVICE c = analyze_sms_config.NOT_SET)
      then [not_set_warning
              "SMS_DEFAULT_DEVICE is not set (hardcoded to 2 in smsService.js)"]
      else [])
  ++ (if bool_decide (analyze_sms_config.SMS_DEFAULT_SIM_SLOT c
                      = analyze_sms_config.NOT_SET)
      then [not_set_warning
              "SMS_DEFAULT_SIM_SLOT is not set (hardcoded to 1 in smsService.js)"]
      else [])
  ++ (if bool_decide (analyze_sms_config.SMS_SERVER_URL c = analyze_sms_config.NOT_SET)
         || bool_decide (analyze_sms_config.SMS_API_KEY c = analyze_sms_config.NOT_SET)
         || bool_decide (analyze_sms_config.SMS_DEFAULT_DEVICE c
                         = analyze_sms_config.NOT_SET)
         || bool_decide (analyze_sms_config.SMS_DEFAULT_SIM_SLOT c
                         = analyze_sms_config.NOT_SET)
      then [] else [all_set]).

(** The whole report of the analysis of a file that gives a key. *)
Definition analysis_report (c : analyze_sms_config.sms_config) : list output :=
  Spec.analysis_heading
  ++ Stdout [Lit "[INFO] "; Lit "Environment Variables:"]
  :: listing c
  ++ Stdout [Lit nl; Lit "Configuration Issues:"]
  :: configuration_issues c.

(** Lines of the two source scans. *)
Definition cannot_verify : output :=
  Stdout [Lit "[WARN] "; Lit "Could not verify environment variable loading"].

Definition none_hardcoded : output :=
  Stdout [Lit "[OK] "; Lit "No hardcoded device IDs found!"].

Definition using_correctly (i : nat) : output :=
  Stdout [Lit "[OK] "; Lit "Line "; Int (Z.of_nat i);
          Lit ": Using environment variables correctly"].

(** A source line that loads the default device from the environment. *)
Definition loads_device (line : list N) : Prop :=
  Spec.has "this.defaultDevice" line /\ Spec.has "process.env.SMS_DEFAULT_DEVICE" line.

(** A source line that loads the default SIM slot from the environment. *)
Definition loads_sim_slot (line : list N) : Prop :=
  Spec.has "this.defaultSimSlot" line
  /\ Spec.has "process.env.SMS_DEFAULT_SIM_SLOT" line.

(** The announcements of the second loop of [check_sms_service_code]. *)
Definition device_loaded (i : nat) : output :=
  Stdout [Lit "[OK] "; Lit "Line "; Int (Z.of_nat i);
          Lit ": SMS_DEFAULT_DEVICE is loaded from environment"].

Definition sim_slot_loaded (i : nat) : output :=
  Stdout [Lit "[OK] "; Lit "Line "; Int (Z.of_nat i);
          Lit ": SMS_DEFAULT_SIM_SLOT is loaded from environment"].

End Report.

(** ** Part I.l  Variations of a command line of the Places tester *)

Module Invocation.
Import Py test_places_api.

(** The same command line with another [--mode]. *)
Definition with_mode (m : mode) (a : args) : args :=
  {| arg_query := arg_query a; arg_mode := m; arg_key := arg_key a;
     arg_env := arg_env a; arg_backend := arg_backend a;
     arg_location := arg_location a; arg_radius := arg_radius a;
     arg_session := arg_session a |}.

(** The same command line with other [--key] and [--env]. *)
Definition with_key_source (key : option (list N)) (env : list N) (a : args) : args :=
  {| arg_query := arg_query a; arg_mode := arg_mode a; arg_key := key;
     arg_env := env; arg_backend := arg_backend a;
     arg_location := arg_location a; arg_radius := arg_radius a;
     arg_session := arg_session a |}.

(** The same command line with [--backend] given or left out. *)
Definition with_backend (backend : option (list N)) (a : args) : args :=
  {| arg_query := arg_query a; arg_mode := arg_mode a; arg_key := arg_key a;
     arg_env := arg_env a; arg_backend := backend;
     arg_location := arg_location a; arg_radius := arg_radius a;
     arg_session := arg_session a |}.

(** The same command line with another [--location]. *)
Definition with_location (location : list N) (a : args) : args :=
  {| arg_query := arg_query a; arg_mode := arg_mode a; arg_key := arg_key a;
     arg_env := arg_env a; arg_backend := arg_backend a;
     arg_location := location; arg_radius := arg_radius a;
     arg_session := arg_session a |}.

(** A request of the direct mode: a [GET] (no data) of one of the two Places
    endpoints of Google, with a query string. *)
Definition google_get (r : request) : Prop :=
  exists params,
    r = Request (lit "https://maps.googleapis.com/maps/api/place/autocomplete/json?"
                 ++ params) None [] 10
    \/ r = Request (lit "https://maps.googleapis.com/maps/api/place/textsearch/json?"
                    ++ params) None [] 10.

(** A request of the backend mode: a [POST] of JSON to one of the two Places
    routes under the base URL [backend]. *)
Definition backend_post (backend : list N) (r : request) : Prop :=
  exists data,
    r = Request (rstrip_char 47 backend ++ lit "/places/autocomplete") (Some data)
          [("Content-Type", "application/json")%string] 10
    \/ r = Request (rstrip_char 47 backend ++ lit "/places/textsearch") (Some data)
             [("Content-Type", "application/json")%string] 10.

(** A transport that reaches nothing but the backend at [backend]. *)
Definition only_backend (backend : list N) (r : request) : res (Z * list N) :=
  if bool_decide (req_url r = rstrip_char 47 backend ++ lit "/places/autocomplete")
     || bool_decide (req_url r = rstrip_char 47 backend ++ lit "/places/textsearch")
  then Ret (200%Z, lit "{}")
  else Raise (Error (OtherError "URLError")).

(** What [summarize] writes before the rows. *)
Definition summary_head (title : string) (status : Z) : list output :=
  [ Stdout [Lit nl; Lit "=== "; Lit title; Lit " ==="];
    Stdout [Lit "Status: "; Int status] ].

Definition no_items : output := Stdout [Lit "Items: "; Int 0].

(** A command line with the defaults of the parser. *)
Definition defaults (query : list N) : args :=
  {| arg_query := query; arg_mode := autocomplete; arg_key := None;
     arg_env := lit ".env"; arg_backend := None;
     arg_location := lit "14.5995,120.9842"; arg_radius := 30000;
     arg_session := None |}.

End Invocation.

(** * Part II  Properties *)

Import Py.

(** ** Tactics for printed blocks *)

(** Goes through the lines of a printed block looking for the one that
    hypothesis [H] says is there. *)
Ltac which_line H :=
  repeat (apply elem_of_cons in H as [H|H]; [try discriminate H|]);
  try (by apply elem_of_nil in H).

(** Finds a given line in a printed block. *)
Ltac printed :=
  repeat first [apply list_elem_of_here | apply list_elem_of_further].

(** ** Strings *)

Lemma nonempty_true (s : list N) : nonempty s = true <-> s <> [].
Proof. destruct s; simpl; split; congruence. Qed.

Lemma startswith_spec (p s : list N) :
  startswith p s = true <-> exists r, s = p ++ r.
Proof.
  revert s; induction p as [|a p IH]; intros s; simpl.
  - split; eauto.
  - destruct s as [|b s].
    + split; [discriminate | intros [r Hr]; discriminate].
    + rewrite andb_true_iff, N.eqb_eq, IH. split.
      * intros [-> [r ->]]. eauto.
      * intros [r Hr]. injection Hr as -> ->. eauto.
Qed.

Lemma contains_spec (sub s : list N) :
  contains sub s = true <-> exists pre post, s = pre ++ sub ++ post.
Proof.
  induction s as [|c s IH].
  - simpl. rewrite orb_false_r, startswith_spec. split.
    + intros [r Hr]. exists [], r. exact Hr.
    + intros (pre & post & H). destruct pre; simpl in H; [eauto | discriminate].
  - cbn [contains]. rewrite orb_true_iff, startswith_spec, IH. split.
    + intros [[r Hr] | (pre & post & ->)].
      * exists [], r. exact Hr.
      * exists (c :: pre), post. reflexivity.
    + intros (pre & post & H). destruct pre as [|x pre]; simpl in H.
      * left. eauto.
      * injection H as -> ->. right. eauto.
Qed.

Lemma contains_char (c : N) (s : list N) : contains [c] s = true <-> c ∈ s.
Proof.
  rewrite contains_spec. split.
  - intros (pre & post & ->). set_solver.
  - intros H. apply list_elem_of_split in H as (pre & post & ->).
    exists pre, post. reflexivity.
Qed.

Lemma split1_found (c : N) (s : list N) :
  c ∈ s -> exists a b, split1 c s = [a; b] /\ s = a ++ c :: b /\ c ∉ a.
Proof.
  induction s as [|x s IH]; intros Hin.
  - set_solver.
  - simpl. destruct (N.eqb_spec x c) as [-> | Hne].
    + exists [], s. set_solver.
    + destruct IH as (a & b & -> & -> & Ha); [set_solver|].
      exists (x :: a), b. set_solver.
Qed.

Lemma first_cut_unique (c : N) (a b a' b' : list N) :
  a ++ c :: b = a' ++ c :: b' -> c ∉ a -> c ∉ a' -> a = a' /\ b = b'.
Proof.
  revert a'; induction a as [|x a IH]; intros [|y a'] H Ha Ha'; simpl in H.
  - injection H as ->. done.
  - injection H as <-. set_solver.
  - injection H as ->. set_solver.
  - injection H as -> H. destruct (IH a' H) as [-> ->]; set_solver.
Qed.

(** ** The [.env] parser *)

Section EnvParser.
Import test_places_api.

Lemma contributes_functional (line k v k' v' : list N) :
  Spec.contributes line k v -> Spec.contributes line k' v' -> k = k' /\ v = v'.
Proof.
  intros [_ (a & b & E & Ha & -> & ->)] [_ (a' & b' & E' & Ha' & -> & ->)].
  rewrite E in E'. destruct (first_cut_unique _ _ _ _ _ E' Ha Ha') as [-> ->]. done.
Qed.

(** The loop body either stores the entry of a significant line or leaves
    the map alone; it never fails to unpack. *)
Lemma env_line_cases (config : gmap (list N) (list N)) (line : list N) :
  (exists k v, Spec.contributes line k v /\
               env_line config line = ret (<[k := v]> config)) \/
  ((forall k v, ~ Spec.contributes line k v) /\ env_line config line = ret config).
Proof.
  unfold env_line.
  destruct (nonempty (strip line)) eqn:Hne; cbn [andb negb].
  2:{ right. split; [|done]. intros k v [[H _] _].
      apply nonempty_true in H. congruence. }
  destruct (startswith (lit "#") (strip line)) eqn:Hhash; cbn [andb negb].
  { right. split; [|done]. intros k v [(_ & H & _) _].
    apply startswith_spec in Hhash as [r Hr]. exact (H r Hr). }
  destruct (contains (lit "=") (strip line)) eqn:Heq.
  2:{ right. split; [|done]. intros k v [(_ & _ & H) _].
      apply (contains_char 61) in H. change (lit "=") with [61] in Heq. congruence. }
  left. apply (contains_char 61) in Heq.
  destruct (split1_found _ _ Heq) as (a & b & -> & E & Ha).
  exists (strip a), (strip b). split; [|done].
  split.
  - split; [by apply nonempty_true|]. split; [|done].
    intros r Hr. assert (H : startswith (lit "#") (strip line) = true)
      by (apply startswith_spec; exists r; exact Hr). congruence.
  - exists a, b. done.
Qed.

Lemma env_fold_spec (lines : list (list N)) (config : gmap (list N) (list N)) :
  exists config',
    for_fold lines config env_line = ([], Ret config') /\
    forall k v, config' !! k = Some v <->
      Spec.last_wins lines k v \/
      (config !! k = Some v /\ forall l v', l ∈ lines -> ~ Spec.contributes l k v').
Proof.
  revert config. induction lines as [|l ls IH]; intros config.
  - exists config. split; [done|]. intros k v. split.
    + intros H. right. split; [done|]. intros l v' Hl. by apply elem_of_nil in Hl.
    + intros [(pre & x & post & E & _) | [H _]]; [|done].
      by destruct pre.
  - cbn [for_fold].
    destruct (env_line_cases config l) as [(k0 & v0 & Hc & ->) | [Hno ->]];
      cbn [bind ret].
    + destruct (IH (<[k0 := v0]> config)) as (config' & -> & Hspec).
      exists config'. split; [done|]. intros k v. rewrite Hspec. split.
      * intros [(pre & x & post & -> & Hx & Hlater) | [Hk Hnone]].
        { left. exists (l :: pre), x, post. done. }
        destruct (decide (k0 = k)) as [-> | Hne].
        { rewrite lookup_insert_eq in Hk. injection Hk as ->.
          left. exists [], l, ls. done. }
        rewrite lookup_insert_ne in Hk by done.
        right. split; [done|]. intros x v' Hx Hcx.
        apply elem_of_cons in Hx as [-> | Hx]; [|by eapply Hnone].
        by destruct (contributes_functional _ _ _ _ _ Hc Hcx).
      * intros [(pre & x & post & E & Hx & Hlater) | [Hk Hnone]].
        { destruct pre as [|y pre]; simpl in E; injection E as -> ->.
          - destruct (contributes_functional _ _ _ _ _ Hc Hx) as [-> ->].
            right. by rewrite lookup_insert_eq.
          - left. by exists pre, x, post. }
        right. split.
        { rewrite lookup_insert_ne; [done|]. intros ->.
          eapply Hnone; [|exact Hc]. by left. }
        intros x v' Hx. apply Hnone. by right.
    + destruct (IH config) as (config' & -> & Hspec).
      exists config'. split; [done|]. intros k v. rewrite Hspec. split.
      * intros [(pre & x & post & -> & Hx & Hlater) | [Hk Hnone]].
        { left. exists (l :: pre), x, post. done. }
        right. split; [done|]. intros x v' Hx.
        apply elem_of_cons in Hx as [-> | Hx]; [apply Hno | by apply Hnone].
      * intros [(pre & x & post & E & Hx & Hlater) | [Hk Hnone]].
        { destruct pre as [|y pre]; simpl in E; injection E as -> ->.
          - by destruct (Hno _ _ Hx).
          - left. by exists pre, x, post. }
        right. split; [done|]. intros x v' Hx. apply Hnone. by right.
Qed.

Lemma read_env_file_spec (files : list N -> option (list N)) (path : list N) :
  exists config : gmap (list N) (list N),
    read_env_file files path = ret config /\
    forall k v, config !! k = Some v <-> Spec.file_value files path k v.
Proof.
  unfold read_env_file, Spec.file_value. destruct (files path) as [content|].
  - destruct (env_fold_spec (file_lines content) ∅) as (config & Hrun & Hspec).
    exists config. split; [done|]. intros k v. rewrite Hspec. split.
    + intros [H | [H _]]; [by exists content | by rewrite lookup_empty in H].
    + intros (c & [= <-] & H). by left.
  - exists ∅. split; [done|]. intros k v. rewrite lookup_empty.
    split; [done | by intros (c & H & _)].
Qed.

Lemma analyzer_env_line_same :
  analyze_sms_config.env_line = test_places_api.env_line.
Proof. reflexivity. Qed.

(** C1.  Both [read_env_file] functions turn the text of an existing file
    into a map in which a key is bound exactly when some significant line
    (trimmed: non-empty, not starting with [#], containing [=]) contributes
    it, cut at the first [=] with key and value trimmed, the last such line
    winning.  For the body ["A=1\nB=2\nA=3\n"] the map is [{A: 3, B: 2}];
    the lines ["# A=1"] and ["NOKEY"] leave every map unchanged and
    contribute nothing. *)
Theorem C1_env_parser :
  (forall (files : list N -> option (list N)) (path content : list N),
      files path = Some content ->
      exists config : gmap (list N) (list N),
        test_places_api.read_env_file files path = ret config /\
        analyze_sms_config.read_env_file files path = ret (Some config) /\
        forall k v, config !! k = Some v <-> Spec.last_wins (file_lines content) k v)
  /\ (forall (files : list N -> option (list N)) (path : list N),
        files path = Some Spec.sample_env ->
        test_places_api.read_env_file files path
          = ret {[ lit "A" := lit "3"; lit "B" := lit "2" ]} /\
        analyze_sms_config.read_env_file files path
          = ret (Some {[ lit "A" := lit "3"; lit "B" := lit "2" ]}))
  /\ (forall (config : gmap (list N) (list N)) (line : list N),
        line = lit "# A=1" \/ line = lit "NOKEY" ->
        test_places_api.env_line config line = ret config /\
        analyze_sms_config.env_line config line = ret config /\
        forall k v, ~ Spec.contributes line k v).
Proof.
  split; [|split].
  - intros files path content Hfile.
    destruct (env_fold_spec (file_lines content) ∅) as (config & Hrun & Hspec).
    exists config. unfold test_places_api.read_env_file,
      analyze_sms_config.read_env_file.
    rewrite Hfile, analyzer_env_line_same, Hrun. repeat split; try done.
    + intros H. apply Hspec in H as [H | [H _]]; [done|].
      by rewrite lookup_empty in H.
    + intros H. apply Hspec. by left.
  - intros files path Hfile.
    unfold test_places_api.read_env_file, analyze_sms_config.read_env_file.
    rewrite Hfile. split; vm_compute; reflexivity.
  - intros config line Hline. rewrite analyzer_env_line_same.
    assert (Hrun : env_line config line = ret config)
      by (destruct Hline as [-> | ->]; reflexivity).
    repeat split; try done.
    intros k v [(_ & Hhash & Heq) _].
    destruct Hline as [-> | ->].
    + exact (Hhash _ eq_refl).
    + apply (contains_char 61) in Heq. discriminate Heq.
Qed.

End EnvParser.

(** ** API-key resolution of the Places tester *)

Section ResolveKey.
Import test_places_api.

Variable files : list N -> option (list N).
Variable environ : gmap (list N) (list N).

Lemma truthy_opt_false (o : option (list N)) :
  truthy_opt o = false <-> Spec.absent_or_empty o.
Proof.
  unfold Spec.absent_or_empty. destruct o as [[|c s]|]; simpl; split; intros H;
    try done; auto; by destruct H.
Qed.

Lemma truthy_opt_true (o : option (list N)) (s : list N) :
  o = Some s -> s <> [] -> truthy_opt o = true /\ default [] o = s.
Proof. intros -> Hs. by destruct s. Qed.

(** C2, as the code has it.  A non-empty CLI value is returned whatever the
    environment and the file hold; with the CLI value absent or empty, a
    set and non-empty environment variable is returned; with that one unset
    or empty as well, the non-empty value of the [.env] file is returned. *)
Theorem C2_resolve_api_key_precedence (cli_key : option (list N)) (env_path : list N) :
  (forall k, cli_key = Some k -> k <> [] ->
     resolve_api_key files environ cli_key env_path = ret k)
  /\ (Spec.absent_or_empty cli_key ->
      forall e, environ !! GOOGLE_MAPS_API_KEY = Some e -> e <> [] ->
        resolve_api_key files environ cli_key env_path = ret e)
  /\ (Spec.absent_or_empty cli_key ->
      Spec.absent_or_empty (environ !! GOOGLE_MAPS_API_KEY) ->
      forall v, Spec.file_value files env_path GOOGLE_MAPS_API_KEY v -> v <> [] ->
        resolve_api_key files environ cli_key env_path = ret v).
Proof.
  unfold resolve_api_key. split; [|split].
  - intros k Hk Hne. by destruct (truthy_opt_true _ _ Hk Hne) as [-> ->].
  - intros Hcli e He Hne. apply truthy_opt_false in Hcli as ->.
    by destruct (truthy_opt_true _ _ He Hne) as [-> ->].
  - intros Hcli Henv v Hv Hne.
    apply truthy_opt_false in Hcli as ->. apply truthy_opt_false in Henv as ->.
    destruct (read_env_file_spec files env_path) as (config & -> & Hspec).
    apply Hspec in Hv. cbn [bind ret].
    by destruct (truthy_opt_true _ _ Hv Hne) as [-> ->].
Qed.

(** C8.  When the CLI value, the environment variable and the [.env] file
    all give nothing (absent or empty), [resolve_api_key] returns no value: it
    raises [SystemExit] with the message that names
    [GOOGLE_MAPS_API_KEY] and the three ways to supply it, printing nothing
    itself; the interpreter turns that into exit status 1.  In direct mode
    [main] lets it through, before any request is made. *)
Theorem C8_resolve_api_key_missing (cli_key : option (list N)) (env_path : list N) :
  Spec.absent_or_empty cli_key ->
  Spec.absent_or_empty (environ !! GOOGLE_MAPS_API_KEY) ->
  (forall v, Spec.file_value files env_path GOOGLE_MAPS_API_KEY v -> v = []) ->
  resolve_api_key files environ cli_key env_path
    = ([], Raise (SystemExit (ExitMsg
        "GOOGLE_MAPS_API_KEY not found. Provide --key, set env var, or put it in .env")))
  /\ exit_status (resolve_api_key files environ cli_key env_path).2 = 1%Z
  /\ (forall k, resolve_api_key files environ cli_key env_path <> ret k)
  /\ (forall json_loads json_dumps urlopen urlencode float_of_str str_of_float
             (a : args) (lat lng : spec_float),
        arg_key a = cli_key -> arg_env a = env_path ->
        Spec.absent_or_empty (arg_backend a) ->
        parse_location float_of_str (arg_location a) = ret (lat, lng) ->
        run_as_script
          (main files environ json_loads json_dumps urlopen urlencode
                float_of_str str_of_float a)
        = ([], Raise (SystemExit (ExitMsg not_found_message)))).
Proof.
  intros Hcli Henv Hfile.
  assert (E : resolve_api_key files environ cli_key env_path
              = raise (SystemExit (ExitMsg not_found_message))).
  { unfold resolve_api_key.
    apply truthy_opt_false in Hcli as ->. apply truthy_opt_false in Henv as ->.
    destruct (read_env_file_spec files env_path) as (config & -> & Hspec).
    cbn [bind ret].
    destruct (config !! GOOGLE_MAPS_API_KEY) as [v|] eqn:Hv; [|done].
    apply Hspec, Hfile in Hv as ->. done. }
  rewrite E. repeat split; try done.
  intros json_loads json_dumps urlopen urlencode float_of_str str_of_float
    a lat lng Hkey Hpath Hbackend Hloc.
  unfold run_as_script, main. rewrite Hloc. cbn [bind ret].
  apply truthy_opt_false in Hbackend as ->. by rewrite Hkey, Hpath, E.
Qed.

End ResolveKey.

(** C8 at a concrete input: no [--key], an empty environment, no file. *)
Lemma C8_resolve_api_key_missing_witness :
  test_places_api.resolve_api_key (fun _ => None) ∅ None (lit ".env")
    = ([], Raise (SystemExit (ExitMsg
        "GOOGLE_MAPS_API_KEY not found. Provide --key, set env var, or put it in .env")))
  /\ exit_status (test_places_api.resolve_api_key (fun _ => None) ∅ None (lit ".env")).2 = 1%Z.
Proof.
  destruct (C8_resolve_api_key_missing (fun _ => None) ∅ None (lit ".env"))
    as (H1 & H2 & _).
  - left. reflexivity.
  - left. reflexivity.
  - intros v (content & Hc & _). discriminate Hc.
  - split; [exact H1 | exact H2].
Defined.

(** The three sources at once, with different values. *)
Example resolve_all_three_present :
  let environ : gmap (list N) (list N) :=
    {[ test_places_api.GOOGLE_MAPS_API_KEY := lit "from-env" ]} in
  let files : list N -> option (list N) :=
    fun _ => Some (lit "GOOGLE_MAPS_API_KEY = from-file") in
  test_places_api.resolve_api_key files environ (Some (lit "from-cli")) (lit ".env")
    = ret (lit "from-cli")
  /\ test_places_api.resolve_api_key files environ None (lit ".env")
    = ret (lit "from-env")
  /\ test_places_api.resolve_api_key files environ (Some []) (lit ".env")
    = ret (lit "from-env")
  /\ test_places_api.resolve_api_key files ∅ (Some []) (lit ".env")
    = ret (lit "from-file").
Proof. vm_compute. repeat split. Qed.

(** The claim as the specification words it fails when the environment
    variable is set to the empty string: the file's value is returned. *)
Lemma C2_empty_environment_variable :
  let environ : gmap (list N) (list N) := {[ test_places_api.GOOGLE_MAPS_API_KEY := [] ]} in
  let files : list N -> option (list N) :=
    fun _ => Some (lit "GOOGLE_MAPS_API_KEY=abc") in
  environ !! test_places_api.GOOGLE_MAPS_API_KEY = Some []
  /\ test_places_api.resolve_api_key files environ None (lit ".env") = ret (lit "abc")
  /\ test_places_api.resolve_api_key files environ None (lit ".env") <> ret [].
Proof. vm_compute. repeat split; discriminate. Qed.

(** ** The reporter of the Places tester *)

Section Reporter.
Import test_places_api.

Lemma dict_has_Some (d : gmap (list N) json) (k : list N) (v : json) :
  d !! k = Some v -> dict_has d k = true.
Proof. intros H. unfold dict_has. rewrite H. by apply bool_decide_eq_true. Qed.

Lemma dict_has_None (d : gmap (list N) json) (k : list N) :
  d !! k = None -> dict_has d k = false.
Proof.
  intros H. unfold dict_has. rewrite H. apply bool_decide_eq_false.
  by intros [v Hv].
Qed.

Lemma dict_get_Some (d : gmap (list N) json) (k : list N) (v : json) :
  d !! k = Some v -> dict_get d k = v.
Proof. intros H. unfold dict_get. by rewrite H. Qed.

(** The nested branch, once the two top-level keys are known to be absent. *)
Lemma items_of_nested (d n : gmap (list N) json) :
  d !! lit "predictions" = None -> d !! lit "results" = None ->
  d !! lit "data" = Some (JObj n) ->
  items_of (JObj d)
    = ret (py_or (py_or (dict_get n (lit "predictions")) (dict_get n (lit "results")))
                 (JArr [])).
Proof.
  intros Hp Hr Hd. unfold items_of, key_in, attr_get, subscript, dict_get at 1.
  rewrite (dict_has_None _ _ Hp), (dict_has_None _ _ Hr), Hd. reflexivity.
Qed.

(** A dict item is shown on exactly one line. *)
Lemma show_item_dict (i : nat) (m : gmap (list N) json) :
  exists row, show_item i (JObj m) = ([Stdout row], Ret tt).
Proof.
  unfold show_item, attr_get, attr_get_or. cbn [bind ret].
  destruct (truthy (dict_get m (lit "description")));
    destruct (truthy (dict_get m (lit "place_id"))); cbn; eauto.
Qed.

Lemma show_rows (l : list json) (f : nat -> nat) :
  (forall x, x ∈ l -> exists m, x = JObj m) ->
  exists rows,
    for_each (imap (fun i item => (f i, item)) l) (fun '(i, item) => show_item i item)
      = (rows, Ret tt)
    /\ length rows = length l
    /\ forall i item, l !! i = Some item ->
          exists row, rows !! i = Some (Stdout row)
                      /\ show_item (f i) item = ([Stdout row], Ret tt).
Proof.
  revert f. induction l as [|x l IH]; intros f Hdict.
  - exists []. repeat split; try done.
  - destruct (Hdict x) as [m ->]; [by left|].
    destruct (show_item_dict (f 0%nat) m) as [row Hrow].
    destruct (IH (fun i => f (S i))) as (rows & Hrows & Hlen & Hnth).
    { intros y Hy. apply Hdict. by right. }
    exists (Stdout row :: rows). cbn [imap for_each].
    unfold compose. rewrite Hrow. cbn [bind]. rewrite Hrows.
    split; [done|]. split; [simpl; by rewrite Hlen|].
    intros [|i] item Hi; simpl in Hi.
    + injection Hi as <-. eauto.
    + apply Hnth in Hi. exact Hi.
Qed.

(** C3.  On a decoded dict the item list is: the value under the top-level
    [predictions] key when that key is present; else the value under the
    top-level [results] key when present; else, when [data] holds a dict, its
    non-empty [predictions], failing that its non-empty [results], failing
    that the empty list; and the empty list in every other case.  When the
    extracted value is a list of dicts, [summarize] prints its full length
    and then one row for each of its first five items, in their order, and
    no more.  For the sample body the list is [[X; Y]] and both rows are
    printed. *)
Theorem C3_items_extraction (d : gmap (list N) json) :
  (forall v, d !! lit "predictions" = Some v -> items_of (JObj d) = ret v)
  /\ (d !! lit "predictions" = None ->
      forall v, d !! lit "results" = Some v -> items_of (JObj d) = ret v)
  /\ (d !! lit "predictions" = None -> d !! lit "results" = None ->
      forall n, d !! lit "data" = Some (JObj n) ->
        (forall p, n !! lit "predictions" = Some p -> truthy p = true ->
                   items_of (JObj d) = ret p)
        /\ (truthy (dict_get n (lit "predictions")) = false ->
            forall r, n !! lit "results" = Some r -> truthy r = true ->
                      items_of (JObj d) = ret r)
        /\ (truthy (dict_get n (lit "predictions")) = false ->
            truthy (dict_get n (lit "results")) = false ->
            items_of (JObj d) = ret (JArr [])))
  /\ (d !! lit "predictions" = None -> d !! lit "results" = None ->
      (forall n, d !! lit "data" <> Some (JObj n)) ->
      items_of (JObj d) = ret (JArr []))
  /\ (forall (title : string) (status : Z) (l : list json),
        items_of (JObj d) = ret (JArr l) ->
        (forall x, x ∈ take 5 l -> exists m, x = JObj m) ->
        exists rows,
          summarize title status (JObj d)
            = ([ Stdout [Lit nl; Lit "=== "; Lit title; Lit " ==="];
                 Stdout [Lit "Status: "; Int status];
                 Stdout [Lit "Items: "; Int (Z.of_nat (length l))] ] ++ rows,
               Ret tt)
          /\ length rows = Nat.min 5 (length l)
          /\ forall i item, (i < 5)%nat -> l !! i = Some item ->
                exists row, rows !! i = Some (Stdout row)
                            /\ show_item i item = ([Stdout row], Ret tt))
  /\ (items_of (JObj Spec.sample_predictions) = ret (JArr [Spec.item_X; Spec.item_Y])
      /\ summarize "Google Autocomplete" 200 (JObj Spec.sample_predictions)
         = ([ Stdout [Lit nl; Lit "=== "; Lit "Google Autocomplete"; Lit " ==="];
              Stdout [Lit "Status: "; Int 200];
              Stdout [Lit "Items: "; Int 2];
              Stdout [Int 1; Lit ". "; Val (JStr (lit "X")); Lit " | placeId="; Val JNull];
              Stdout [Int 2; Lit ". "; Val (JStr (lit "Y")); Lit " | placeId="; Val JNull] ],
            Ret tt)).
Proof.
  split; [|split; [|split; [|split; [|split]]]].
  - intros v Hv. unfold items_of, key_in, attr_get_or, dict_get_or.
    rewrite (dict_has_Some _ _ _ Hv), Hv. reflexivity.
  - intros Hp v Hv. unfold items_of, key_in, attr_get_or, dict_get_or.
    rewrite (dict_has_None _ _ Hp), (dict_has_Some _ _ _ Hv), Hv. reflexivity.
  - intros Hp Hr n Hd. rewrite (items_of_nested _ _ Hp Hr Hd). unfold py_or.
    split; [|split].
    + intros p Hnp Htp. rewrite (dict_get_Some _ _ _ Hnp). by rewrite !Htp.
    + intros Hfp r Hnr Htr. rewrite Hfp, (dict_get_Some _ _ _ Hnr).
      by rewrite !Htr.
    + intros Hfp Hfr. by rewrite Hfp, !Hfr.
  - intros Hp Hr Hd. unfold items_of, key_in, attr_get, dict_get.
    rewrite (dict_has_None _ _ Hp), (dict_has_None _ _ Hr). cbn [bind ret].
    destruct (d !! lit "data") as [[]|] eqn:E; try reflexivity.
    by destruct (Hd m).
  - intros title status l Hitems Hdict.
    destruct (show_rows (take 5 l) id Hdict) as (rows & Hrows & Hlen & Hnth).
    exists rows. unfold summarize. rewrite Hitems.
    cbn [bind print ret py_len displayed py_slice_items app].
    unfold id in Hrows. rewrite Hrows. split; [done|].
    split; [by rewrite Hlen, length_take|].
    intros i item Hi Hitem. apply Hnth. by rewrite lookup_take_lt.
  - split; vm_compute; reflexivity.
Qed.

(** C9.  At top level the choice is by key presence: a [predictions] key
    holding the empty list gives no items even beside a non-empty [results].
    Inside [data] the choice is by truthiness: an empty [data.predictions]
    gives way to a non-empty [data.results], and an empty [data.results] in
    turn to the empty list. *)
Theorem C9_presence_versus_truthiness :
  (forall (d : gmap (list N) json) (r : json),
      d !! lit "predictions" = Some (JArr []) -> d !! lit "results" = Some r ->
      items_of (JObj d) = ret (JArr []))
  /\ (forall d n : gmap (list N) json,
        d !! lit "predictions" = None -> d !! lit "results" = None ->
        d !! lit "data" = Some (JObj n) ->
        n !! lit "predictions" = Some (JArr []) ->
        (forall r, n !! lit "results" = Some r -> truthy r = true ->
                   items_of (JObj d) = ret r)
        /\ (n !! lit "results" = Some (JArr []) -> items_of (JObj d) = ret (JArr [])))
  /\ items_of (JObj {[ lit "predictions" := JArr [];
                       lit "results" := JArr [Spec.item_X] ]}) = ret (JArr [])
  /\ items_of (JObj {[ lit "data" :=
                         JObj {[ lit "predictions" := JArr [];
                                 lit "results" := JArr [Spec.item_X] ]} ]})
       = ret (JArr [Spec.item_X]).
Proof.
  split; [|split; [|split]].
  - intros d r Hp _. unfold items_of, key_in, attr_get_or, dict_get_or.
    rewrite (dict_has_Some _ _ _ Hp), Hp. reflexivity.
  - intros d n Hp Hr Hd Hnp. rewrite (items_of_nested _ _ Hp Hr Hd).
    rewrite (dict_get_Some _ _ _ Hnp). unfold py_or. cbn [truthy]. split.
    + intros r Hnr Htr. rewrite (dict_get_Some _ _ _ Hnr). by rewrite Htr.
    + intros Hnr. by rewrite (dict_get_Some _ _ _ Hnr).
  - vm_compute. reflexivity.
  - vm_compute. reflexivity.
Qed.

End Reporter.

(** ** The source scanner of the analyzer *)

Section Scanner.
Import analyze_sms_config.

Lemma contains_has (sub : string) (line : list N) :
  contains (lit sub) line = true <-> Spec.has sub line.
Proof. apply contains_spec. Qed.

Lemma hardcoded_test (line : list N) :
  contains (lit "devices:") line
  && (contains (lit "'1|1'") line || contains (lit "'2|2'") line
      || contains (lit "'0|0'") line) = true
  <-> Spec.hardcoded_line line.
Proof.
  unfold Spec.hardcoded_line.
  rewrite andb_true_iff, !orb_true_iff, !contains_has. tauto.
Qed.

Lemma templated_test (line : list N) :
  contains (lit "devices:") line && contains (lit "${this.defaultDevice}") line = true
  <-> Spec.templated_line line.
Proof.
  unfold Spec.templated_line. rewrite andb_true_iff, !contains_has. tauto.
Qed.

Lemma recognized_inj (i j : nat) : Spec.recognized j = Spec.recognized i -> j = i.
Proof. intros [= H]. by apply Nat2Z.inj in H. Qed.

(** One line of the scan: at most one finding, at most one recognition,
    each decided by its own substring test. *)
Lemma scan_line_spec (issues : list issue) (i : nat) (line : list N) :
  exists out found,
    scan_line issues (i, line) = (out, Ret (issues ++ found))
    /\ (Spec.hardcoded_line line -> found = [Spec.finding i])
    /\ (~ Spec.hardcoded_line line -> found = [])
    /\ (forall j, Spec.recognized j ∈ out <-> j = i /\ Spec.templated_line line).
Proof.
  unfold scan_line.
  setoid_rewrite <- hardcoded_test. setoid_rewrite <- templated_test.
  destruct (contains (lit "devices:") line
            && (contains (lit "'1|1'") line || contains (lit "'2|2'") line
                || contains (lit "'0|0'") line));
  destruct (contains (lit "devices:") line
            && contains (lit "${this.defaultDevice}") line);
  cbn [bind print print_error print_success when ret app].
  - eexists _, [Spec.finding i]. split; [reflexivity|].
    split; [done|]. split; [by intros []|]. intros j. split.
    + intros H. which_line H. split; [by apply recognized_inj | done].
    + intros [-> _]. do 2 right. by left.
  - eexists _, [Spec.finding i]. split; [reflexivity|].
    split; [done|]. split; [by intros []|]. intros j. split.
    + intros H. which_line H.
    + by intros [_ ?].
  - eexists _, []. split; [by rewrite app_nil_r|].
    split; [done|]. split; [done|]. intros j. split.
    + intros H. which_line H. split; [by apply recognized_inj | done].
    + intros [-> _]. by left.
  - eexists _, []. split; [by rewrite app_nil_r|].
    split; [done|]. split; [done|]. intros j. split.
    + intros H. which_line H.
    + by intros [_ ?].
Qed.

Lemma hardcoded_line_dec (line : list N) :
  Spec.hardcoded_line line \/ ~ Spec.hardcoded_line line.
Proof.
  rewrite <- hardcoded_test.
  destruct (contains (lit "devices:") line
            && (contains (lit "'1|1'") line || contains (lit "'2|2'") line
                || contains (lit "'0|0'") line)); auto.
Qed.

(** The first loop over numbered lines: the findings are those of the
    hardcoded lines, in order; the recognitions those of the templated ones. *)
Lemma scan_fold_spec (numbered : list (nat * list N)) (issues : list issue) :
  exists out idxs,
    for_fold numbered issues scan_line
      = (out, Ret (issues ++ (Spec.finding <$> idxs)))
    /\ idxs `sublist_of` numbered.*1
    /\ (forall n, n ∈ idxs <->
                  exists line, (n, line) ∈ numbered /\ Spec.hardcoded_line line)
    /\ (forall n, Spec.recognized n ∈ out <->
                  exists line, (n, line) ∈ numbered /\ Spec.templated_line line).
Proof.
  revert issues. induction numbered as [|[i line] rest IH]; intros issues.
  - exists [], []. cbn. rewrite app_nil_r. repeat split; try done.
    + by intros ?%elem_of_nil.
    + by intros (l & ?%elem_of_nil & _).
    + by intros ?%elem_of_nil.
    + by intros (l & ?%elem_of_nil & _).
  - destruct (scan_line_spec issues i line) as (out1 & found & Hrun & Hyes & Hno & Hrec).
    destruct (IH (issues ++ found)) as (out2 & idxs & Hrest & Hsub & Hidx & Hout).
    cbn [for_fold]. rewrite Hrun. cbn [bind]. rewrite Hrest.
    destruct (hardcoded_line_dec line) as [Hh | Hh].
    + exists (out1 ++ out2), (i :: idxs). rewrite (Hyes Hh), <- app_assoc.
      split; [done|]. split; [by apply sublist_skip|]. split.
      * intros n. rewrite elem_of_cons, Hidx. setoid_rewrite elem_of_cons. split.
        { intros [-> | (l & Hl & Hl')]; eauto. }
        intros (l & [[= -> ->] | Hl] & Hl'); eauto.
      * intros n. rewrite elem_of_app, Hrec, Hout. setoid_rewrite elem_of_cons. split.
        { intros [[-> Ht] | (l & Hl & Hl')]; eauto. }
        intros (l & [[= -> ->] | Hl] & Hl'); eauto.
    + exists (out1 ++ out2), idxs. rewrite (Hno Hh), app_nil_r.
      rewrite (Hno Hh), app_nil_r in Hrest.
      split; [done|]. split; [by apply sublist_cons|]. split.
      * intros n. rewrite Hidx. setoid_rewrite elem_of_cons. split.
        { intros (l & Hl & Hl'); eauto. }
        intros (l & [[= -> ->] | Hl] & Hl'); [done | eauto].
      * intros n. rewrite elem_of_app, Hrec, Hout. setoid_rewrite elem_of_cons. split.
        { intros [[-> Ht] | (l & Hl & Hl')]; eauto. }
        intros (l & [[= -> ->] | Hl] & Hl'); eauto.
Qed.

(** The second loop and the final report print no recognition line. *)
Lemma usage_fold_out (numbered : list (nat * list N)) (loaded : bool) :
  exists out loaded',
    for_fold numbered loaded env_usage_line = (out, Ret loaded')
    /\ forall n, Spec.recognized n ∉ out.
Proof.
  revert loaded. induction numbered as [|[i line] rest IH]; intros loaded.
  - exists [], loaded. split; [done|]. by intros n ?%elem_of_nil.
  - cbn [for_fold]. unfold env_usage_line at 1.
    destruct (contains (lit "this.defaultDevice") line
              && contains (lit "process.env.SMS_DEFAULT_DEVICE") line);
    destruct (contains (lit "this.defaultSimSlot") line
              && contains (lit "process.env.SMS_DEFAULT_SIM_SLOT") line);
    cbn [bind print print_success when ret app];
    [destruct (IH true) as (out & b & -> & Hout)
    |destruct (IH true) as (out & b & -> & Hout)
    |destruct (IH loaded) as (out & b & -> & Hout)
    |destruct (IH loaded) as (out & b & -> & Hout)];
    eexists _, b; (split; [reflexivity|]);
    intros n H; cbn [app] in H; which_line H; by eapply Hout.
Qed.

Lemma report_out (issues : list issue) :
  exists out, for_each issues report_issue = (out, Ret tt)
              /\ forall n, Spec.recognized n ∉ out.
Proof.
  induction issues as [|x issues (out & IH & Hout)].
  - exists []. split; [done|]. by intros n ?%elem_of_nil.
  - cbn [for_each]. unfold report_issue at 1. cbn [bind print]. rewrite IH.
    eexists. split; [reflexivity|].
    intros n H; cbn [app] in H; which_line H; by eapply Hout.
Qed.

Lemma enumerate1_elem (lines : list (list N)) (n : nat) (line : list N) :
  (n, line) ∈ enumerate1 lines <-> exists i, n = S i /\ lines !! i = Some line.
Proof.
  unfold enumerate1. rewrite elem_of_lookup_imap. split.
  - intros (i & y & [= -> ->] & H). eauto.
  - intros (i & -> & H). eauto.
Qed.

Lemma enumerate1_numbers (lines : list (list N)) :
  (enumerate1 lines).*1 = seq 1 (length lines).
Proof.
  unfold enumerate1. rewrite fmap_imap.
  rewrite (imap_ext _ (fun j _ => S j)) by done.
  by rewrite (imap_seq_0 lines S), fmap_S_seq.
Qed.

(** The whole scan of an existing file: a heading, the output of the first
    loop, and a tail without any recognition line. *)
Lemma check_sms_service_code_run (files : list N -> option (list N)) (raw : list N) :
  files service_file = Some raw ->
  exists out1 idxs tail,
    (idxs `sublist_of` (enumerate1 (split LF (universal_newlines raw))).*1
     /\ (forall n, n ∈ idxs <->
           exists line, (n, line) ∈ enumerate1 (split LF (universal_newlines raw))
                        /\ Spec.hardcoded_line line)
     /\ (forall n, Spec.recognized n ∈ out1 <->
           exists line, (n, line) ∈ enumerate1 (split LF (universal_newlines raw))
                        /\ Spec.templated_line line))
    /\ check_sms_service_code files
       = ((print_header [Lit "SMS SERVICE CODE ANALYSIS"]).1
          ++ Stdout [Lit "[INFO] "; Lit "Analyzing smsService.js for hardcoded values..."]
          :: out1 ++ tail,
          Ret (Spec.finding <$> idxs))
    /\ forall n, Spec.recognized n ∉ tail.
Proof.
  intros Hfile. unfold check_sms_service_code. rewrite Hfile.
  set (lines := split LF (universal_newlines raw)).
  destruct (scan_fold_spec (enumerate1 lines) []) as (out1 & idxs & Hscan & Hfacts).
  destruct (usage_fold_out (enumerate1 lines) false) as (out2 & loaded & Husage & Hout2).
  destruct (report_out (Spec.finding <$> idxs)) as (out3 & Hreport & Hout3).
  cbn [app] in Hscan.
  exists out1, idxs,
    (out2 ++ (if loaded then [] else
                [Stdout [Lit "[WARN] "; Lit "Could not verify environment variable loading"]])
          ++ match idxs with
             | [] => [Stdout [Lit "[OK] "; Lit "Code looks good - using environment variables!"]]
             | _ :: _ => Stdout [Lit nl; Lit "Found ";
                                 Int (Z.of_nat (length (Spec.finding <$> idxs)));
                                 Lit " issue(s)"] :: out3
             end).
  split; [done|]. split.
  - rewrite Hscan, Husage.
    cbn [bind print_header print_info print ret app fst].
    destruct idxs as [|k idxs'], loaded;
      rewrite ?fmap_nil, ?fmap_cons in Hreport |- *;
      cbn [negb when bind print print_warning print_success ret app];
      rewrite ?Hreport; cbn [bind ret app];
      rewrite ?app_nil_r, <- ?app_assoc; reflexivity.
  - intros n H. apply elem_of_app in H as [H|H]; [by destruct (Hout2 n)|].
    apply elem_of_app in H as [H|H].
    + destruct loaded; which_line H.
    + destruct idxs; which_line H. by destruct (Hout3 n).
Qed.

(** C6.  Line by line, [check_sms_service_code] records a finding for a
    line exactly when the line contains [devices:] together with one of
    ['1|1'], ['2|2'], ['0|0'], and prints its "correctly using" line exactly
    when the line contains [devices:] together with [${this.defaultDevice}];
    the two tests are independent.  Over a whole file the returned findings
    are those of the hardcoded lines, one each, numbered from 1.  The line
    [devices: '2|2',] gives one finding and no recognition; the templated
    line gives no finding and one recognition. *)
Theorem C6_scanner :
  (forall (issues : list issue) (i : nat) (line : list N),
      exists out found,
        scan_line issues (i, line) = (out, Ret (issues ++ found))
        /\ (Spec.hardcoded_line line -> found = [Spec.finding i])
        /\ (~ Spec.hardcoded_line line -> found = [])
        /\ (Spec.recognized i ∈ out <-> Spec.templated_line line))
  /\ (forall (files : list N -> option (list N)) (raw : list N),
        files service_file = Some raw ->
        exists out idxs,
          check_sms_service_code files = (out, Ret (Spec.finding <$> idxs))
          /\ NoDup idxs
          /\ (forall n, n ∈ idxs <->
                 exists i line, n = S i
                   /\ split LF (universal_newlines raw) !! i = Some line
                   /\ Spec.hardcoded_line line)
          /\ (forall n, Spec.recognized n ∈ out <->
                 exists i line, n = S i
                   /\ split LF (universal_newlines raw) !! i = Some line
                   /\ Spec.templated_line line))
  /\ (for_fold (enumerate1 [Spec.hardcoded_sample]) [] scan_line
        = ([ Stdout [Lit "[ERROR] "; Lit "Line "; Int 1;
                     Lit ": Hardcoded device ID found!"];
             Stdout [Lit "   "; Txt (lit "devices: '2|2',")] ],
           Ret [Spec.finding 1])
      /\ (check_sms_service_code (fun _ => Some Spec.hardcoded_sample)).2
          = Ret [Spec.finding 1])
  /\ (for_fold (enumerate1 [Spec.templated_sample]) [] scan_line
        = ([Spec.recognized 1], Ret [])
      /\ (check_sms_service_code (fun _ => Some Spec.templated_sample)).2 = Ret []).
Proof.
  split; [|split; [|split]].
  - intros issues i line.
    destruct (scan_line_spec issues i line) as (out & found & Hrun & Hyes & Hno & Hrec).
    exists out, found. repeat (split; [done|]). rewrite Hrec. naive_solver.
  - intros files raw Hfile.
    destruct (check_sms_service_code_run files raw Hfile)
      as (out1 & idxs & tail & (Hsub & Hidx & Hrec) & -> & Htail).
    eexists _, idxs. split; [reflexivity|]. split.
    { eapply sublist_NoDup; [|exact Hsub]. rewrite enumerate1_numbers. apply NoDup_seq. }
    split.
    { intros n. rewrite Hidx. setoid_rewrite enumerate1_elem. naive_solver. }
    intros n. transitivity (Spec.recognized n ∈ out1).
    2:{ rewrite Hrec. setoid_rewrite enumerate1_elem. naive_solver. }
    split.
    + intros H. cbn in H. which_line H.
      apply elem_of_app in H as [H|H]; [done | by destruct (Htail n)].
    + intros H. cbn. do 4 right. apply elem_of_app. by left.
  - split; vm_compute; reflexivity.
  - split; vm_compute; reflexivity.
Qed.

End Scanner.

(** ** Configuration analysis of the analyzer *)

Section Analysis.
Import analyze_sms_config.

(** A text none of whose lines contributes a key parses to the empty map. *)
Lemma env_fold_no_keys (lines : list (list N)) :
  (forall line k v, line ∈ lines -> ~ Spec.contributes line k v) ->
  for_fold lines ∅ env_line = ret ∅.
Proof.
  intros Hnone. rewrite analyzer_env_line_same.
  destruct (env_fold_spec lines ∅) as (config & -> & Hspec).
  assert (config = ∅) as ->; [|done].
  apply map_eq. intros k. rewrite lookup_empty.
  destruct (config !! k) as [v|] eqn:E; [|done].
  apply Hspec in E as [(pre & l & post & -> & Hc & _) | [E _]].
  - destruct (Hnone l k v); [|done]. apply elem_of_app. right. by left.
  - by rewrite lookup_empty in E.
Qed.

(** C10.  An existing [.env] none of whose lines contributes a key makes
    [read_env_file] return the empty map; the caller's [not config] holds
    for it, so [analyze_sms_configuration] reports "Failed to read .env
    file" and returns [None]: the result it gives for a missing file, whose
    report only has the "not found" line of [read_env_file] in addition. *)
Theorem C10_empty_env_is_read_failure
    (files : list N -> option (list N)) (content : list N) :
  files (lit ".env") = Some content ->
  (forall line k v, line ∈ file_lines content -> ~ Spec.contributes line k v) ->
  read_env_file files (lit ".env") = ret (Some ∅)
  /\ not_config (Some ∅) = true
  /\ analyze_sms_configuration files
     = (Spec.analysis_heading ++ [Stdout [Lit "[ERROR] "; Lit "Failed to read .env file"]],
        Ret None)
  /\ forall missing : list N -> option (list N),
       missing (lit ".env") = None ->
       analyze_sms_configuration missing
       = (Spec.analysis_heading
            ++ [Stdout [Lit "[ERROR] "; Lit ".env file not found at: "; Txt (lit ".env")];
                Stdout [Lit "[ERROR] "; Lit "Failed to read .env file"]],
          Ret None)
       /\ (analyze_sms_configuration missing).2 = (analyze_sms_configuration files).2.
Proof.
  intros Hfile Hnone.
  assert (Hread : read_env_file files (lit ".env") = ret (Some ∅)).
  { unfold read_env_file. rewrite Hfile, (env_fold_no_keys _ Hnone). reflexivity. }
  assert (Hrun : analyze_sms_configuration files
     = (Spec.analysis_heading ++ [Stdout [Lit "[ERROR] "; Lit "Failed to read .env file"]],
        Ret None)).
  { unfold analyze_sms_configuration. rewrite Hread. reflexivity. }
  split; [done|]. split; [reflexivity|]. split; [done|].
  intros missing Hmissing.
  assert (Hrun' : analyze_sms_configuration missing
       = (Spec.analysis_heading
            ++ [Stdout [Lit "[ERROR] "; Lit ".env file not found at: "; Txt (lit ".env")];
                Stdout [Lit "[ERROR] "; Lit "Failed to read .env file"]],
          Ret None)).
  { unfold analyze_sms_configuration, read_env_file. rewrite Hmissing. reflexivity. }
  split; [done|]. by rewrite Hrun, Hrun'.
Qed.

End Analysis.

(** C10 at a concrete input: a file with a comment line and a line without
    [=]. *)
Lemma C10_empty_env_witness :
  let content := lit "# A=1" ++ [LF] ++ lit "NOKEY" ++ [LF] in
  let files : list N -> option (list N) := fun _ => Some content in
  analyze_sms_config.read_env_file files (lit ".env") = ret (Some ∅)
  /\ analyze_sms_config.analyze_sms_configuration files
     = (Spec.analysis_heading ++ [Stdout [Lit "[ERROR] "; Lit "Failed to read .env file"]],
        Ret None).
Proof.
  intros content files.
  destruct (C10_empty_env_is_read_failure files content) as (H1 & _ & H2 & _).
  - reflexivity.
  - intros line k v Hline [(_ & Hhash & Heq) _].
    change (file_lines content) with [lit "# A=1" ++ [LF]; lit "NOKEY" ++ [LF]] in Hline.
    apply elem_of_cons in Hline as [-> | Hline].
    + exact (Hhash _ eq_refl).
    + apply list_elem_of_singleton in Hline as ->.
      apply (contains_char 61) in Heq. discriminate Heq.
  - split; [exact H1 | exact H2].
Defined.

(** ** The configuration check of the SMS tester *)

Section ConfigurationCheck.
Import test_sms_api.

Variable DEFAULT_DEVICE : Z.
Variable DEFAULT_SIM_SLOT : Z.

Lemma iter_records (l : list (gmap (list N) json)) :
  py_iter (JArr (JObj <$> l)) = ret (JObj <$> l).
Proof. reflexivity. Qed.

Lemma device_ids_records (l : list (gmap (list N) json)) :
  map_m (fun d => attr_get d (lit "id")) (JObj <$> l) = ret (Spec.id_of <$> l).
Proof.
  induction l as [|d l IH]; [done|].
  rewrite !fmap_cons. cbn [map_m attr_get bind ret app]. by rewrite IH.
Qed.

Lemma id_listed (l : list (gmap (list N) json)) :
  existsb (fun id => eq_int id DEFAULT_DEVICE) (Spec.id_of <$> l) = true
  <-> exists d, d ∈ l /\ Spec.has_id DEFAULT_DEVICE d.
Proof.
  rewrite existsb_exists. setoid_rewrite <- list_elem_of_In.
  setoid_rewrite list_elem_of_fmap. unfold Spec.has_id. naive_solver.
Qed.

Lemma id_not_listed (l : list (gmap (list N) json)) :
  (forall d, d ∈ l -> ~ Spec.has_id DEFAULT_DEVICE d) ->
  existsb (fun id => eq_int id DEFAULT_DEVICE) (Spec.id_of <$> l) = false.
Proof.
  intros H. apply not_true_is_false. rewrite id_listed. naive_solver.
Qed.

Lemma next_where_first (before after : list (gmap (list N) json))
    (target : gmap (list N) json) :
  (forall d, d ∈ before -> ~ Spec.has_id DEFAULT_DEVICE d) ->
  Spec.has_id DEFAULT_DEVICE target ->
  next_where (has_default_id DEFAULT_DEVICE) (JObj <$> before ++ target :: after)
    = ret (JObj target).
Proof.
  intros Hbefore Htarget. induction before as [|d before IH].
  - cbn [app]. rewrite fmap_cons.
    cbn [next_where has_default_id attr_get bind ret].
    unfold Spec.has_id, Spec.id_of in Htarget. by rewrite Htarget.
  - rewrite <- app_comm_cons, fmap_cons. cbn [next_where has_default_id attr_get bind ret].
    assert (Hd : eq_int (dict_get d (lit "id")) DEFAULT_DEVICE = false).
    { apply not_true_is_false. apply Hbefore. by left. }
    rewrite Hd. cbn [app]. rewrite IH; [done|]. intros x Hx. apply Hbefore. by right.
Qed.

(** A record with the configured id is a non-empty dict. *)
Lemma has_id_truthy (d : gmap (list N) json) :
  Spec.has_id DEFAULT_DEVICE d -> truthy (JObj d) = true.
Proof.
  unfold Spec.has_id, Spec.id_of, dict_get. intros H. cbn.
  apply negb_true_iff, bool_decide_eq_false. intros ->.
  by rewrite lookup_empty in H.
Qed.

Lemma check_absent (l : list (gmap (list N) json)) :
  (forall d, d ∈ l -> ~ Spec.has_id DEFAULT_DEVICE d) ->
  configuration_check DEFAULT_DEVICE DEFAULT_SIM_SLOT (JArr (JObj <$> l))
    = (Spec.check_heading ++ Spec.device_missing DEFAULT_DEVICE (Spec.id_of <$> l), Ret tt).
Proof.
  intros Hnone. unfold configuration_check.
  cbn [bind print ret py_iter]. rewrite device_ids_records. cbn [bind ret].
  rewrite (id_not_listed _ Hnone). reflexivity.
Qed.

(** The check up to the SIM validation, for the first record with the
    configured id. *)
Lemma check_found (before after : list (gmap (list N) json))
    (target : gmap (list N) json) (rest : M unit) :
  (forall d, d ∈ before -> ~ Spec.has_id DEFAULT_DEVICE d) ->
  Spec.has_id DEFAULT_DEVICE target ->
  (let* first_sim :=
     if (DEFAULT_SIM_SLOT =? 0)%Z
     then let* sim1 := attr_get (JObj target) (lit "sim1") in ret (truthy sim1)
     else ret false in
   if first_sim then
     let* sim := attr_get (JObj target) (lit "sim1") in show_sim sim
   else
     let* second_sim :=
       if (DEFAULT_SIM_SLOT =? 1)%Z
       then let* sim2 := attr_get (JObj target) (lit "sim2") in ret (truthy sim2)
       else ret false in
     if second_sim then
       let* sim := attr_get (JObj target) (lit "sim2") in show_sim sim
     else
       print_error [Lit "SIM Slot "; Int DEFAULT_SIM_SLOT;
                    Lit " not found on this device!"]) = rest ->
  configuration_check DEFAULT_DEVICE DEFAULT_SIM_SLOT
      (JArr (JObj <$> before ++ target :: after))
    = (Spec.check_heading
         ++ Spec.device_exists DEFAULT_DEVICE
         :: Spec.configured_lines DEFAULT_DEVICE DEFAULT_SIM_SLOT ++ rest.1,
       rest.2).
Proof.
  intros Hbefore Htarget Hrest. unfold configuration_check.
  cbn [bind print ret py_iter]. rewrite device_ids_records. cbn [bind ret].
  assert (Hin : existsb (fun id => eq_int id DEFAULT_DEVICE)
                  (Spec.id_of <$> before ++ target :: after) = true).
  { apply id_listed. exists target. split; [|done]. apply elem_of_app. right. by left. }
  rewrite Hin. cbn [bind print print_success ret].
  rewrite (next_where_first _ _ _ Hbefore Htarget). cbn [bind ret].
  rewrite (has_id_truthy _ Htarget). cbn [when bind print ret].
  rewrite Hrest. by destruct rest as [o r].
Qed.

Lemma sim_present_get (d sim : gmap (list N) json) (key : string) :
  Spec.sim_present d key sim ->
  dict_get d (lit key) = JObj sim /\ truthy (JObj sim) = true.
Proof.
  intros [Hd Hne]. split; [by apply dict_get_Some|].
  cbn. by apply negb_true_iff, bool_decide_eq_false.
Qed.

(** A computation that returns normally is its output and [Ret]. *)
Lemma returns_eta {A} (m : M A) (a : A) : m.2 = Ret a -> m = (m.1, Ret a).
Proof. destruct m as [o r]. simpl. by intros ->. Qed.

Lemma for_each_returns {A} (xs : list A) (body : A -> M unit) :
  (forall x, x ∈ xs -> (body x).2 = Ret tt) -> (for_each xs body).2 = Ret tt.
Proof.
  induction xs as [|x xs IH]; intros H; [done|].
  cbn [for_each]. rewrite (returns_eta (body x) tt) by (apply H; by left).
  cbn [bind].
  assert (Hrest : (for_each xs body).2 = Ret tt).
  { apply IH. intros y Hy. apply H. by right. }
  destruct (for_each xs body) as [o r]. exact Hrest.
Qed.

Lemma show_device_returns (d : gmap (list N) json) :
  Spec.sims_well_formed d -> (show_device (JObj d)).2 = Ret tt.
Proof.
  intros Hwf. unfold show_device.
  cbn [attr_get attr_get_or bind print ret snd].
  assert (Hsim : forall key, key = lit "sim1" \/ key = lit "sim2" ->
            truthy (dict_get_or d key (JObj ∅)) = false
            \/ exists sim, dict_get_or d key (JObj ∅) = JObj sim).
  { intros key Hkey. unfold dict_get_or. destruct (d !! key) as [v|] eqn:E; cbn.
    - destruct (truthy v) eqn:Hv; [right; by eapply Hwf | by left].
    - by left. }
  destruct (Hsim (lit "sim1")) as [-> | [s1 ->]]; [by left| |];
    destruct (Hsim (lit "sim2")) as [-> | [s2 ->]]; try (by right);
    repeat (match goal with |- context [truthy ?v] => destruct (truthy v) end);
    reflexivity.
Qed.

(** C7.  For a retrieved list of device records: when some record has the
    configured id, the check prints that the device EXISTS and goes on to
    the configured SIM slot of the first such record, slot 0 looking at
    [sim1] and slot 1 at [sim2]: a present SIM is described, and a missing
    one gives the "SIM Slot ... not found" error line, after which the check
    returns normally.  When no record has the id, the check prints NOT FOUND
    with the list of all ids and returns normally.  Either way
    [test_get_devices] then returns the device list. *)
Theorem C7_configuration_check (l : list (gmap (list N) json)) :
  (forall before target after,
      l = before ++ target :: after ->
      (forall d, d ∈ before -> ~ Spec.has_id DEFAULT_DEVICE d) ->
      Spec.has_id DEFAULT_DEVICE target ->
      (forall sim,
          (DEFAULT_SIM_SLOT = 0%Z /\ Spec.sim_present target "sim1" sim)
          \/ (DEFAULT_SIM_SLOT = 1%Z /\ Spec.sim_present target "sim2" sim) ->
          configuration_check DEFAULT_DEVICE DEFAULT_SIM_SLOT (JArr (JObj <$> l))
            = (Spec.check_heading
                 ++ Spec.device_exists DEFAULT_DEVICE
                 :: Spec.configured_lines DEFAULT_DEVICE DEFAULT_SIM_SLOT
                 ++ Spec.sim_lines sim,
               Ret tt))
      /\ ((DEFAULT_SIM_SLOT = 0%Z -> Spec.sim_absent target "sim1") ->
          (DEFAULT_SIM_SLOT = 1%Z -> Spec.sim_absent target "sim2") ->
          configuration_check DEFAULT_DEVICE DEFAULT_SIM_SLOT (JArr (JObj <$> l))
            = (Spec.check_heading
                 ++ Spec.device_exists DEFAULT_DEVICE
                 :: Spec.configured_lines DEFAULT_DEVICE DEFAULT_SIM_SLOT
                 ++ [Spec.slot_missing DEFAULT_SIM_SLOT],
               Ret tt)))
  /\ ((forall d, d ∈ l -> ~ Spec.has_id DEFAULT_DEVICE d) ->
      configuration_check DEFAULT_DEVICE DEFAULT_SIM_SLOT (JArr (JObj <$> l))
        = (Spec.check_heading ++ Spec.device_missing DEFAULT_DEVICE (Spec.id_of <$> l),
           Ret tt))
  /\ (forall (SERVER API_KEY : list N) (json_loads : list N -> decoding)
             (post : Requests.post_request -> res Requests.response)
             (body : list N) (data inner : gmap (list N) json) (report : list output),
        post (Requests.Post (SERVER ++ lit "/services/get-devices.php")
                [kv "key" (JStr API_KEY)] Requests.form_headers 15)
          = Ret (Requests.Response 200 body) ->
        json_loads body = Decoded (JObj data) ->
        truthy (dict_get data (lit "success")) = true ->
        data !! lit "data" = Some (JObj inner) ->
        inner !! lit "devices" = Some (JArr (JObj <$> l)) ->
        (forall d, d ∈ l -> Spec.sims_well_formed d) ->
        configuration_check DEFAULT_DEVICE DEFAULT_SIM_SLOT (JArr (JObj <$> l))
          = (report, Ret tt) ->
        test_get_devices SERVER API_KEY DEFAULT_DEVICE DEFAULT_SIM_SLOT json_loads post
          = (Spec.devices_intro SERVER API_KEY (length l)
               ++ (for_each (JObj <$> l) show_device).1 ++ report,
             Ret (JArr (JObj <$> l)))).
Proof.
  split; [|split].
  - intros before target after -> Hbefore Htarget. split.
    + intros sim Hsim.
      rewrite (check_found before after target (Spec.sim_lines sim, Ret tt));
        [reflexivity | done | done |].
      destruct Hsim as [[-> Hsim] | [-> Hsim]];
        destruct (sim_present_get _ _ _ Hsim) as [Hget Htruthy];
        cbn [Z.eqb Pos.eqb attr_get bind ret]; rewrite Hget, Htruthy; reflexivity.
    + intros H0 H1.
      rewrite (check_found before after target
                 ([Spec.slot_missing DEFAULT_SIM_SLOT], Ret tt));
        [reflexivity | done | done |].
      destruct (Z.eqb_spec DEFAULT_SIM_SLOT 0) as [E0 | _].
      { cbn [attr_get bind ret]. rewrite (H0 E0). rewrite E0. reflexivity. }
      destruct (Z.eqb_spec DEFAULT_SIM_SLOT 1) as [E1 | _].
      { cbn [attr_get bind ret]. rewrite (H1 E1). reflexivity. }
      reflexivity.
  - apply check_absent.
  - intros SERVER API_KEY json_loads post body data inner report
      Hpost Hjson Hsuccess Hdata Hdevices Hwf Hcheck.
    unfold test_get_devices.
    cbn [bind print print_header print_info ret]. rewrite Hpost.
    cbn [bind print print_info ret Requests.status_code Z.eqb Pos.eqb].
    unfold response_json. cbn [Requests.text]. rewrite Hjson.
    cbn [bind ret attr_get attr_get_or]. rewrite Hsuccess.
    unfold dict_get_or. rewrite Hdata. cbn [default from_option id attr_get_or].
    unfold dict_get_or. rewrite Hdevices.
    cbn [default from_option id bind print print_success ret py_len py_iter].
    rewrite (returns_eta (for_each (JObj <$> l) show_device) tt).
    2:{ apply for_each_returns. intros x (d & -> & Hd)%list_elem_of_fmap.
        by apply show_device_returns, Hwf. }
    rewrite Hcheck. cbn [bind ret try_except app fst].
    rewrite length_fmap, app_nil_r. reflexivity.
Qed.

End ConfigurationCheck.

(** The check under the configuration of the source (device 2, slot 1). *)
Example configured_device_found :
  test_sms_api.configuration_check 2 1 (JArr [JObj Spec.device_1; JObj Spec.device_2])
  = (Spec.check_heading
       ++ Spec.device_exists 2 :: Spec.configured_lines 2 1
       ++ [ Stdout [Lit "  SIM Number: "; Val (JStr (lit "+639170000000"))];
            Stdout [Lit "  SIM Operator: "; Val (JStr (lit "Globe"))] ],
     Ret tt).
Proof. vm_compute. reflexivity. Qed.

Example configured_slot_missing :
  test_sms_api.configuration_check 2 1 (JArr [JObj Spec.device_2_one_sim])
  = (Spec.check_heading
       ++ Spec.device_exists 2 :: Spec.configured_lines 2 1 ++ [Spec.slot_missing 1],
     Ret tt).
Proof. vm_compute. reflexivity. Qed.

Example configured_device_absent :
  test_sms_api.configuration_check 2 1 (JArr [JObj Spec.device_1])
  = (Spec.check_heading ++ Spec.device_missing 2 [JInt 1], Ret tt).
Proof. vm_compute. reflexivity. Qed.

(** ** Top-level entries *)

Section TopLevel.



End TopLevel.

(** ** Replies that are not JSON *)

Section NonJson.
Import Requests.

(** [json.loads] / [response.json()]'s decoder. *)
Variable json_loads : list N -> decoding.

Lemma decode_body_raw (body : list N) :
  json_loads body = Undecoded JSONDecodeError ->
  test_places_api.decode_body json_loads body = ret (JObj {[ lit "raw" := JStr body ]}).
Proof.
  intros H. unfold test_places_api.decode_body, test_places_api.loads.
  rewrite H. reflexivity.
Qed.

(** [decode_body] catches [JSONDecodeError] and nothing else. *)
Lemma decode_body_undecoded (body : list N) (c : error_class) :
  json_loads body = Undecoded c ->
  test_places_api.decode_body json_loads body
  = match c with
    | JSONDecodeError => ret (JObj {[ lit "raw" := JStr body ]})
    | _ => raise (Error c)
    end.
Proof.
  intros H. unfold test_places_api.decode_body, test_places_api.loads.
  rewrite H. by destruct c.
Qed.

(** C4, as the code has it.  In the Places tester [http_get] and
    [http_post_json] answer a body that [json.loads] rejects with
    [JSONDecodeError] by the envelope [(status, {'raw': body})]; they catch
    nothing else, so any other error of the decoder (a [RecursionError] on a
    body nested too deep, a plain [ValueError] on an over-long integer
    literal) reaches their caller.  The SMS scripts build no envelope; on a
    200 reply whose body the decoder rejects, with whatever error, none of
    their probes raises to its caller: the analyzer prints "Invalid JSON
    response" and the first 500 characters of the text for a
    [JSONDecodeError] and "Unexpected error" for an error of another class,
    the three probes of the SMS tester print their error line and return
    [None]. *)
Theorem C4_non_json_body (status : Z) (body : list N) (c : error_class) :
  json_loads body = Undecoded c ->
  (forall (urlopen : test_places_api.request -> res (Z * list N)) (url : list N),
      urlopen (test_places_api.Request url None [] 10) = Ret (status, body) ->
      test_places_api.http_get json_loads urlopen url
        = match c with
          | JSONDecodeError => ret (status, JObj {[ lit "raw" := JStr body ]})
          | _ => raise (Error c)
          end)
  /\ (forall (json_dumps : json -> list N)
             (urlopen : test_places_api.request -> res (Z * list N))
             (url : list N) (payload : json),
        urlopen (test_places_api.Request url (Some (json_dumps payload))
                   [("Content-Type", "application/json")%string] 10)
          = Ret (status, body) ->
        test_places_api.http_post_json json_loads json_dumps urlopen url payload
          = match c with
            | JSONDecodeError => ret (status, JObj {[ lit "raw" := JStr body ]})
            | _ => raise (Error c)
            end)
  /\ (forall (post : post_request -> res response) (api_key server_url : list N),
        api_key <> analyze_sms_config.NOT_SET ->
        post (Post (server_url ++ lit "/services/get-devices.php")
                [kv "key" (JStr api_key)] form_headers 15) = Ret (Response 200 body) ->
        exists out,
          analyze_sms_config.test_sms_api_devices json_loads post api_key server_url
            = (out, Ret tt)
          /\ (c = JSONDecodeError ->
              Stdout [Lit "[ERROR] "; Lit "Invalid JSON response"] ∈ out
              /\ Stdout [Lit "Response text:"; Lit " "; Txt (slice_to 500 body)] ∈ out)
          /\ (c <> JSONDecodeError ->
              is_ConnectionError (Error c) = false -> is_Timeout (Error c) = false ->
              Stdout [Lit "[ERROR] "; Lit "Unexpected error: "; ExcText (Error c)] ∈ out
              /\ Stdout [Lit "[ERROR] "; Lit "Invalid JSON response"] ∉ out))
  /\ (forall (SERVER API_KEY : list N) (device slot : Z)
             (post : post_request -> res response) (input : res (list N)),
        (forall r, post r = Ret (Response 200 body)) ->
        (exists out,
            test_sms_api.test_get_devices SERVER API_KEY device slot json_loads post
              = (out, Ret JNull)
            /\ (is_ConnectionError (Error c) = false -> is_Timeout (Error c) = false ->
                Stdout [Lit "[ERROR] "; Lit "Unexpected error: ";
                        ExcText (Error c)] ∈ out))
        /\ (exists out,
              test_sms_api.test_get_balance SERVER API_KEY json_loads post
                = (out, Ret JNull)
              /\ Stdout [Lit "[ERROR] "; Lit "Error getting balance: ";
                         ExcText (Error c)] ∈ out)
        /\ (forall answer, input = Ret answer -> lower (strip answer) = lit "y" ->
              exists out,
                test_sms_api.test_send_single_message SERVER API_KEY device slot
                    json_loads post input
                  = (out, Ret JNull)
                /\ Stdout [Lit "[ERROR] "; Lit "Error sending message: ";
                           ExcText (Error c)] ∈ out
                /\ Traceback (Error c) ∈ out)).
Proof.
  intros Hjson. split; [|split; [|split]].
  - intros urlopen url Hopen. unfold test_places_api.http_get.
    rewrite Hopen. cbn [bind]. rewrite (decode_body_undecoded _ _ Hjson).
    by destruct c.
  - intros json_dumps urlopen url payload Hopen. unfold test_places_api.http_post_json.
    rewrite Hopen. cbn [bind]. rewrite (decode_body_undecoded _ _ Hjson).
    by destruct c.
  - intros post api_key server_url Hkey Hpost.
    unfold analyze_sms_config.test_sms_api_devices.
    rewrite bool_decide_eq_false_2 by done. rewrite Hpost.
    unfold analyze_sms_config.response_json. cbn. rewrite Hjson.
    destruct c; cbn;
      (eexists; split; [reflexivity|]; split;
       [ intros Hc; first [discriminate Hc | split; printed]
       | intros Hc Hconn Htime;
         first [ by destruct Hc | discriminate Hconn | discriminate Htime
               | split; [printed | intros H; which_line H] ] ]).
  - intros SERVER API_KEY device slot post input Hpost. split; [|split].
    + unfold test_sms_api.test_get_devices. rewrite Hpost.
      unfold test_sms_api.response_json. cbn. rewrite Hjson.
      destruct c; cbn;
        (eexists; split; [reflexivity|]; intros Hconn Htime;
         first [discriminate Hconn | discriminate Htime | printed]).
    + unfold test_sms_api.test_get_balance. rewrite Hpost.
      unfold test_sms_api.response_json. cbn. rewrite Hjson. cbn.
      eexists. split; [reflexivity | printed].
    + intros answer -> Hyes. unfold test_sms_api.test_send_single_message.
      cbn [bind]. rewrite Hyes, Hpost.
      unfold test_sms_api.response_json. cbn. rewrite Hjson. cbn.
      eexists. split; [reflexivity|]. split; printed.
Qed.

End NonJson.

(** C4 at a concrete input: a decoder that rejects the body ["<html>"] as no
    JSON. *)
Lemma C4_non_json_body_witness :
  test_places_api.http_get (fun _ => Undecoded JSONDecodeError)
    (fun _ => Ret (200%Z, lit "<html>")) (lit "u")
    = ret (200%Z, JObj {[ lit "raw" := JStr (lit "<html>") ]}).
Proof.
  apply (C4_non_json_body (fun _ => Undecoded JSONDecodeError) 200%Z (lit "<html>")
           JSONDecodeError eq_refl).
  reflexivity.
Defined.

(** The claim as the specification words it fails twice.  For the SMS
    tester: on a 200 reply that is not JSON, [test_get_devices] returns
    [None], not an envelope, and the text of the reply is not among what it
    printed.  For the Places tester: when the decoder gives up on the body
    with a [RecursionError], [http_get] raises it to its caller. *)
Lemma C4_reply_without_envelope :
  let json_loads : list N -> decoding := fun _ => Undecoded JSONDecodeError in
  let too_deep : list N -> decoding :=
    fun _ => Undecoded (OtherError "RecursionError") in
  let post : Requests.post_request -> res Requests.response :=
    fun _ => Ret (Requests.Response 200 (lit "<html>")) in
  json_loads (lit "<html>") = Undecoded JSONDecodeError
  /\ test_sms_api.test_get_devices
       test_sms_api.Configured.SERVER test_sms_api.Configured.API_KEY
       test_sms_api.Configured.DEFAULT_DEVICE test_sms_api.Configured.DEFAULT_SIM_SLOT
       json_loads post
     = ([ Stdout [Lit nl; Lit (times "=" 60)];
          Stdout [Lit "TEST 1: GET AVAILABLE DEVICES"];
          Stdout [Lit (times "=" 60); Lit nl];
          Stdout [Lit "[INFO] "; Lit "Requesting: ";
                  Txt (lit "https://sms.parktayo.com/services/get-devices.php")];
          Stdout [Lit "[INFO] "; Lit "API Key: "; Txt (lit "3347205ca1a5dee");
                  Lit "..."; Txt (lit "5cfcda38ff")];
          Stdout [Lit "[INFO] "; Lit "Response Status: "; Int 200];
          Stdout [Lit "[ERROR] "; Lit "Unexpected error: ";
                  ExcText (Error JSONDecodeError)] ],
        Ret JNull)
  /\ test_places_api.http_get too_deep (fun _ => Ret (200%Z, lit "[[[[")) (lit "u")
     = ([], Raise (Error (OtherError "RecursionError")))
  /\ test_places_api.http_get too_deep (fun _ => Ret (200%Z, lit "[[[[")) (lit "u")
     <> ret (200%Z, JObj {[ lit "raw" := JStr (lit "[[[[") ]}).
Proof. repeat split; try (vm_compute; reflexivity). vm_compute. discriminate. Qed.

(** * Part III  Further properties of the scripts *)

Import Outcome.

(** ** What a computation can raise *)

Section Raising.
Context {A B : Type}.

Lemma bind_raises (m : M A) (k : A -> M B) (e : exn) :
  (bind m k).2 = Raise e ->
  m.2 = Raise e \/ exists a, m.2 = Ret a /\ (k a).2 = Raise e.
Proof.
  destruct m as [o [a|e']]; cbn.
  - destruct (k a) as [o' r] eqn:E. cbn. intros ->. right. exists a. by rewrite E.
  - intros [= ->]. by left.
Qed.

Lemma bind_returns (m : M A) (k : A -> M B) (b : B) :
  (bind m k).2 = Ret b -> exists a, m.2 = Ret a /\ (k a).2 = Ret b.
Proof.
  destruct m as [o [a|e']]; cbn; [|done].
  destruct (k a) as [o' r] eqn:E. cbn. intros ->. exists a. by rewrite E.
Qed.

Lemma bind_output (m : M A) (k : A -> M B) (a : A) :
  m.2 = Ret a -> (bind m k).1 = m.1 ++ (k a).1.
Proof. destruct m as [o r]. cbn. intros ->. by destruct (k a). Qed.

Lemma bind_result (m : M A) (k : A -> M B) (a : A) :
  m.2 = Ret a -> (bind m k).2 = (k a).2.
Proof. destruct m as [o r]. cbn. intros ->. by destruct (k a). Qed.

Lemma within_bind (P : exn -> Prop) (m : M A) (k : A -> M B) :
  raises_only P m -> (forall a, raises_only P (k a)) -> raises_only P (bind m k).
Proof.
  intros Hm Hk e [H | (a & _ & H)]%bind_raises; [by apply Hm | by eapply Hk].
Qed.

Lemma within_ret (P : exn -> Prop) (a : A) : raises_only P (ret a).
Proof. by intros e. Qed.

Lemma within_returned (P : exn -> Prop) (o : list output) (a : A) :
  raises_only P (o, Ret a).
Proof. by intros e. Qed.

Lemma within_raise (P : exn -> Prop) (e : exn) : P e -> raises_only P (@raise A e).
Proof. intros H e' [= <-]. done. Qed.


(** A [try] whose handler takes every exception [P] allows, and whose
    clauses return. *)
Lemma within_try (P Q : exn -> Prop) (m : M A) (handler : exn -> option (M A)) :
  raises_only P m ->
  (forall e, P e -> match handler e with
                    | Some h => raises_only Q h
                    | None => Q e
                    end) ->
  raises_only Q (try_except m handler).
Proof.
  intros Hm Hh e. destruct m as [o [a|e']]; cbn; [done|].
  specialize (Hh e' (Hm e' eq_refl)).
  destruct (handler e') as [[o' r]|]; cbn.
  - intros ->. by apply Hh.
  - by intros [= <-].
Qed.

End Raising.

Lemma within_print (P : exn -> Prop) (t : list frag) : raises_only P (print t).
Proof. by intros e. Qed.

Lemma within_for_each {A} (P : exn -> Prop) (xs : list A) (body : A -> M unit) :
  (forall x, raises_only P (body x)) -> raises_only P (for_each xs body).
Proof.
  intros H. induction xs as [|x xs IH]; [by intros e|].
  cbn [for_each]. apply within_bind; [apply H | by intros _].
Qed.

Lemma within_for_fold {A S} (P : exn -> Prop) (xs : list A) (acc : S)
    (body : S -> A -> M S) :
  (forall s x, raises_only P (body s x)) -> raises_only P (for_fold xs acc body).
Proof.
  intros H. revert acc. induction xs as [|x xs IH]; intros acc; [by intros e|].
  cbn [for_fold]. apply within_bind; [apply H | intros s; apply IH].
Qed.

Lemma within_map_m {A B} (P : exn -> Prop) (f : A -> M B) (xs : list A) :
  (forall x, raises_only P (f x)) -> raises_only P (map_m f xs).
Proof.
  intros H. induction xs as [|x xs IH]; [by intros e|].
  cbn [map_m]. apply within_bind; [apply H|]. intros y.
  apply within_bind; [apply IH | intros ys; apply within_ret].
Qed.

Lemma within_next_where (P : exn -> Prop) (p : json -> M bool) (xs : list json) :
  (forall x, raises_only P (p x)) -> raises_only P (next_where p xs).
Proof.
  intros H. induction xs as [|x xs IH]; [by intros e|].
  cbn [next_where]. apply within_bind; [apply H|]. intros []; [apply within_ret | apply IH].
Qed.

(** The operations on a value of unknown shape raise nothing but errors. *)
Section Errors.
Variable P : exn -> Prop.
Hypothesis errors : forall c, P (Error c).

Lemma within_attr_get (v : json) (k : list N) : raises_only P (attr_get v k).
Proof. destruct v; intros e [= <-]; apply errors. Qed.

Lemma within_attr_get_or (v : json) (k : list N) (d : json) :
  raises_only P (attr_get_or v k d).
Proof. destruct v; intros e [= <-]; apply errors. Qed.

Lemma within_py_len (v : json) : raises_only P (py_len v).
Proof. destruct v; intros e [= <-]; apply errors. Qed.

Lemma within_py_iter (v : json) : raises_only P (py_iter v).
Proof. destruct v; intros e [= <-]; apply errors. Qed.

Lemma within_py_first (v : json) : raises_only P (py_first v).
Proof. destruct v as [| | | |[]|[]|]; intros e [= <-]; apply errors. Qed.

Lemma within_py_slice_items (n : nat) (v : json) : raises_only P (py_slice_items n v).
Proof. destruct v; intros e [= <-]; apply errors. Qed.

End Errors.

(** Breaks a goal [raises_only P m] along the shape of [m]. *)
Ltac within errors :=
  repeat first
    [ apply within_ret
    | apply within_returned
    | apply within_print
    | apply within_attr_get; exact errors
    | apply within_attr_get_or; exact errors
    | apply within_py_len; exact errors
    | apply within_py_iter; exact errors
    | apply within_py_first; exact errors
    | apply within_py_slice_items; exact errors
    | apply within_raise; apply errors
    | apply within_bind; [|intros ?]
    | apply within_for_each; intros ?
    | apply within_for_fold; intros ? ?
    | apply within_map_m; intros ?
    | apply within_next_where; intros ?
    | match goal with
      | |- raises_only _ (when ?c _) => unfold when
      | |- raises_only _ (if ?c then _ else _) => destruct c
      | |- raises_only _ (match ?x with _ => _ end) => destruct x
      | |- raises_only _ (let '(_, _) := ?x in _) => destruct x
      end ].

(** ** The probes of the SMS tester *)

Section TesterProbes.
Import Requests test_sms_api.

Variables (SERVER API_KEY : list N) (DEFAULT_DEVICE DEFAULT_SIM_SLOT : Z).
Variable json_loads : list N -> decoding.
Variable post : post_request -> res response.
Variable input : res (list N).

Abbreviation inside := (Outcome.inside post input).
Abbreviation passed_on := (Outcome.passed_on post input).

Lemma inside_errors (c : error_class) : inside (Error c).
Proof. left. by exists c. Qed.

Lemma within_post (r : post_request) : raises_only inside (([], post r) : M response).
Proof. intros e He. right. left. by exists r. Qed.

Lemma within_input : raises_only inside (([], input) : M (list N)).
Proof. intros e He. right. by right. Qed.

Lemma within_response_json (r : response) :
  raises_only inside (response_json json_loads r).
Proof. unfold response_json. destruct (json_loads _); within inside_errors. Qed.

(** A handler that takes every [Exception] and returns lets through only
    what came from outside. *)
Lemma handler_passes {A} (handler : exn -> option (M A)) :
  (forall c, exists h, handler (Error c) = Some h /\ returns h) ->
  (forall e, is_Exception e = false -> handler e = None) ->
  forall e, inside e ->
    match handler e with
    | Some h => raises_only passed_on h
    | None => passed_on e
    end.
Proof.
  intros Hcatch Hpass e He.
  destruct (is_Exception e) eqn:Hexc.
  - destruct e as [| |c]; try done.
    destruct (Hcatch c) as (h & -> & [a Ha]). intros e' He'. congruence.
  - rewrite (Hpass e Hexc). split; [done|].
    destruct He as [[c ->] | H]; [done | exact H].
Qed.

Lemma within_show_device (device : json) : raises_only inside (show_device device).
Proof. unfold show_device. within inside_errors. Qed.

Lemma within_configuration_check (devices : json) :
  raises_only inside (configuration_check DEFAULT_DEVICE DEFAULT_SIM_SLOT devices).
Proof.
  unfold configuration_check, has_default_id, show_sim. within inside_errors.
Qed.

Lemma test_get_devices_passes :
  raises_only passed_on
    (test_get_devices SERVER API_KEY DEFAULT_DEVICE DEFAULT_SIM_SLOT json_loads post).
Proof.
  unfold test_get_devices. apply within_bind; [unfold print_header; within inside_errors|].
  intros _. apply (within_try inside).
  - within inside_errors;
      first [apply within_post | apply within_response_json
            | apply within_show_device | apply within_configuration_check].
  - apply handler_passes.
    + intros c. unfold get_devices_handler.
      destruct (is_ConnectionError (Error c)); [eexists; split; [done|by eexists]|].
      destruct (is_Timeout (Error c)); eexists; (split; [done|by eexists]).
    + by intros [| |].
Qed.

Lemma test_get_balance_passes :
  raises_only passed_on (test_get_balance SERVER API_KEY json_loads post).
Proof.
  unfold test_get_balance. apply within_bind; [unfold print_header; within inside_errors|].
  intros _. apply (within_try inside).
  - within inside_errors; first [apply within_post | apply within_response_json].
  - apply handler_passes.
    + intros c. eexists. split; [done | by eexists].
    + by intros [| |].
Qed.

Lemma test_send_single_message_passes :
  raises_only passed_on
    (test_send_single_message SERVER API_KEY DEFAULT_DEVICE DEFAULT_SIM_SLOT
       json_loads post input).
Proof.
  unfold test_send_single_message.
  apply within_bind; [unfold print_header; within inside_errors|].
  intros _. apply (within_try inside).
  - unfold show_message.
    within inside_errors;
      first [apply within_post | apply within_input | apply within_response_json].
  - apply handler_passes.
    + intros c. eexists. split; [done | by eexists].
    + by intros [| |].
Qed.

Lemma main_passes :
  raises_only passed_on
    (main SERVER API_KEY DEFAULT_DEVICE DEFAULT_SIM_SLOT json_loads post input).
Proof.
  unfold main, print_header, print_error.
  repeat first
    [ apply within_print | apply within_ret
    | apply test_get_devices_passes | apply test_get_balance_passes
    | apply test_send_single_message_passes
    | apply within_bind; [|intros ?]
    | match goal with |- raises_only _ (if ?c then _ else _) => destruct c end ].
Qed.


(** X2.  Whatever the gateway replies and the operator types, short of an
    exit request raised from outside, the SMS tester run as a script ends
    with exit status 0: failures are reported on the console only. *)
Theorem X2_tester_exit_status_zero :
  (forall r, no_exit (post r)) -> no_exit input ->
  exit_status
    (run_as_script
       (main SERVER API_KEY DEFAULT_DEVICE DEFAULT_SIM_SLOT json_loads post input)).2
  = 0%Z.
Proof.
  intros Hpost Hinput. pose proof main_passes as Hmain.
  unfold run_as_script.
  destruct (main SERVER API_KEY DEFAULT_DEVICE DEFAULT_SIM_SLOT json_loads post input)
    as [o [[]|e]]; [done|].
  destruct (Hmain e eq_refl) as [Hexc Hfrom].
  destruct e as [|a|c]; [done| |done].
  exfalso. destruct Hfrom as [[r Hr] | Hi]; [by eapply Hpost | by eapply Hinput].
Qed.

End TesterProbes.

(** X2 with a gateway that cannot be reached. *)
Lemma X2_tester_exit_status_zero_witness :
  exit_status
    (test_sms_api.run_as_script
       (test_sms_api.main test_sms_api.Configured.SERVER test_sms_api.Configured.API_KEY
          test_sms_api.Configured.DEFAULT_DEVICE test_sms_api.Configured.DEFAULT_SIM_SLOT
          (fun _ => Undecoded JSONDecodeError) (fun _ => Raise (Error ConnectionError)) (Ret []))).2
  = 0%Z.
Proof.
  apply X2_tester_exit_status_zero.
  - intros r a. discriminate.
  - intros a. discriminate.
Defined.

(** ** The SMS tester: what each reply leads to *)

Section TesterReplies.
Import Requests test_sms_api.

Variables (SERVER API_KEY : list N) (DEFAULT_DEVICE DEFAULT_SIM_SLOT : Z).
Variable json_loads : list N -> decoding.

(** X3.  [test_get_devices] sorts the failures of its request: a connection
    error, and a timeout while connecting, are reported as "Connection
    failed"; a timeout while reading as "Request timed out"; any other error
    as "Unexpected error"; a status other than 200 as "HTTP Error" with at
    most the first 500 characters of the reply; a reply without a true
    [success] as "API Error" with the reply's [error] or "Unknown error".
    Each time the function returns [None]. *)
Theorem X3_get_devices_failures (post : post_request -> res response) :
  (forall c, post (Report.devices_post SERVER API_KEY) = Raise (Error c) ->
     test_get_devices SERVER API_KEY DEFAULT_DEVICE DEFAULT_SIM_SLOT json_loads post
     = (Report.devices_request SERVER API_KEY
          ++ match c with
             | ConnectionError | ConnectTimeout =>
                 [ Stdout [Lit "[ERROR] "; Lit "Connection failed to: "; Txt SERVER];
                   Stdout [Lit "[ERROR] ";
                           Lit "Make sure you have internet access and the SMS server is online"] ]
             | ReadTimeout =>
                 [ Stdout [Lit "[ERROR] "; Lit "Request timed out (15 seconds)"] ]
             | _ =>
                 [ Stdout [Lit "[ERROR] "; Lit "Unexpected error: "; ExcText (Error c)] ]
             end,
        Ret JNull))
  /\ (forall status body,
        post (Report.devices_post SERVER API_KEY) = Ret (Response status body) ->
        status <> 200%Z ->
        test_get_devices SERVER API_KEY DEFAULT_DEVICE DEFAULT_SIM_SLOT json_loads post
        = (Report.devices_request SERVER API_KEY
             ++ [ Report.response_status status;
                  Stdout [Lit "[ERROR] "; Lit "HTTP Error: "; Int status];
                  Stdout [Lit "Response: "; Txt (slice_to 500 body)] ],
           Ret JNull)
        /\ (length (slice_to 500 body) <= 500)%nat)
  /\ (forall body data,
        post (Report.devices_post SERVER API_KEY) = Ret (Response 200 body) ->
        json_loads body = Decoded (JObj data) ->
        truthy (dict_get data (lit "success")) = false ->
        test_get_devices SERVER API_KEY DEFAULT_DEVICE DEFAULT_SIM_SLOT json_loads post
        = (Report.devices_request SERVER API_KEY
             ++ [ Report.response_status 200;
                  Stdout [Lit "[ERROR] "; Lit "API Error: ";
                          Val (dict_get_or data (lit "error") (JStr (lit "Unknown error")))] ],
           Ret JNull)).
Proof.
  split; [|split].
  - intros c Hpost. unfold test_get_devices, Report.devices_post in *.
    rewrite Hpost. by destruct c.
  - intros status body Hpost Hstatus. unfold test_get_devices, Report.devices_post in *.
    rewrite Hpost. cbn [bind print print_header print_info ret status_code text].
    rewrite (proj2 (Z.eqb_neq status 200) Hstatus). split; [reflexivity|].
    unfold slice_to. rewrite length_take. lia.
  - intros body data Hpost Hjson Hsuccess.
    unfold test_get_devices, Report.devices_post in *.
    rewrite Hpost. cbn [bind print print_header print_info ret status_code text Z.eqb Pos.eqb].
    unfold response_json. cbn [text]. rewrite Hjson.
    cbn [bind ret attr_get attr_get_or]. rewrite Hsuccess. reflexivity.
Qed.

(** A successful listing of device records, up to the configuration check. *)
Lemma get_devices_records (post : post_request -> res response)
    (body : list N) (data inner : gmap (list N) json)
    (l : list (gmap (list N) json)) (report : list output) :
  post (Report.devices_post SERVER API_KEY) = Ret (Response 200 body) ->
  json_loads body = Decoded (JObj data) ->
  truthy (dict_get data (lit "success")) = true ->
  data !! lit "data" = Some (JObj inner) ->
  inner !! lit "devices" = Some (JArr (JObj <$> l)) ->
  (forall d, d ∈ l -> Spec.sims_well_formed d) ->
  configuration_check DEFAULT_DEVICE DEFAULT_SIM_SLOT (JArr (JObj <$> l))
    = (report, Ret tt) ->
  test_get_devices SERVER API_KEY DEFAULT_DEVICE DEFAULT_SIM_SLOT json_loads post
    = (Spec.devices_intro SERVER API_KEY (length l)
         ++ (for_each (JObj <$> l) show_device).1 ++ report,
       Ret (JArr (JObj <$> l))).
Proof.
  intros Hpost Hjson Hsuccess Hdata Hdevices Hwf Hcheck.
  unfold test_get_devices, Report.devices_post in *.
  cbn [bind print print_header print_info ret]. rewrite Hpost.
  cbn [bind print print_info ret Requests.status_code Z.eqb Pos.eqb].
  unfold response_json. cbn [Requests.text]. rewrite Hjson.
  cbn [bind ret attr_get attr_get_or]. rewrite Hsuccess.
  unfold dict_get_or. rewrite Hdata. cbn [default from_option id attr_get_or].
  unfold dict_get_or. rewrite Hdevices.
  cbn [default from_option id bind print print_success ret py_len py_iter].
  rewrite (returns_eta (for_each (JObj <$> l) show_device) tt).
  2:{ apply for_each_returns. intros x (d & -> & Hd)%list_elem_of_fmap.
      by apply show_device_returns, Hwf. }
  rewrite Hcheck. cbn [bind ret try_except app fst].
  rewrite length_fmap, app_nil_r. reflexivity.
Qed.

(** X5.  A successful reply that lists no device stops the tester as a
    failed one would: [test_get_devices] returns the empty list, [main] takes
    it for "no device information", prints "Cannot proceed" and returns,
    asking the operator nothing and making no other request. *)
Theorem X5_empty_device_list_stops_main (post : post_request -> res response)
    (body : list N) (data inner : gmap (list N) json) :
  post (Report.devices_post SERVER API_KEY) = Ret (Response 200 body) ->
  json_loads body = Decoded (JObj data) ->
  truthy (dict_get data (lit "success")) = true ->
  data !! lit "data" = Some (JObj inner) ->
  inner !! lit "devices" = Some (JArr []) ->
  test_get_devices SERVER API_KEY DEFAULT_DEVICE DEFAULT_SIM_SLOT json_loads post
    = (Spec.devices_intro SERVER API_KEY 0
         ++ Spec.check_heading ++ Spec.device_missing DEFAULT_DEVICE [],
       Ret (JArr []))
  /\ (forall input,
        (main SERVER API_KEY DEFAULT_DEVICE DEFAULT_SIM_SLOT json_loads post input).2
          = Ret tt
        /\ last (main SERVER API_KEY DEFAULT_DEVICE DEFAULT_SIM_SLOT json_loads post input).1
           = Some Report.cannot_proceed)
  /\ (forall input input' (post' : post_request -> res response),
        post' (Report.devices_post SERVER API_KEY)
          = post (Report.devices_post SERVER API_KEY) ->
        main SERVER API_KEY DEFAULT_DEVICE DEFAULT_SIM_SLOT json_loads post' input'
        = main SERVER API_KEY DEFAULT_DEVICE DEFAULT_SIM_SLOT json_loads post input).
Proof.
  intros Hpost Hjson Hsuccess Hdata Hdevices.
  assert (Hrun : forall p, p (Report.devices_post SERVER API_KEY)
                           = post (Report.devices_post SERVER API_KEY) ->
            test_get_devices SERVER API_KEY DEFAULT_DEVICE DEFAULT_SIM_SLOT json_loads p
            = (Spec.devices_intro SERVER API_KEY 0
                 ++ Spec.check_heading ++ Spec.device_missing DEFAULT_DEVICE [],
               Ret (JArr []))).
  { intros p Hp. rewrite Hpost in Hp.
    apply (get_devices_records p body data inner []); try done;
      try (intros d Hd; by apply elem_of_nil in Hd). }
  split; [by apply Hrun|]. split.
  - intros input. unfold main. rewrite (Hrun post eq_refl).
    split; [reflexivity|]. cbn [bind print print_error ret truthy negb fst].
    rewrite !app_assoc. apply last_snoc.
  - intros input input' post' Hsame. unfold main.
    rewrite (Hrun post eq_refl), (Hrun post' Hsame). reflexivity.
Qed.

(** X6.  On a successful reply [test_get_balance] reads [data.credits]: when
    it is absent or null the balance is reported as UNLIMITED and [None] is
    returned; any other value, zero included, is reported as the credits
    remaining and returned. *)
Theorem X6_balance_credits (post : post_request -> res response)
    (body : list N) (data inner : gmap (list N) json) :
  post (Report.balance_post SERVER API_KEY) = Ret (Response 200 body) ->
  json_loads body = Decoded (JObj data) ->
  truthy (dict_get data (lit "success")) = true ->
  dict_get_or data (lit "data") (JObj ∅) = JObj inner ->
  (dict_get inner (lit "credits") = JNull ->
     test_get_balance SERVER API_KEY json_loads post
     = (Report.balance_request SERVER
          ++ [Stdout [Lit "[OK] "; Lit "Message Credits: UNLIMITED"]],
        Ret JNull))
  /\ (forall credits, dict_get inner (lit "credits") = credits -> credits <> JNull ->
        test_get_balance SERVER API_KEY json_loads post
        = (Report.balance_request SERVER
             ++ [Stdout [Lit "[OK] "; Lit "Message Credits Remaining: "; Val credits]],
           Ret credits)).
Proof.
  intros Hpost Hjson Hsuccess Hinner.
  assert (Hrun : test_get_balance SERVER API_KEY json_loads post
    = (Report.balance_request SERVER
         ++ [match dict_get inner (lit "credits") with
             | JNull => Stdout [Lit "[OK] "; Lit "Message Credits: UNLIMITED"]
             | c => Stdout [Lit "[OK] "; Lit "Message Credits Remaining: "; Val c]
             end],
       Ret (dict_get inner (lit "credits")))).
  { unfold test_get_balance, Report.balance_post in *.
    cbn [bind print print_header print_info ret]. rewrite Hpost.
    cbn [bind ret Requests.status_code Z.eqb Pos.eqb].
    unfold response_json. cbn [Requests.text]. rewrite Hjson.
    cbn [bind ret attr_get attr_get_or]. rewrite Hsuccess, Hinner.
    cbn [bind ret attr_get].
    by destruct (dict_get inner (lit "credits")). }
  split.
  - intros Hc. by rewrite Hrun, Hc.
  - intros credits <- Hne. rewrite Hrun.
    by destruct (dict_get inner (lit "credits")).
Qed.

(** X4.  The send test posts nothing unless the operator's answer, trimmed
    and lower-cased, is [y]: with any other answer, or none, its outcome is
    the same whatever the gateway would have replied, and an answer other
    than [y] ends it with "Test cancelled by user" and [None]. *)
Theorem X4_send_needs_confirmation (input : res (list N)) :
  (forall answer, input = Ret answer -> lower (strip answer) <> lit "y") ->
  (forall post post' : post_request -> res response,
      test_send_single_message SERVER API_KEY DEFAULT_DEVICE DEFAULT_SIM_SLOT
        json_loads post input
      = test_send_single_message SERVER API_KEY DEFAULT_DEVICE DEFAULT_SIM_SLOT
          json_loads post' input)
  /\ (forall (post : post_request -> res response) answer,
        input = Ret answer ->
        (test_send_single_message SERVER API_KEY DEFAULT_DEVICE DEFAULT_SIM_SLOT
           json_loads post input).2 = Ret JNull
        /\ wrote (test_send_single_message SERVER API_KEY DEFAULT_DEVICE
                    DEFAULT_SIM_SLOT json_loads post input) Report.cancelled).
Proof.
  intros Hno. split.
  - intros post post'. unfold test_send_single_message.
    destruct input as [answer|e]; cbn [bind print print_header print_info ret];
      [|reflexivity].
    rewrite bool_decide_eq_false_2 by (by apply Hno). reflexivity.
  - intros post answer ->. unfold test_send_single_message, wrote.
    cbn [bind print print_header print_info ret].
    rewrite bool_decide_eq_false_2 by (by apply Hno).
    split; [reflexivity|]. cbn. unfold Report.cancelled. printed.
Qed.

End TesterReplies.

(** X5 with a reply [{"success": true, "data": {"devices": []}}]. *)
Lemma X5_empty_device_list_witness :
  let reply : gmap (list N) json :=
    {[ lit "success" := JBool true;
       lit "data" := JObj {[ lit "devices" := JArr [] ]} ]} in
  (test_sms_api.main test_sms_api.Configured.SERVER test_sms_api.Configured.API_KEY
     test_sms_api.Configured.DEFAULT_DEVICE test_sms_api.Configured.DEFAULT_SIM_SLOT
     (fun _ => Decoded (JObj reply)) (fun _ => Ret (Requests.Response 200 [])) (Ret [])).2
  = Ret tt.
Proof.
  intros reply.
  apply (X5_empty_device_list_stops_main
           test_sms_api.Configured.SERVER test_sms_api.Configured.API_KEY
           test_sms_api.Configured.DEFAULT_DEVICE test_sms_api.Configured.DEFAULT_SIM_SLOT
           (fun _ => Decoded (JObj reply)) (fun _ => Ret (Requests.Response 200 []))
           [] reply {[ lit "devices" := JArr [] ]}); reflexivity.
Defined.

(** X6 with a reply [{"success": true, "data": {"credits": 0}}]. *)
Lemma X6_balance_credits_witness :
  let reply : gmap (list N) json :=
    {[ lit "success" := JBool true;
       lit "data" := JObj {[ lit "credits" := JInt 0 ]} ]} in
  test_sms_api.test_get_balance
    test_sms_api.Configured.SERVER test_sms_api.Configured.API_KEY
    (fun _ => Decoded (JObj reply)) (fun _ => Ret (Requests.Response 200 []))
  = (Report.balance_request test_sms_api.Configured.SERVER
       ++ [Stdout [Lit "[OK] "; Lit "Message Credits Remaining: "; Val (JInt 0)]],
     Ret (JInt 0)).
Proof.
  intros reply.
  apply (X6_balance_credits
           test_sms_api.Configured.SERVER test_sms_api.Configured.API_KEY
           (fun _ => Decoded (JObj reply)) (fun _ => Ret (Requests.Response 200 []))
           [] reply {[ lit "credits" := JInt 0 ]}); try reflexivity.
  discriminate.
Defined.

(** X4 with the answer ["n"]. *)
Lemma X4_send_needs_confirmation_witness :
  (test_sms_api.test_send_single_message
     test_sms_api.Configured.SERVER test_sms_api.Configured.API_KEY
     test_sms_api.Configured.DEFAULT_DEVICE test_sms_api.Configured.DEFAULT_SIM_SLOT
     (fun _ => Undecoded JSONDecodeError) (fun _ => Raise (Error ConnectionError)) (Ret (lit "n"))).2
  = Ret JNull.
Proof.
  apply (X4_send_needs_confirmation
           test_sms_api.Configured.SERVER test_sms_api.Configured.API_KEY
           test_sms_api.Configured.DEFAULT_DEVICE test_sms_api.Configured.DEFAULT_SIM_SLOT
           (fun _ => Undecoded JSONDecodeError) (Ret (lit "n"))) with (answer := lit "n").
  - intros answer [= <-]. discriminate.
  - reflexivity.
Defined.

(** ** What a computation writes *)

Section Writing.
Context {A B : Type}.

Lemma bind_wrote (m : M A) (k : A -> M B) (o : output) :
  o ∈ (bind m k).1 <-> o ∈ m.1 \/ exists a, m.2 = Ret a /\ o ∈ (k a).1.
Proof.
  destruct m as [out [a|e]]; cbn.
  - destruct (k a) as [out' r] eqn:E. cbn. rewrite elem_of_app. split.
    + intros [H|H]; [by left|]. right. exists a. by rewrite E.
    + intros [H | (a' & [= <-] & H)]; [by left|]. right. by rewrite E in H.
  - split; [by left|]. intros [H | (a & H & _)]; done.
Qed.

End Writing.

Lemma try_wrote {A} (m : M A) (handler : exn -> option (M A)) (o : output) :
  o ∈ m.1 -> o ∈ (try_except m handler).1.
Proof.
  destruct m as [out [a|e]]; cbn; [done|].
  destruct (handler e) as [[out' r]|]; cbn; [|done].
  intros H. apply elem_of_app. by left.
Qed.

Lemma for_fold_wrote {A S} (Q : output -> Prop) (xs : list A) (acc : S)
    (body : S -> A -> M S) :
  (forall s x o, o ∈ (body s x).1 -> Q o) ->
  forall o, o ∈ (for_fold xs acc body).1 -> Q o.
Proof.
  intros H. revert acc. induction xs as [|x xs IH]; intros acc o.
  - by intros ?%elem_of_nil.
  - cbn [for_fold]. rewrite bind_wrote. intros [Ho | (s & _ & Ho)]; [by eapply H | by eapply IH].
Qed.

Lemma for_each_wrote {A} (Q : output -> Prop) (xs : list A) (body : A -> M unit) :
  (forall x o, o ∈ (body x).1 -> Q o) ->
  forall o, o ∈ (for_each xs body).1 -> Q o.
Proof.
  intros H. induction xs as [|x xs IH]; intros o.
  - by intros ?%elem_of_nil.
  - cbn [for_each]. rewrite bind_wrote. intros [Ho | (s & _ & Ho)]; [by eapply H | by eapply IH].
Qed.

(** ** The two source scans *)

Section Scans.
Import analyze_sms_config.

Lemma loads_device_test (line : list N) :
  contains (lit "this.defaultDevice") line
  && contains (lit "process.env.SMS_DEFAULT_DEVICE") line = true
  <-> Report.loads_device line.
Proof.
  unfold Report.loads_device. rewrite andb_true_iff, !contains_has. tauto.
Qed.

(** The second loop of [check_sms_service_code]: the flag it leaves. *)
Lemma usage_fold_loaded (numbered : list (nat * list N)) (loaded : bool) :
  exists out loaded',
    for_fold numbered loaded env_usage_line = (out, Ret loaded')
    /\ (loaded' = true <->
          loaded = true \/ exists n line, (n, line) ∈ numbered /\ Report.loads_device line).
Proof.
  revert loaded. induction numbered as [|[i line] rest IH]; intros loaded.
  - exists [], loaded. split; [done|]. split; [by left|].
    intros [H | (n & l & ?%elem_of_nil & _)]; done.
  - cbn [for_fold]. unfold env_usage_line at 1.
    setoid_rewrite elem_of_cons. setoid_rewrite <- loads_device_test.
    destruct (contains (lit "this.defaultDevice") line
              && contains (lit "process.env.SMS_DEFAULT_DEVICE") line) eqn:Hd;
    destruct (contains (lit "this.defaultSimSlot") line
              && contains (lit "process.env.SMS_DEFAULT_SIM_SLOT") line);
    cbn [bind print print_success when ret app];
    [destruct (IH true) as (out & b & -> & Hb)
    |destruct (IH true) as (out & b & -> & Hb)
    |destruct (IH loaded) as (out & b & -> & Hb)
    |destruct (IH loaded) as (out & b & -> & Hb)];
    eexists _, b; (split; [reflexivity|]); rewrite Hb;
    setoid_rewrite <- loads_device_test; split.
    all: try (intros _; right; exists i, line; split; [by left | done]).
    all: try (intros [H | (n & l & [[= -> ->] | H] & Hl)];
              [by left | by left | right; by exists n, l]).
    all: try (intros [H | (n & l & H & Hl)]; [by left | right; exists n, l; split; [by right | done]]).
    all: try (intros [H | (n & l & [[= -> ->] | H] & Hl)];
              [by left | congruence | right; by exists n, l]).
Qed.

Lemma loads_sim_slot_test (line : list N) :
  contains (lit "this.defaultSimSlot") line
  && contains (lit "process.env.SMS_DEFAULT_SIM_SLOT") line = true
  <-> Report.loads_sim_slot line.
Proof.
  unfold Report.loads_sim_slot. rewrite andb_true_iff, !contains_has. tauto.
Qed.

(** A line that is neither the warning nor an announcement of the second
    loop. *)
Abbreviation no_loading_line o :=
  (o <> Report.cannot_verify
   /\ forall n, o <> Report.sim_slot_loaded n /\ o <> Report.device_loaded n).

Ltac other_line H :=
  split; [intros -> | intros n; split; intros ->]; which_line H.

Lemma scan_line_no_warning (s : list issue) (x : nat * list N) (o : output) :
  o ∈ (scan_line s x).1 -> no_loading_line o.
Proof.
  destruct x as [i line]. unfold scan_line.
  destruct (contains (lit "devices:") line
            && (contains (lit "'1|1'") line || contains (lit "'2|2'") line
                || contains (lit "'0|0'") line));
  destruct (contains (lit "devices:") line
            && contains (lit "${this.defaultDevice}") line);
  cbn; intros H; other_line H.
Qed.

Lemma usage_line_no_warning (b : bool) (x : nat * list N) (o : output) :
  o ∈ (env_usage_line b x).1 -> o <> Report.cannot_verify.
Proof.
  destruct x as [i line]. unfold env_usage_line.
  destruct (contains (lit "this.defaultDevice") line
            && contains (lit "process.env.SMS_DEFAULT_DEVICE") line);
  destruct (contains (lit "this.defaultSimSlot") line
            && contains (lit "process.env.SMS_DEFAULT_SIM_SLOT") line);
  cbn; intros H ->; which_line H.
Qed.

Lemma report_issue_no_warning (x : issue) (o : output) :
  o ∈ (report_issue x).1 -> no_loading_line o.
Proof. cbn. intros H. other_line H. Qed.

Lemma sim_slot_loaded_inj (i n : nat) :
  Report.sim_slot_loaded n = Report.sim_slot_loaded i -> n = i.
Proof. intros [= H]. by apply Nat2Z.inj. Qed.

Lemma device_loaded_inj (i n : nat) :
  Report.device_loaded n = Report.device_loaded i -> n = i.
Proof. intros [= H]. by apply Nat2Z.inj. Qed.

(** What one round of the second loop writes. *)
Lemma env_usage_line_run (b : bool) (i : nat) (line : list N) :
  env_usage_line b (i, line)
  = ((if contains (lit "this.defaultDevice") line
         && contains (lit "process.env.SMS_DEFAULT_DEVICE") line
      then [Report.device_loaded i] else [])
     ++ (if contains (lit "this.defaultSimSlot") line
            && contains (lit "process.env.SMS_DEFAULT_SIM_SLOT") line
         then [Report.sim_slot_loaded i] else []),
     Ret (contains (lit "this.defaultDevice") line
          && contains (lit "process.env.SMS_DEFAULT_DEVICE") line || b)).
Proof.
  unfold env_usage_line.
  destruct (contains (lit "this.defaultDevice") line
            && contains (lit "process.env.SMS_DEFAULT_DEVICE") line);
  destruct (contains (lit "this.defaultSimSlot") line
            && contains (lit "process.env.SMS_DEFAULT_SIM_SLOT") line);
  reflexivity.
Qed.

(** The second loop of [check_sms_service_code]: what it announces. *)
Lemma usage_fold_announced (numbered : list (nat * list N)) (loaded : bool) :
  forall n,
    (Report.sim_slot_loaded n ∈ (for_fold numbered loaded env_usage_line).1
     <-> exists line, (n, line) ∈ numbered /\ Report.loads_sim_slot line)
    /\ (Report.device_loaded n ∈ (for_fold numbered loaded env_usage_line).1
        <-> exists line, (n, line) ∈ numbered /\ Report.loads_device line).
Proof.
  intros n. revert loaded. induction numbered as [|[i line] rest IH]; intros loaded.
  - cbn. split; (split; [by intros ?%elem_of_nil | by intros (l & ?%elem_of_nil & _)]).
  - cbn [for_fold]. rewrite env_usage_line_run.
    rewrite !bind_wrote. cbn [fst snd].
    setoid_rewrite elem_of_cons.
    setoid_rewrite <- loads_sim_slot_test. setoid_rewrite <- loads_device_test.
    specialize (IH (contains (lit "this.defaultDevice") line
                    && contains (lit "process.env.SMS_DEFAULT_DEVICE") line || loaded)).
    destruct IH as [IHs IHd].
    setoid_rewrite <- loads_sim_slot_test in IHs.
    setoid_rewrite <- loads_device_test in IHd.
    destruct (contains (lit "this.defaultDevice") line
              && contains (lit "process.env.SMS_DEFAULT_DEVICE") line) eqn:Hd;
    destruct (contains (lit "this.defaultSimSlot") line
              && contains (lit "process.env.SMS_DEFAULT_SIM_SLOT") line) eqn:Hs;
    cbn [orb app] in *;
    (split; (split;
     [ intros [H | (b & [= <-] & H)];
       [ which_line H;
         first [apply sim_slot_loaded_inj in H as -> | apply device_loaded_inj in H as ->];
         exists line; (split; [by left | done])
       | first [apply IHs in H | apply IHd in H];
         destruct H as (l & Hl & Ht); exists l; (split; [by right | done]) ]
     | intros (l & [[= -> ->] | Hl] & Ht);
       [ first [congruence | left; printed]
       | right; eexists; (split; [reflexivity|]);
         first [apply IHs | apply IHd]; by exists l ] ])).
Qed.

(** The whole scan of an existing file, part by part. *)
Lemma check_run_parts (files : list N -> option (list N)) (raw : list N) :
  files service_file = Some raw ->
  exists out1 issues out2 loaded out3,
    for_fold (enumerate1 (split LF (universal_newlines raw))) [] scan_line
      = (out1, Ret issues)
    /\ for_fold (enumerate1 (split LF (universal_newlines raw))) false env_usage_line
       = (out2, Ret loaded)
    /\ check_sms_service_code files
       = ((print_header [Lit "SMS SERVICE CODE ANALYSIS"]).1
          ++ Stdout [Lit "[INFO] "; Lit "Analyzing smsService.js for hardcoded values..."]
          :: out1 ++ out2
          ++ (if loaded then [] else [Report.cannot_verify]) ++ out3,
          Ret issues)
    /\ forall o, o ∈ out3 -> no_loading_line o.
Proof.
  intros Hfile. unfold check_sms_service_code. rewrite Hfile.
  set (numbered := enumerate1 (split LF (universal_newlines raw))).
  destruct (scan_fold_spec numbered []) as (out1 & idxs & Hscan & _).
  destruct (usage_fold_loaded numbered false) as (out2 & loaded & Husage & _).
  destruct (report_out (Spec.finding <$> idxs)) as (out3 & Hreport & _).
  cbn [app] in Hscan.
  exists out1, (Spec.finding <$> idxs), out2, loaded,
    (match idxs with
     | [] => [Stdout [Lit "[OK] "; Lit "Code looks good - using environment variables!"]]
     | _ :: _ => Stdout [Lit nl; Lit "Found ";
                         Int (Z.of_nat (length (Spec.finding <$> idxs)));
                         Lit " issue(s)"] :: out3
     end).
  split; [done|]. split; [done|]. split.
  - rewrite Hscan, Husage.
    cbn [bind print_header print_info print ret app fst].
    destruct idxs as [|k idxs'], loaded;
      rewrite ?fmap_nil, ?fmap_cons in Hreport |- *;
      cbn [negb when bind print print_warning print_success ret app];
      rewrite ?Hreport; cbn [bind ret app];
      rewrite ?app_nil_r, <- ?app_assoc; reflexivity.
  - intros o Ho. destruct idxs as [|k idxs'].
    + other_line Ho.
    + apply elem_of_cons in Ho as [-> | Ho]; [by repeat split|].
      apply (for_each_wrote (fun o => no_loading_line o)
               (Spec.finding <$> k :: idxs') report_issue).
      * intros x o'. apply report_issue_no_warning.
      * by rewrite Hreport.
Qed.

(** X7.  For an existing [smsService.js], [check_sms_service_code] prints
    "Could not verify environment variable loading" exactly when no line
    contains both [this.defaultDevice] and [process.env.SMS_DEFAULT_DEVICE].
    It announces "Line n: SMS_DEFAULT_SIM_SLOT is loaded from environment"
    for exactly the lines that contain both [this.defaultSimSlot] and
    [process.env.SMS_DEFAULT_SIM_SLOT], and likewise the lines that load the
    device: a line that loads only the SIM slot is announced but does not
    lift the warning. *)
Theorem X7_loading_warning (files : list N -> option (list N)) (raw : list N) :
  files service_file = Some raw ->
  (wrote (check_sms_service_code files) Report.cannot_verify
   <-> ~ exists i line,
         split LF (universal_newlines raw) !! i = Some line /\ Report.loads_device line)
  /\ (forall n,
        wrote (check_sms_service_code files) (Report.sim_slot_loaded n)
        <-> exists i line, n = S i
              /\ split LF (universal_newlines raw) !! i = Some line
              /\ Report.loads_sim_slot line)
  /\ (forall n,
        wrote (check_sms_service_code files) (Report.device_loaded n)
        <-> exists i line, n = S i
              /\ split LF (universal_newlines raw) !! i = Some line
              /\ Report.loads_device line).
Proof.
  intros Hfile.
  destruct (check_run_parts files raw Hfile)
    as (out1 & issues & out2 & loaded & out3 & Hscan & Husage & Hrun & Hout3).
  destruct (usage_fold_loaded (enumerate1 (split LF (universal_newlines raw))) false)
    as (out2' & loaded' & Husage' & Hloaded).
  rewrite Husage in Husage'. injection Husage' as <- <-.
  assert (Hlines : (exists i line, split LF (universal_newlines raw) !! i = Some line
                                   /\ Report.loads_device line) <-> loaded = true).
  { rewrite Hloaded. setoid_rewrite enumerate1_elem. split.
    - intros (i & line & Hi & Hl). right. exists (S i), line. eauto.
    - intros [? | (n & line & (i & -> & Hi) & Hl)]; [done | eauto]. }
  assert (H1 : forall o, o ∈ out1 -> no_loading_line o).
  { intros o H.
    eapply (for_fold_wrote (fun o => no_loading_line o) _ [] scan_line);
      [apply scan_line_no_warning | rewrite Hscan; exact H]. }
  assert (H2 : Report.cannot_verify ∉ out2).
  { intros H.
    eapply (for_fold_wrote (fun o => o <> Report.cannot_verify) _ false env_usage_line);
      [apply usage_line_no_warning | rewrite Husage; exact H | reflexivity]. }
  pose proof (usage_fold_announced
                (enumerate1 (split LF (universal_newlines raw))) false) as Hann.
  rewrite Husage in Hann. cbn [fst] in Hann.
  assert (Hwhole : forall o n, o <> Report.cannot_verify ->
            o = Report.sim_slot_loaded n \/ o = Report.device_loaded n ->
            (wrote (check_sms_service_code files) o <-> o ∈ out2)).
  { intros o n Hnot Ho. unfold wrote. rewrite Hrun. cbn [fst]. split.
    - intros H. cbn in H.
      apply elem_of_cons in H as [-> | H]; [destruct Ho as [Ho | Ho]; discriminate Ho|].
      apply elem_of_cons in H as [-> | H]; [destruct Ho as [Ho | Ho]; discriminate Ho|].
      apply elem_of_cons in H as [-> | H]; [destruct Ho as [Ho | Ho]; discriminate Ho|].
      apply elem_of_cons in H as [-> | H]; [destruct Ho as [Ho | Ho]; discriminate Ho|].
      apply elem_of_app in H as [H|H].
      { destruct (H1 _ H) as [_ Hno]. destruct (Hno n) as [Hs Hd].
        by destruct Ho. }
      apply elem_of_app in H as [H|H]; [done|].
      apply elem_of_app in H as [H|H].
      { destruct loaded; [by apply elem_of_nil in H|].
        apply list_elem_of_singleton in H. done. }
      destruct (Hout3 _ H) as [_ Hno]. destruct (Hno n) as [Hs Hd]. by destruct Ho.
    - intros H. cbn. do 4 right. rewrite !elem_of_app. right. by left. }
  split; [|split].
  - rewrite Hlines. unfold wrote. rewrite Hrun. cbn [fst]. split.
    + intros H ->. cbn in H. which_line H.
      apply elem_of_app in H as [H|H]; [by destruct (H1 _ H)|].
      apply elem_of_app in H as [H|H]; [done|].
      by destruct (Hout3 _ H).
    + intros Hl. destruct loaded; [done|]. cbn. do 4 right.
      rewrite !elem_of_app. right. right. apply list_elem_of_here.
  - intros n. rewrite (Hwhole (Report.sim_slot_loaded n) n ltac:(discriminate) (or_introl eq_refl)).
    rewrite (proj1 (Hann n)). setoid_rewrite enumerate1_elem. split.
    + intros (line & (i & -> & Hi) & Hl). by exists i, line.
    + intros (i & line & -> & Hi & Hl). exists line. split; [by exists i | done].
  - intros n. rewrite (Hwhole (Report.device_loaded n) n ltac:(discriminate) (or_intror eq_refl)).
    rewrite (proj2 (Hann n)). setoid_rewrite enumerate1_elem. split.
    + intros (line & (i & -> & Hi) & Hl). by exists i, line.
    + intros (i & line & -> & Hi & Hl). exists line. split; [by exists i | done].
Qed.

End Scans.

(** ** The scan of the SMS tester *)

Section Verify.
Import test_sms_api.

Lemma verify_line_cases (b : bool) (i : nat) (line : list N) :
  (Spec.hardcoded_line line /\
   verify_line b (i, line)
   = ([ Stdout [Lit "[ERROR] "; Lit "Line "; Int (Z.of_nat i);
                Lit ": HARDCODED device found!"];
        Stdout [Lit "   "; Txt (strip line)] ], Ret true))
  \/ (~ Spec.hardcoded_line line /\ Spec.templated_line line /\
      verify_line b (i, line) = ([Report.using_correctly i], Ret b))
  \/ (~ Spec.hardcoded_line line /\ ~ Spec.templated_line line /\
      verify_line b (i, line) = ([], Ret b)).
Proof.
  unfold verify_line. rewrite <- hardcoded_test, <- templated_test.
  destruct (contains (lit "devices:") line
            && (contains (lit "'1|1'") line || contains (lit "'2|2'") line
                || contains (lit "'0|0'") line)).
  - left. done.
  - right. destruct (contains (lit "devices:") line
                     && contains (lit "${this.defaultDevice}") line).
    + left. done.
    + right. done.
Qed.

Lemma using_correctly_inj (i j : nat) :
  Report.using_correctly j = Report.using_correctly i -> j = i.
Proof. intros [= H]. by apply Nat2Z.inj in H. Qed.

Lemma verify_fold_spec (numbered : list (nat * list N)) (b : bool) :
  exists out b',
    for_fold numbered b verify_line = (out, Ret b')
    /\ (b' = true <->
          b = true \/ exists n line, (n, line) ∈ numbered /\ Spec.hardcoded_line line)
    /\ (forall n, Report.using_correctly n ∈ out <->
          exists line, (n, line) ∈ numbered /\ Spec.templated_line line
                       /\ ~ Spec.hardcoded_line line)
    /\ Report.none_hardcoded ∉ out.
Proof.
  revert b. induction numbered as [|[i line] rest IH]; intros b.
  - exists [], b. split; [done|]. split; [|split].
    + split; [by left|]. intros [H | (n & l & ?%elem_of_nil & _)]; done.
    + intros n. split; [by intros ?%elem_of_nil | by intros (l & ?%elem_of_nil & _)].
    + by intros ?%elem_of_nil.
  - cbn [for_fold]. setoid_rewrite elem_of_cons.
    destruct (verify_line_cases b i line)
      as [[Hh ->] | [(Hh & Ht & ->) | (Hh & Ht & ->)]]; cbn [bind];
      [destruct (IH true) as (out & b' & -> & Hb & Hu & Hn)
      |destruct (IH b) as (out & b' & -> & Hb & Hu & Hn)
      |destruct (IH b) as (out & b' & -> & Hb & Hu & Hn)];
      eexists _, b'; (split; [reflexivity|]); (split; [|split]).
    + rewrite Hb. split; [intros _; right; exists i, line; auto|]. by left.
    + intros n. cbn [app]. rewrite !elem_of_cons, Hu. split.
      * intros [H | [H | (l & Hl & Hl')]]; try discriminate H. exists l. auto.
      * intros (l & [[= -> ->] | Hl] & Hl' & Hl''); [done|]. right. right. eauto.
    + cbn [app]. intros H. which_line H. done.
    + rewrite Hb. split.
      * intros [H | (n & l & Hl & Hl')]; [by left|]. right. exists n, l. auto.
      * intros [H | (n & l & [[= -> ->] | Hl] & Hl')]; [by left | done |].
        right. exists n, l. auto.
    + intros n. cbn [app]. rewrite elem_of_cons, Hu. split.
      * intros [->%using_correctly_inj | (l & Hl & Hl')]; [exists line; auto|].
        exists l. auto.
      * intros (l & [[= -> ->] | Hl] & Hl' & Hl''); [by left|]. right. eauto.
    + cbn [app]. intros H. which_line H. done.
    + rewrite Hb. split.
      * intros [H | (n & l & Hl & Hl')]; [by left|]. right. exists n, l. auto.
      * intros [H | (n & l & [[= -> ->] | Hl] & Hl')]; [by left | done |].
        right. exists n, l. auto.
    + intros n. cbn [app]. rewrite Hu. split.
      * intros (l & Hl & Hl'). exists l. auto.
      * intros (l & [[= -> ->] | Hl] & Hl' & Hl''); [done|]. eauto.
    + done.
Qed.

Lemma mention_line_quiet (x : nat * list N) :
  (mention_line x).2 = Ret tt
  /\ forall o, o ∈ (mention_line x).1 ->
       o <> Report.none_hardcoded /\ forall n, o <> Report.using_correctly n.
Proof.
  destruct x as [i line]. unfold mention_line.
  destruct (contains (lit "SMS_DEFAULT_DEVICE") line);
    destruct (contains (lit "SMS_DEFAULT_SIM_SLOT") line);
    cbn; (split; [done|]); intros o H;
    (split; [intros -> | intros n ->]); which_line H.
Qed.

Lemma tester_enumerate1_elem (lines : list (list N)) (n : nat) (line : list N) :
  (n, line) ∈ enumerate1 lines <-> exists i, n = S i /\ lines !! i = Some line.
Proof. exact (enumerate1_elem lines n line). Qed.

(** X8.  [verify_current_config] of the SMS tester works only where the
    name [os] is bound, which the file does under its [__main__] guard alone:
    with [os] unbound (the module imported) it raises [NameError] right
    after its heading.  With [os] bound and an existing [smsService.js] it
    returns, and the two scans agree on hardcoded lines: it prints "No
    hardcoded device IDs found!" exactly when [check_sms_service_code] of
    the analyzer returns no finding.  They differ on a line that is both
    hardcoded and templated: [verify_current_config] tests the template in
    an [elif], so it prints "Using environment variables correctly" only for
    a templated line that is not hardcoded. *)
Theorem X8_scans_agree (files : list N -> option (list N)) (raw : list N) :
  files service_file = Some raw ->
  verify_current_config false files
  = ([ Stdout [Lit nl; Lit (times "=" 60)];
       Stdout [Lit "VERIFY CURRENT CODE CONFIGURATION"];
       Stdout [Lit (times "=" 60); Lit nl] ],
     Raise (Error (OtherError "NameError")))
  /\ returns (verify_current_config true files)
  /\ (wrote (verify_current_config true files) Report.none_hardcoded
      <-> (analyze_sms_config.check_sms_service_code files).2 = Ret [])
  /\ (forall n,
        wrote (verify_current_config true files) (Report.using_correctly n)
        <-> exists i line, n = S i
              /\ split LF (universal_newlines raw) !! i = Some line
              /\ Spec.templated_line line /\ ~ Spec.hardcoded_line line).
Proof.
  intros Hfile.
  set (lines := split LF (universal_newlines raw)).
  destruct (verify_fold_spec (enumerate1 lines) false)
    as (out & found & Hfold & Hfound & Husing & Hnone).
  assert (Hmention : for_each (enumerate1 (slice_to 20 lines)) mention_line
                     = ((for_each (enumerate1 (slice_to 20 lines)) mention_line).1, Ret tt)).
  { apply returns_eta, for_each_returns. intros x _. apply mention_line_quiet. }
  assert (Hquiet : forall o, o ∈ (for_each (enumerate1 (slice_to 20 lines)) mention_line).1 ->
            o <> Report.none_hardcoded /\ forall n, o <> Report.using_correctly n).
  { apply (for_each_wrote
             (fun o => o <> Report.none_hardcoded /\ forall n, o <> Report.using_correctly n)).
    intros x o. apply mention_line_quiet. }
  set (mentions := (for_each (enumerate1 (slice_to 20 lines)) mention_line).1) in *.
  assert (Hrun : verify_current_config true files
    = ([ Stdout [Lit nl; Lit (times "=" 60)];
         Stdout [Lit "VERIFY CURRENT CODE CONFIGURATION"];
         Stdout [Lit (times "=" 60); Lit nl];
         Stdout [Lit "[INFO] "; Lit "Checking environment variable configuration..."] ]
       ++ mentions
       ++ Stdout [Lit nl; Lit "Checking for hardcoded device IDs..."]
       :: out ++ (if found then [] else [Report.none_hardcoded]),
       Ret tt)).
  { unfold verify_current_config. cbn [negb]. rewrite Hfile. fold lines.
    rewrite Hmention, Hfold. destruct found; reflexivity. }
  destruct (check_sms_service_code_run files raw Hfile)
    as (out1 & idxs & tail & (_ & Hidx & _) & Hcheck & _).
  assert (Hnohard : (analyze_sms_config.check_sms_service_code files).2 = Ret []
                    <-> found = false).
  { rewrite Hcheck. cbn [snd]. split.
    - intros [= Hnil]. apply fmap_nil_inv in Hnil as ->.
      apply not_true_is_false. rewrite Hfound. intros [? | (n & l & Hl & Hh)]; [done|].
      assert (Hin : n ∈ []) by (apply Hidx; eauto). by apply elem_of_nil in Hin.
    - intros ->. destruct idxs as [|k idxs]; [done|]. exfalso.
      assert (Hk : k ∈ k :: idxs) by (by left).
      apply Hidx in Hk as (l & Hl & Hh).
      assert (false = true); [|done]. apply Hfound. right. eauto. }
  split; [reflexivity|].
  split; [exists tt; by rewrite Hrun|]. split.
  - rewrite Hnohard. unfold wrote. rewrite Hrun. cbn [fst]. split.
    + intros H. cbn in H. which_line H.
      apply elem_of_app in H as [H|H]; [by destruct (Hquiet _ H)|].
      apply elem_of_cons in H as [H|H]; [done|].
      apply elem_of_app in H as [H|H]; [done|].
      destruct found; [by apply elem_of_nil in H | done].
    + intros ->. cbn. do 4 right. rewrite elem_of_app. right. right.
      rewrite elem_of_app. right. by left.
  - intros n. unfold wrote. rewrite Hrun. cbn [fst].
    transitivity (Report.using_correctly n ∈ out).
    + split.
      * intros H. cbn in H. which_line H.
        apply elem_of_app in H as [H|H]; [by destruct (Hquiet _ H) as [_ Hq]; destruct (Hq n)|].
        apply elem_of_cons in H as [H|H]; [done|].
        apply elem_of_app in H as [H|H]; [done|].
        destruct found; which_line H.
      * intros H. cbn. do 4 right. rewrite elem_of_app. right. right.
        rewrite elem_of_app. by left.
    + rewrite Husing. setoid_rewrite tester_enumerate1_elem. naive_solver.
Qed.

End Verify.

(** X8 with the two sample lines of the specification in one file. *)
Lemma X8_scans_agree_witness :
  Outcome.returns
    (test_sms_api.verify_current_config true
       (fun _ => Some (Spec.hardcoded_sample ++ [LF] ++ Spec.templated_sample))).
Proof.
  destruct (X8_scans_agree
              (fun _ => Some (Spec.hardcoded_sample ++ [LF] ++ Spec.templated_sample))
              (Spec.hardcoded_sample ++ [LF] ++ Spec.templated_sample) eq_refl)
    as (_ & H & _).
  exact H.
Defined.

(** X7 with a one-line file that loads only the SIM slot: the line is
    announced. *)
Lemma X7_loading_warning_witness :
  wrote (analyze_sms_config.check_sms_service_code
           (fun _ => Some (lit "this.defaultSimSlot = process.env.SMS_DEFAULT_SIM_SLOT;")))
        (Report.sim_slot_loaded 1).
Proof.
  destruct (X7_loading_warning
              (fun _ => Some (lit "this.defaultSimSlot = process.env.SMS_DEFAULT_SIM_SLOT;"))
              (lit "this.defaultSimSlot = process.env.SMS_DEFAULT_SIM_SLOT;") eq_refl)
    as (_ & H & _).
  apply H. exists 0%nat, (lit "this.defaultSimSlot = process.env.SMS_DEFAULT_SIM_SLOT;").
  split; [reflexivity|]. split; [vm_compute; reflexivity|].
  split.
  - exists [], (lit " = process.env.SMS_DEFAULT_SIM_SLOT;"). reflexivity.
  - exists (lit "this.defaultSimSlot = "), (lit ";"). reflexivity.
Defined.

(** ** The configuration analysis *)

Section ConfigAnalysis.
Import analyze_sms_config.

(** The listing, line by line. *)
Lemma show_variables (c : sms_config) :
  for_each (items c) show_variable = (Report.listing c, Ret tt).
Proof.
  destruct c as [url key device slot notify].
  unfold items, Report.listing, Report.listed, Report.masked, show_variable.
  cbn [for_each SMS_SERVER_URL SMS_API_KEY SMS_DEFAULT_DEVICE SMS_DEFAULT_SIM_SLOT
       SMS_ENABLE_NOTIFICATIONS].
  replace (contains (lit "API_KEY") (lit "SMS_SERVER_URL")) with false by reflexivity.
  replace (contains (lit "API_KEY") (lit "SMS_API_KEY")) with true by reflexivity.
  replace (contains (lit "API_KEY") (lit "SMS_DEFAULT_DEVICE")) with false by reflexivity.
  replace (contains (lit "API_KEY") (lit "SMS_DEFAULT_SIM_SLOT")) with false
    by reflexivity.
  replace (contains (lit "API_KEY") (lit "SMS_ENABLE_NOTIFICATIONS")) with false
    by reflexivity.
  cbn [andb]. destruct (bool_decide (key = NOT_SET)); cbn [negb];
    [|destruct (14 <? length key)%nat]; reflexivity.
Qed.

Lemma listing_lines (c : sms_config) (o : output) :
  o ∈ Report.listing c -> exists t, o = Stdout (Lit "   " :: t).
Proof.
  unfold Report.listing, Report.listed. intros H.
  repeat (apply elem_of_cons in H as [-> | H]; [by eexists|]).
  by apply elem_of_nil in H.
Qed.

Lemma analyzer_read_env_file_spec (files : list N -> option (list N)) (path : list N)
    (content : list N) :
  files path = Some content ->
  exists config : gmap (list N) (list N),
    read_env_file files path = ret (Some config) /\
    forall k v, config !! k = Some v <-> Spec.file_value files path k v.
Proof.
  intros Hfile. destruct (read_env_file_spec files path) as (config & Hrun & Hspec).
  exists config. split; [|done].
  unfold read_env_file, test_places_api.read_env_file in *.
  rewrite Hfile in *. rewrite analyzer_env_line_same.
  destruct (for_fold (file_lines content) ∅ test_places_api.env_line) as [o r].
  by injection Hrun as -> ->.
Qed.

(** The analysis of a file that gives a key: the whole report. *)
Lemma analysis_run (files : list N -> option (list N))
    (config : gmap (list N) (list N)) :
  read_env_file files (lit ".env") = ret (Some config) -> config <> ∅ ->
  analyze_sms_configuration files
  = (Report.analysis_report (Report.sms_config_of config),
     Ret (Some (Report.sms_config_of config))).
Proof.
  intros Hread Hne.
  unfold analyze_sms_configuration, get_or_not_set. rewrite Hread.
  cbn [bind print print_header ret not_config].
  rewrite (bool_decide_eq_false_2 _ Hne).
  change (default ∅ (Some config)) with config.
  cbv zeta. fold (Report.sms_config_of config).
  set (cfg := Report.sms_config_of config).
  cbn [bind print print_info ret]. rewrite (show_variables cfg).
  unfold check_set, Report.analysis_report, Report.configuration_issues,
    Spec.analysis_heading, Report.not_set_warning, Report.all_set.
  destruct (bool_decide (SMS_SERVER_URL cfg = NOT_SET));
    destruct (bool_decide (SMS_API_KEY cfg = NOT_SET));
    destruct (bool_decide (SMS_DEFAULT_DEVICE cfg = NOT_SET));
    destruct (bool_decide (SMS_DEFAULT_SIM_SLOT cfg = NOT_SET));
    cbn; rewrite <- ?app_assoc; reflexivity.
Qed.

(** The lines under "Configuration Issues:" are the only warnings of the
    report. *)
Lemma report_issue_lines (c : sms_config) (o : output) :
  (forall t, o <> Stdout (Lit "   " :: t)) ->
  o <> Stdout [Lit nl; Lit (times "=" 60)] ->
  o <> Stdout [Lit "SMS CONFIGURATION ANALYSIS"] ->
  o <> Stdout [Lit (times "=" 60); Lit nl] ->
  o <> Stdout [Lit "[INFO] "; Lit "Environment Variables:"] ->
  o <> Stdout [Lit nl; Lit "Configuration Issues:"] ->
  o ∈ Report.analysis_report c <-> o ∈ Report.configuration_issues c.
Proof.
  intros H0 H1 H2 H3 H4 H5. unfold Report.analysis_report, Spec.analysis_heading.
  cbn [app]. rewrite !elem_of_cons, elem_of_app, elem_of_cons. split; [|tauto].
  intros [?|[?|[?|[?|[Hv|[?|?]]]]]]; try done.
  destruct (listing_lines c o Hv) as [t ->]. by destruct (H0 t).
Qed.

(** X9.  When the [.env] file gives at least one key,
    [analyze_sms_configuration] returns the five SMS settings, each the
    file's value or ['NOT SET'], and its report is the heading, the listing
    of the five settings in their order (the API key masked), and the
    configuration issues.  A warning is printed for exactly those of the
    first four that read ['NOT SET'] (also when the file itself says
    [NOT SET]), and "All required variables are set" exactly when none does;
    [SMS_ENABLE_NOTIFICATIONS] is listed but never required. *)
Theorem X9_analysis_of_settings (files : list N -> option (list N)) :
  (exists k v, Spec.file_value files (lit ".env") k v) ->
  exists (config : gmap (list N) (list N)) (out : list output),
    (forall k v, config !! k = Some v <-> Spec.file_value files (lit ".env") k v)
    /\ analyze_sms_configuration files = (out, Ret (Some (Report.sms_config_of config)))
    /\ out = Spec.analysis_heading
             ++ Stdout [Lit "[INFO] "; Lit "Environment Variables:"]
             :: Report.listing (Report.sms_config_of config)
             ++ Stdout [Lit nl; Lit "Configuration Issues:"]
             :: Report.configuration_issues (Report.sms_config_of config)
    /\ (Report.not_set_warning "SMS_SERVER_URL is not set" ∈ out
        <-> SMS_SERVER_URL (Report.sms_config_of config) = NOT_SET)
    /\ (Report.not_set_warning "SMS_API_KEY is not set" ∈ out
        <-> SMS_API_KEY (Report.sms_config_of config) = NOT_SET)
    /\ (Report.not_set_warning
          "SMS_DEFAULT_DEVICE is not set (hardcoded to 2 in smsService.js)" ∈ out
        <-> SMS_DEFAULT_DEVICE (Report.sms_config_of config) = NOT_SET)
    /\ (Report.not_set_warning
          "SMS_DEFAULT_SIM_SLOT is not set (hardcoded to 1 in smsService.js)" ∈ out
        <-> SMS_DEFAULT_SIM_SLOT (Report.sms_config_of config) = NOT_SET)
    /\ (Report.all_set ∈ out
        <-> SMS_SERVER_URL (Report.sms_config_of config) <> NOT_SET
            /\ SMS_API_KEY (Report.sms_config_of config) <> NOT_SET
            /\ SMS_DEFAULT_DEVICE (Report.sms_config_of config) <> NOT_SET
            /\ SMS_DEFAULT_SIM_SLOT (Report.sms_config_of config) <> NOT_SET).
Proof.
  intros (k0 & v0 & Hkey).
  assert (Hfile : exists content, files (lit ".env") = Some content)
    by (destruct Hkey as (c & Hc & _); eauto).
  destruct Hfile as [content Hfile].
  destruct (analyzer_read_env_file_spec files _ content Hfile) as (config & Hread & Hspec).
  exists config.
  assert (Hne : config <> ∅).
  { intros ->. apply Hspec in Hkey. by rewrite lookup_empty in Hkey. }
  pose proof (analysis_run files config Hread Hne) as Hrun.
  set (cfg := Report.sms_config_of config) in *.
  exists (Report.analysis_report cfg).
  split; [exact Hspec|]. split; [exact Hrun|]. split; [reflexivity|].
  (split; [|split; [|split; [|split]]]);
    (rewrite report_issue_lines; [|intros t; discriminate|vm_compute; discriminate ..]);
    unfold Report.configuration_issues;
    destruct (bool_decide_reflect (SMS_SERVER_URL cfg = NOT_SET));
    destruct (bool_decide_reflect (SMS_API_KEY cfg = NOT_SET));
    destruct (bool_decide_reflect (SMS_DEFAULT_DEVICE cfg = NOT_SET));
    destruct (bool_decide_reflect (SMS_DEFAULT_SIM_SLOT cfg = NOT_SET));
    cbn [orb app];
    (split; [intros H; which_line H; try done; tauto
            | intros H; first [printed; fail | tauto | done]]).
Qed.

(** X20.  When the [.env] file gives an [SMS_API_KEY] other than
    ['NOT SET'], the report of [analyze_sms_configuration] has one line for
    it, which shows [***] for a key of at most 14 characters and, for a
    longer one, its first 10 and last 4 characters around [...].  The device
    test has no such guard: its "API Key" line is written before the
    request, whatever the reply, and shows a key of at most 10 characters in
    full. *)
Theorem X20_api_key_display (files : list N -> option (list N))
    (json_loads : list N -> decoding)
    (post : Requests.post_request -> res Requests.response)
    (api_key server_url : list N) :
  Spec.file_value files (lit ".env") (lit "SMS_API_KEY") api_key ->
  api_key <> NOT_SET ->
  (exists shown,
      (forall t, wrote (analyze_sms_configuration files) (Report.listed "SMS_API_KEY" t)
                 <-> t = shown)
      /\ ((length api_key <= 14)%nat -> shown = lit "***")
      /\ ((14 < length api_key)%nat ->
          length shown = 17%nat
          /\ take 10 shown = take 10 api_key
          /\ take 3 (drop 10 shown) = lit "..."
          /\ drop 13 shown = drop (length api_key - 4) api_key))
  /\ ((length api_key <= 10)%nat ->
      wrote (test_sms_api_devices json_loads post api_key server_url)
            (Stdout [Lit "[INFO] "; Lit "API Key: "; Txt api_key; Lit "...";
                     Txt (slice_last 4 api_key)])).
Proof.
  intros Hfilekey Hkey. split.
  - assert (Hfile : exists content, files (lit ".env") = Some content)
      by (destruct Hfilekey as (c & Hc & _); eauto).
    destruct Hfile as [content Hfile].
    destruct (analyzer_read_env_file_spec files _ content Hfile)
      as (config & Hread & Hspec).
    assert (Hlook : config !! lit "SMS_API_KEY" = Some api_key) by by apply Hspec.
    assert (Hne : config <> ∅) by (intros ->; by rewrite lookup_empty in Hlook).
    assert (Hcfg : SMS_API_KEY (Report.sms_config_of config) = api_key)
      by (cbn [Report.sms_config_of SMS_API_KEY]; by rewrite Hlook).
    exists (Report.masked api_key). split; [|split].
    + intros t. unfold wrote. rewrite (analysis_run files config Hread Hne). cbn [fst].
      unfold Report.analysis_report, Spec.analysis_heading. cbn [app].
      rewrite !elem_of_cons, elem_of_app, elem_of_cons.
      unfold Report.listing. rewrite Hcfg. split.
      * intros [H|[H|[H|[H|[H|[H|H]]]]]]; try discriminate H.
        -- apply elem_of_cons in H as [H|H];
             [injection H as Hk _; vm_compute in Hk; discriminate Hk|].
           apply elem_of_cons in H as [H|H]; [by injection H as ->|].
           apply elem_of_cons in H as [H|H];
             [injection H as Hk _; vm_compute in Hk; discriminate Hk|].
           apply elem_of_cons in H as [H|H];
             [injection H as Hk _; vm_compute in Hk; discriminate Hk|].
           apply elem_of_cons in H as [H|H];
             [injection H as Hk _; vm_compute in Hk; discriminate Hk|].
           by apply elem_of_nil in H.
        -- exfalso. revert H. unfold Report.configuration_issues.
           destruct (bool_decide (SMS_SERVER_URL _ = NOT_SET));
             destruct (bool_decide (SMS_API_KEY _ = NOT_SET));
             destruct (bool_decide (SMS_DEFAULT_DEVICE _ = NOT_SET));
             destruct (bool_decide (SMS_DEFAULT_SIM_SLOT _ = NOT_SET));
             cbn [orb app]; intros H; which_line H.
      * intros ->. do 4 right. left. apply list_elem_of_further, list_elem_of_here.
    + intros Hlen. unfold Report.masked.
      rewrite (bool_decide_eq_false_2 _ Hkey).
      replace (14 <? length api_key)%nat with false
        by (symmetry; apply Nat.ltb_ge; lia).
      reflexivity.
    + intros Hlen. unfold Report.masked.
      rewrite (bool_decide_eq_false_2 _ Hkey).
      replace (14 <? length api_key)%nat with true
        by (symmetry; apply Nat.ltb_lt; lia).
      unfold slice_to, slice_last.
      assert (H10 : length (take 10 api_key) = 10%nat) by (rewrite length_take; lia).
      assert (H4 : length (drop (length api_key - 4) api_key) = 4%nat)
        by (rewrite length_drop; lia).
      split; [|split; [|split]].
      * rewrite !length_app, H10, H4. reflexivity.
      * rewrite take_app_length'; done.
      * rewrite drop_app_length' by done. reflexivity.
      * rewrite (app_assoc _ (lit "...")).
        rewrite drop_app_length'; [done|]. rewrite length_app, H10. reflexivity.
  - intros Hlen. unfold wrote, test_sms_api_devices.
    rewrite (bool_decide_eq_false_2 _ Hkey).
    apply bind_wrote. right. exists tt. split; [reflexivity|].
    apply try_wrote. apply bind_wrote. right. exists tt. split; [reflexivity|].
    apply bind_wrote. left. unfold slice_to. rewrite take_ge by lia.
    apply list_elem_of_here.
Qed.

End ConfigAnalysis.

(** A file that gives the API key [abc]. *)
Lemma sample_key_file :
  Spec.file_value (fun _ => Some (lit "SMS_API_KEY=abc")) (lit ".env")
    (lit "SMS_API_KEY") (lit "abc").
Proof.
  exists (lit "SMS_API_KEY=abc"). split; [reflexivity|].
  exists [], (lit "SMS_API_KEY=abc"), []. split; [reflexivity|]. split.
  - split.
    + split; [vm_compute; discriminate|].
      split; [intros rest; vm_compute; discriminate|].
      vm_compute. do 11 apply list_elem_of_further. apply list_elem_of_here.
    + exists (lit "SMS_API_KEY"), (lit "abc"). split; [reflexivity|].
      split; [|split; reflexivity].
      vm_compute. intros Hin.
      repeat (apply elem_of_cons in Hin as [Hin|Hin]; [discriminate Hin|]).
      by apply elem_of_nil in Hin.
  - intros l v Hin. by apply elem_of_nil in Hin.
Qed.

(** X9 with the sample [.env] body, which sets none of the SMS settings. *)
Lemma X9_analysis_of_settings_witness :
  Outcome.returns
    (analyze_sms_config.analyze_sms_configuration (fun _ => Some Spec.sample_env)).
Proof.
  destruct (X9_analysis_of_settings (fun _ => Some Spec.sample_env))
    as (config & out & _ & Hrun & _).
  - exists (lit "A"), (lit "3"), Spec.sample_env. split; [reflexivity|].
    exists [lit "A=1" ++ [LF]; lit "B=2" ++ [LF]], (lit "A=3" ++ [LF]), [].
    split; [reflexivity|]. split.
    + split.
      * split; [vm_compute; discriminate|].
        split; [intros rest; vm_compute; discriminate|].
        vm_compute. apply list_elem_of_further, list_elem_of_here.
      * exists (lit "A"), (lit "3"). split; [reflexivity|].
        split; [|split; reflexivity].
        vm_compute. intros H. apply list_elem_of_singleton in H. discriminate H.
    + intros l v H. by apply elem_of_nil in H.
  - eexists. rewrite Hrun. reflexivity.
Defined.

(** X20 with the key [abc]: the report shows [***] for it. *)
Lemma X20_api_key_display_witness :
  wrote (analyze_sms_config.analyze_sms_configuration
           (fun _ => Some (lit "SMS_API_KEY=abc")))
        (Report.listed "SMS_API_KEY" (lit "***")).
Proof.
  destruct (X20_api_key_display (fun _ => Some (lit "SMS_API_KEY=abc"))
              (fun _ => Undecoded JSONDecodeError)
              (fun _ => Raise (Error ConnectionError))
              (lit "abc") (lit "https://sms.parktayo.com") sample_key_file)
    as [(shown & Hshown & Hshort & _) _].
  - vm_compute. discriminate.
  - apply Hshown. symmetry. apply Hshort. vm_compute. lia.
Defined.

(** ** The Places tester: location, modes and replies *)

Section MonadLaws.
Context {A B : Type}.

Lemma bind_ret_l (a : A) (k : A -> M B) : bind (ret a) k = k a.
Proof. unfold bind, ret. by destruct (k a). Qed.

Lemma bind_raise_l (e : exn) (k : A -> M B) : bind (raise e) k = raise e.
Proof. reflexivity. Qed.

(** Running [m] then [k] is running [m] alone, and if that returns, [k]. *)
Lemma bind_in_two (m : M unit) (k : M B) :
  bind m (fun _ => k) = bind (bind m (fun _ => ret tt)) (fun _ => bind (ret tt) (fun _ => k)).
Proof.
  destruct m as [o [[]|e]], k as [o' r]; cbn; [|done].
  by rewrite app_nil_r.
Qed.

End MonadLaws.

Section Splitting.

Lemma split_nonempty (sep : N) (s : list N) : split sep s <> [].
Proof.
  destruct s as [|c s]; [done|]. cbn [split].
  destruct (c =? sep); [done|]. by destruct (split sep s).
Qed.

Lemma split_one (sep : N) (s a : list N) :
  split sep s = [a] <-> s = a /\ (sep ∉ a).
Proof.
  revert a. induction s as [|c s IH]; intros a; cbn [split].
  - split.
    + intros [= <-]. split; [done | apply not_elem_of_nil].
    + by intros [<- _].
  - destruct (N.eqb_spec c sep) as [->|Hc].
    + split.
      * intros [= _ H]. by destruct (split_nonempty sep s).
      * intros [<- H]. destruct H. apply list_elem_of_here.
    + destruct (split sep s) as [|w ws] eqn:Es; [by destruct (split_nonempty sep s)|].
      split.
      * intros [= <- ->]. destruct (proj1 (IH w) eq_refl) as [-> Hw].
        split; [done|]. apply not_elem_of_cons. split; [congruence | done].
      * intros [<- [_ Hs]%not_elem_of_cons].
        pose proof (proj2 (IH s) (conj eq_refl Hs)) as [= -> ->]. done.
Qed.

(** [s.split(sep)] gives two parts exactly when [s] holds [sep] once. *)
Lemma split_two (sep : N) (s a b : list N) :
  split sep s = [a; b] <-> s = a ++ sep :: b /\ (sep ∉ a) /\ (sep ∉ b).
Proof.
  revert a. induction s as [|c s IH]; intros a; cbn [split].
  - split; [done|]. intros [H _]. by destruct a.
  - destruct (N.eqb_spec c sep) as [->|Hc].
    + split.
      * intros [= <- H]. apply split_one in H as [-> Hb].
        split; [done|]. split; [apply not_elem_of_nil | done].
      * intros (H & Ha & Hb). destruct a as [|x a]; cbn in H.
        -- injection H as ->. by rewrite (proj2 (split_one sep b b) (conj eq_refl Hb)).
        -- injection H as <- _. destruct Ha. apply list_elem_of_here.
    + destruct (split sep s) as [|w ws] eqn:Es; [by destruct (split_nonempty sep s)|].
      split.
      * intros [= <- ->]. destruct (proj1 (IH w) eq_refl) as (-> & Hw & Hb).
        split; [done|]. split; [|done].
        apply not_elem_of_cons. split; [congruence | done].
      * intros (H & Ha & Hb). destruct a as [|x a]; cbn in H.
        -- injection H as -> _. done.
        -- injection H as <- ->. apply not_elem_of_cons in Ha as [_ Ha].
           pose proof (proj2 (IH a) (conj eq_refl (conj Ha Hb))) as [= -> ->]. done.
Qed.

End Splitting.

Section Location.
Import test_places_api.

Variable float_of_str : list N -> option spec_float.

(** [parse_location] without its [try]: the outcome for each shape of the
    argument. *)
Lemma parse_location_run (loc : list N) :
  parse_location float_of_str loc
  = match split 44 loc with
    | [a; b] =>
        match float_of_str a, float_of_str b with
        | Some lat, Some lng => ret (lat, lng)
        | _, _ => raise (SystemExit (ExitMsg bad_location_message))
        end
    | _ => raise (SystemExit (ExitMsg bad_location_message))
    end.
Proof.
  unfold parse_location, to_float.
  destruct (split 44 loc) as [|a [|b [|c l]]]; try reflexivity.
  destruct (float_of_str a), (float_of_str b); reflexivity.
Qed.

Lemma parse_location_outcome (loc : list N) :
  (exists lat lng, parse_location float_of_str loc = ret (lat, lng))
  \/ parse_location float_of_str loc = raise (SystemExit (ExitMsg bad_location_message)).
Proof.
  rewrite parse_location_run.
  destruct (split 44 loc) as [|a [|b [|c l]]]; auto.
  destruct (float_of_str a), (float_of_str b); eauto.
Qed.

(** X10.  [parse_location] returns a pair exactly when its argument holds
    one comma and [float()] takes the text on each side of it; in every
    other case (no comma, a second comma, a part that is no number) it
    leaves with the "Invalid --location format" exit request, and lets no
    [ValueError] through.  It writes nothing either way. *)
Theorem X10_parse_location (loc : list N) :
  (forall lat lng,
      parse_location float_of_str loc = ret (lat, lng)
      <-> exists a b, loc = a ++ 44 :: b /\ (44 ∉ a) /\ (44 ∉ b)
                      /\ float_of_str a = Some lat /\ float_of_str b = Some lng)
  /\ ((exists lat lng, parse_location float_of_str loc = ret (lat, lng))
      \/ parse_location float_of_str loc
         = raise (SystemExit (ExitMsg bad_location_message)))
  /\ (parse_location float_of_str loc).1 = [].
Proof.
  split; [|split; [apply parse_location_outcome|]].
  - intros lat lng. rewrite parse_location_run. split.
    + destruct (split 44 loc) as [|a [|b [|c l]]] eqn:E; try done.
      apply split_two in E as (-> & Ha & Hb).
      destruct (float_of_str a) as [x|] eqn:Ea; [|done].
      destruct (float_of_str b) as [y|] eqn:Eb; [|done].
      intros [= <- <-]. by exists a, b.
    + intros (a & b & Hloc & Ha & Hb & Hlat & Hlng).
      rewrite (proj2 (split_two 44 loc a b) (conj Hloc (conj Ha Hb))).
      by rewrite Hlat, Hlng.
  - destruct (parse_location_outcome loc) as [(lat & lng & ->) | ->]; reflexivity.
Qed.

End Location.

Section PlacesRun.
Import test_places_api.

Variable files : list N -> option (list N).
Variable environ : gmap (list N) (list N).
Variable json_loads : list N -> decoding.
Variable json_dumps : json -> list N.
Variable urlopen : request -> res (Z * list N).
Variable urlencode : list (string * list N) -> list N.
Variable float_of_str : list N -> option spec_float.
Variable str_of_float : spec_float -> list N.

Lemma resolve_api_key_outcome (cli_key : option (list N)) (env_path : list N) :
  (exists key, resolve_api_key files environ cli_key env_path = ret key)
  \/ resolve_api_key files environ cli_key env_path
     = raise (SystemExit (ExitMsg not_found_message)).
Proof.
  unfold resolve_api_key. destruct (truthy_opt cli_key); [eauto|].
  destruct (truthy_opt (environ !! GOOGLE_MAPS_API_KEY)); [eauto|].
  destruct (read_env_file_spec files env_path) as (config & -> & _).
  rewrite bind_ret_l. destruct (truthy_opt (config !! GOOGLE_MAPS_API_KEY)); cbn; eauto.
Qed.

(** X11.  [main] reads [--location] before anything else: when the
    argument is not one comma between two numbers, the run ends with the
    "Invalid --location format" exit request (status 1) whatever the key
    sources, the mode and the backend are; nothing is printed and no request
    is made. *)
Theorem X11_location_checked_first (a : args) :
  (forall x y, arg_location a = x ++ 44 :: y -> 44 ∉ x -> 44 ∉ y ->
     float_of_str x = None \/ float_of_str y = None) ->
  main files environ json_loads json_dumps urlopen urlencode float_of_str str_of_float a
  = ([], Raise (SystemExit (ExitMsg bad_location_message)))
  /\ exit_status
       (run_as_script
          (main files environ json_loads json_dumps urlopen urlencode float_of_str
             str_of_float a)).2 = 1%Z.
Proof.
  intros Hbad.
  assert (Hloc : parse_location float_of_str (arg_location a)
                 = raise (SystemExit (ExitMsg bad_location_message))).
  { destruct (parse_location_outcome float_of_str (arg_location a))
      as [(lat & lng & H) | H]; [|done].
    rewrite parse_location_run in H.
    destruct (split 44 (arg_location a)) as [|x [|y [|z l]]] eqn:E; try done.
    apply split_two in E as (E & Hx & Hy).
    destruct (Hbad x y E Hx Hy) as [Hn | Hn]; rewrite Hn in H; [done|].
    by destruct (float_of_str x). }
  unfold run_as_script, main. rewrite Hloc. by split.
Qed.

(** X12.  With a non-empty [--backend] the run never looks for a Google
    key: it is the same whatever [--key], [--env], the environment and the
    files are.  An empty [--backend] counts as none. *)
Theorem X12_backend_needs_no_key (a : args) :
  (forall backend, arg_backend a = Some backend -> backend <> [] ->
     forall files' environ' urlencode' str_of_float' key' env',
       main files environ json_loads json_dumps urlopen urlencode float_of_str
         str_of_float a
       = main files' environ' json_loads json_dumps urlopen urlencode' float_of_str
           str_of_float' (Invocation.with_key_source key' env' a))
  /\ (arg_backend a = Some [] ->
      main files environ json_loads json_dumps urlopen urlencode float_of_str
        str_of_float a
      = main files environ json_loads json_dumps urlopen urlencode float_of_str
          str_of_float (Invocation.with_backend None a)).
Proof.
  split.
  - intros backend Hb Hne files' environ' urlencode' str_of_float' key' env'.
    unfold main. destruct a as [q m k e b l r s]. cbn in Hb. subst b.
    cbn [Invocation.with_key_source arg_query arg_mode arg_key arg_env arg_backend
         arg_location arg_radius arg_session].
    destruct backend as [|c backend]; [done|]. reflexivity.
  - intros Hb. unfold main. destruct a as [q m k e b l r s]. cbn in Hb. subst b.
    reflexivity.
Qed.

(** X13.  [--mode both] is the autocomplete run followed by the text-search
    run: the same requests in that order, the same console output, and when
    the autocomplete half raises the text search is not attempted. *)
Theorem X13_both_modes_in_turn (a : args) :
  main files environ json_loads json_dumps urlopen urlencode float_of_str str_of_float
    (Invocation.with_mode both a)
  = (main files environ json_loads json_dumps urlopen urlencode float_of_str
       str_of_float (Invocation.with_mode autocomplete a) ;;
     main files environ json_loads json_dumps urlopen urlencode float_of_str
       str_of_float (Invocation.with_mode textsearch a)).
Proof.
  unfold main. destruct a as [q m k e b l r s].
  cbn [Invocation.with_mode arg_query arg_mode arg_key arg_env arg_backend
       arg_location arg_radius arg_session wants_autocomplete wants_textsearch].
  destruct (parse_location_outcome float_of_str l) as [(lat & lng & ->) | ->];
    [|reflexivity].
  rewrite !bind_ret_l. destruct (truthy_opt b).
  - unfold when. apply bind_in_two.
  - destruct (resolve_api_key_outcome k e) as [(key & ->) | ->]; [|reflexivity].
    rewrite !bind_ret_l. unfold when. apply bind_in_two.
Qed.

Lemma summarize_raw (title : string) (status : Z) (body : list N) :
  summarize title status (JObj {[ lit "raw" := JStr body ]})
  = (Invocation.summary_head title status ++ [Invocation.no_items], Ret tt).
Proof.
  unfold summarize, items_of, key_in, attr_get.
  rewrite !dict_has_None by (by apply lookup_singleton_ne).
  unfold dict_get. rewrite lookup_singleton_ne by done. reflexivity.
Qed.

(** X14.  A reply whose body [json.loads] rejects as no JSON (with
    [JSONDecodeError]) is reported as a reply with no items: after
    [http_get] or [http_post_json], [summarize] prints the title, the status
    and "Items: 0", and returns.  When the decoder gives up on the body with
    an error of another class, that error is raised and nothing is
    summarized. *)
Theorem X14_unreadable_reply_counts_no_items (url : list N) (status : Z) (body : list N)
    (title : string) (c : error_class) :
  json_loads body = Undecoded c ->
  (urlopen (Request url None [] 10) = Ret (status, body) ->
   (let* (s, d) := http_get json_loads urlopen url in summarize title s d)
   = match c with
     | JSONDecodeError =>
         (Invocation.summary_head title status ++ [Invocation.no_items], Ret tt)
     | _ => ([], Raise (Error c))
     end)
  /\ (forall payload,
        urlopen (Request url (Some (json_dumps payload))
                   [("Content-Type", "application/json")%string] 10)
          = Ret (status, body) ->
        (let* (s, d) := http_post_json json_loads json_dumps urlopen url payload in
         summarize title s d)
        = match c with
          | JSONDecodeError =>
              (Invocation.summary_head title status ++ [Invocation.no_items], Ret tt)
          | _ => ([], Raise (Error c))
          end).
Proof.
  intros Hjson. split.
  - intros Hopen. unfold http_get. rewrite Hopen. cbn [bind].
    rewrite (decode_body_undecoded _ _ _ Hjson).
    destruct c;
      first [reflexivity | rewrite !bind_ret_l; exact (summarize_raw title status body)].
  - intros payload Hopen. unfold http_post_json. rewrite Hopen. cbn [bind].
    rewrite (decode_body_undecoded _ _ _ Hjson).
    destruct c;
      first [reflexivity | rewrite !bind_ret_l; exact (summarize_raw title status body)].
Qed.

End PlacesRun.

(** X15.  [summarize] needs a JSON object: given a decoded list or string it
    raises [AttributeError] at the first [.get], given [null], a boolean or
    a number it raises [TypeError] at the first [in]; in both cases after
    the title and the status line, and without an "Items" line. *)
Theorem X15_summarize_needs_an_object (title : string) (status : Z) (data : json) :
  (forall d, data <> JObj d) ->
  test_places_api.summarize title status data
  = (Invocation.summary_head title status,
     Raise (Error match data with
                  | JArr _ | JStr _ => AttributeError
                  | _ => TypeError
                  end)).
Proof.
  intros Hshape. unfold test_places_api.summarize, test_places_api.items_of,
    test_places_api.key_in.
  destruct data as [| | | |s|l|d]; try reflexivity.
  - cbn [bind ret print].
    destruct (contains (lit "predictions") s); [reflexivity|].
    destruct (contains (lit "results") s); reflexivity.
  - cbn [bind ret print].
    destruct (existsb _ l); [reflexivity|].
    destruct (existsb _ l); reflexivity.
  - by destruct (Hshape d).
Qed.

Section Backend.
Import test_places_api.

Lemma rstrip_char_end (x : N) (s : list N) (n : nat) :
  rstrip_char x (s ++ replicate n x) = rstrip_char x s.
Proof.
  induction n as [|n IH]; [by rewrite app_nil_r|].
  rewrite replicate_S_end, app_assoc. unfold rstrip_char in *.
  rewrite rev_unit. cbn [lstrip_char]. by rewrite N.eqb_refl.
Qed.

(** X16.  Slashes at the end of [--backend] make no difference: both
    backend probes post to the base without them, followed by
    [/places/autocomplete] or [/places/textsearch]. *)
Theorem X16_backend_trailing_slashes (json_loads : list N -> decoding)
    (json_dumps : json -> list N) (urlopen : request -> res (Z * list N))
    (backend query : list N) (session : option (list N)) (lat lng : spec_float)
    (radius : Z) (n : nat) :
  do_backend_autocomplete json_loads json_dumps urlopen (backend ++ replicate n 47)
    query session lat lng radius
  = do_backend_autocomplete json_loads json_dumps urlopen backend query session lat lng
      radius
  /\ do_backend_textsearch json_loads json_dumps urlopen (backend ++ replicate n 47)
       query lat lng radius
     = do_backend_textsearch json_loads json_dumps urlopen backend query lat lng radius.
Proof.
  unfold do_backend_autocomplete, do_backend_textsearch.
  by rewrite rstrip_char_end.
Qed.

End Backend.

(** X11 with [--location 14.5995], which holds no comma. *)
Lemma X11_location_checked_first_witness :
  test_places_api.main (fun _ => None) ∅ (fun _ => Undecoded JSONDecodeError) (fun _ => [])
    (fun _ => Raise (Error ConnectionError)) (fun _ => [])
    (fun _ => Some (S754_zero false)) (fun _ => [])
    (Invocation.with_location (lit "14.5995") (Invocation.defaults (lit "UST")))
  = ([], Raise (SystemExit (ExitMsg test_places_api.bad_location_message)))
  /\ exit_status
       (test_places_api.run_as_script
          (test_places_api.main (fun _ => None) ∅ (fun _ => Undecoded JSONDecodeError) (fun _ => [])
             (fun _ => Raise (Error ConnectionError)) (fun _ => [])
             (fun _ => Some (S754_zero false)) (fun _ => [])
             (Invocation.with_location (lit "14.5995")
                (Invocation.defaults (lit "UST"))))).2 = 1%Z.
Proof.
  apply (X11_location_checked_first (fun _ => None) ∅ (fun _ => Undecoded JSONDecodeError)
           (fun _ => []) (fun _ => Raise (Error ConnectionError)) (fun _ => [])
           (fun _ => Some (S754_zero false)) (fun _ => [])
           (Invocation.with_location (lit "14.5995") (Invocation.defaults (lit "UST")))).
  intros x y E _ _. exfalso.
  assert (H : 44 ∈ lit "14.5995").
  { change (lit "14.5995")
      with (test_places_api.arg_location
              (Invocation.with_location (lit "14.5995")
                 (Invocation.defaults (lit "UST")))).
    rewrite E. apply elem_of_app. right. apply list_elem_of_here. }
  vm_compute in H.
  repeat (apply elem_of_cons in H as [H|H]; [discriminate H|]).
  by apply elem_of_nil in H.
Defined.

(** X14 with an HTML page for a body. *)
Lemma X14_unreadable_reply_witness :
  (let* (s, d) := test_places_api.http_get (fun _ => Undecoded JSONDecodeError)
                    (fun _ => Ret (200%Z, lit "<html>Bad Gateway</html>"))
                    (lit "https://maps.googleapis.com/") in
   test_places_api.summarize "Google Autocomplete" s d)
  = (Invocation.summary_head "Google Autocomplete" 200 ++ [Invocation.no_items], Ret tt).
Proof.
  apply (X14_unreadable_reply_counts_no_items (fun _ => Undecoded JSONDecodeError)
           (fun _ => [])
           (fun _ => Ret (200%Z, lit "<html>Bad Gateway</html>"))
           (lit "https://maps.googleapis.com/") 200 (lit "<html>Bad Gateway</html>")
           "Google Autocomplete" JSONDecodeError eq_refl).
  reflexivity.
Defined.

(** X15 with the body [[]]. *)
Lemma X15_summarize_needs_an_object_witness :
  test_places_api.summarize "Backend TextSearch" 200 (JArr [])
  = (Invocation.summary_head "Backend TextSearch" 200, Raise (Error AttributeError)).
Proof.
  apply (X15_summarize_needs_an_object "Backend TextSearch" 200 (JArr [])).
  intros d. discriminate.
Defined.

(** ** The analyzer: its probe, its question and its exit status *)

Section AnalyzerRun.
Import Requests analyze_sms_config.

Variable files : list N -> option (list N).
Variable json_loads : list N -> decoding.

Lemma within_returns {A} (P : exn -> Prop) (m : M A) : returns m -> raises_only P m.
Proof. intros [a Ha] e He. congruence. Qed.

(** The analysis returns: [None] when the file gives no key, and the five
    settings otherwise. *)
Lemma analysis_returns :
  exists out r,
    analyze_sms_configuration files = (out, Ret r)
    /\ match r with
       | None => forall k v, ~ Spec.file_value files (lit ".env") k v
       | Some c =>
           exists config : gmap (list N) (list N),
             (forall k v, config !! k = Some v
                          <-> Spec.file_value files (lit ".env") k v)
             /\ c = Report.sms_config_of config
       end.
Proof.
  destruct (files (lit ".env")) as [content|] eqn:Hfile.
  - destruct (analyzer_read_env_file_spec files _ content Hfile)
      as (config & Hread & Hspec).
    destruct (decide (config = ∅)) as [->|Hne].
    + unfold analyze_sms_configuration. rewrite Hread.
      eexists _, None. split; [reflexivity|].
      intros k v H%Hspec. by rewrite lookup_empty in H.
    + eexists _, _. split; [exact (analysis_run files config Hread Hne)|].
      by exists config.
  - unfold analyze_sms_configuration, read_env_file. rewrite Hfile.
    eexists _, None. split; [reflexivity|].
    intros k v (content & Hc & _). congruence.
Qed.

Lemma check_returns : exists out issues, check_sms_service_code files = (out, Ret issues).
Proof.
  destruct (files service_file) as [raw|] eqn:Hfile.
  - destruct (check_sms_service_code_run files raw Hfile)
      as (out1 & idxs & tail & _ & Hrun & _). eauto.
  - unfold check_sms_service_code. rewrite Hfile. eexists _, _. reflexivity.
Qed.


Section Probe.
Variable post : post_request -> res response.
Variable input : res (list N).
Variable enter_backend : res unit.

Abbreviation inside' := (Outcome.inside post input).
Abbreviation passed_on' := (Outcome.passed_on post input).







End Probe.

(** X18.  [main] of the analyzer asks before it tests the gateway, and asks
    only when it has a key: when the [.env] file gives no [SMS_API_KEY]
    other than ['NOT SET'], the run is the same whatever the operator and
    the gateway would answer; when the operator's answer, lower-cased but
    not trimmed, is not [y], the run is the same whatever the gateway
    would answer. *)
Theorem X18_analyzer_asks_first (enter_backend : res unit) :
  ((forall v, Spec.file_value files (lit ".env") (lit "SMS_API_KEY") v -> v = NOT_SET) ->
   forall (post post' : post_request -> res response) (input input' : res (list N)),
     main files json_loads post input enter_backend
     = main files json_loads post' input' enter_backend)
  /\ (forall input : res (list N),
        (forall answer, input = Ret answer -> lower answer <> lit "y") ->
        forall post post' : post_request -> res response,
          main files json_loads post input enter_backend
          = main files json_loads post' input enter_backend).
Proof.
  split.
  - intros Hnone post post' input input'. unfold main.
    destruct enter_backend as [[]|e]; [|reflexivity].
    destruct analysis_returns as (out & r & -> & Hr).
    destruct check_returns as (out' & issues & ->).
    destruct r as [cfg|]; [|reflexivity].
    destruct Hr as (config & Hspec & ->).
    assert (Hkey : SMS_API_KEY (Report.sms_config_of config) = NOT_SET).
    { cbn [Report.sms_config_of SMS_API_KEY].
      destruct (config !! lit "SMS_API_KEY") as [v|] eqn:E; [|done].
      cbn. apply Hnone. by apply Hspec. }
    cbn [bind print ret]. rewrite Hkey.
    rewrite bool_decide_eq_true_2 by done. reflexivity.
  - intros input Hanswer post post'. unfold main.
    destruct enter_backend as [[]|e]; [|reflexivity].
    destruct analysis_returns as (out & r & -> & Hr).
    destruct check_returns as (out' & issues & ->).
    destruct r as [cfg|]; [|reflexivity].
    cbn [bind print ret].
    destruct (bool_decide (SMS_API_KEY cfg = NOT_SET)); [reflexivity|].
    destruct input as [answer|e]; [|reflexivity].
    rewrite (bool_decide_eq_false_2 (lower answer = lit "y")) by by apply Hanswer.
    reflexivity.
Qed.

End AnalyzerRun.


(** The same run with a directory that is entered and an [input()] that
    meets the end of its input. *)
Example analyzer_end_of_input :
  exit_status
    (analyze_sms_config.run_as_script
       (analyze_sms_config.main (fun _ => Some (lit "SMS_API_KEY=abc"))
          (fun _ => Undecoded JSONDecodeError)
          (fun _ => Raise (Error ConnectionError))
          (Raise (Error (OtherError "EOFError"))) (Ret tt))).2 = 1%Z.
Proof. vm_compute. reflexivity. Qed.

(** ** The requests the SMS scripts can make *)

Section Requests.
Import Requests.

Variable json_loads : list N -> decoding.

(** X21.  The SMS tester makes no request but these three: the device
    list and the balance (the key alone, 15 seconds), and the one test
    message to the fixed number through the configured device and SIM slot
    (30 seconds).  A run is the same for two gateways that answer these
    three requests alike. *)
Theorem X21_tester_requests (SERVER API_KEY : list N)
    (DEFAULT_DEVICE DEFAULT_SIM_SLOT : Z) (post post' : post_request -> res response)
    (input : res (list N)) :
  post (Report.devices_post SERVER API_KEY) = post' (Report.devices_post SERVER API_KEY) ->
  post (Report.balance_post SERVER API_KEY) = post' (Report.balance_post SERVER API_KEY) ->
  post (Report.send_post SERVER API_KEY DEFAULT_DEVICE DEFAULT_SIM_SLOT)
    = post' (Report.send_post SERVER API_KEY DEFAULT_DEVICE DEFAULT_SIM_SLOT) ->
  test_sms_api.main SERVER API_KEY DEFAULT_DEVICE DEFAULT_SIM_SLOT json_loads post input
  = test_sms_api.main SERVER API_KEY DEFAULT_DEVICE DEFAULT_SIM_SLOT json_loads post' input.
Proof.
  unfold Report.devices_post, Report.balance_post, Report.send_post.
  intros Hdevices Hbalance Hsend.
  assert (H1 : test_sms_api.test_get_devices SERVER API_KEY DEFAULT_DEVICE
                 DEFAULT_SIM_SLOT json_loads post
               = test_sms_api.test_get_devices SERVER API_KEY DEFAULT_DEVICE
                   DEFAULT_SIM_SLOT json_loads post').
  { unfold test_sms_api.test_get_devices. by rewrite Hdevices. }
  assert (H2 : test_sms_api.test_get_balance SERVER API_KEY json_loads post
               = test_sms_api.test_get_balance SERVER API_KEY json_loads post').
  { unfold test_sms_api.test_get_balance. by rewrite Hbalance. }
  assert (H3 : test_sms_api.test_send_single_message SERVER API_KEY DEFAULT_DEVICE
                 DEFAULT_SIM_SLOT json_loads post input
               = test_sms_api.test_send_single_message SERVER API_KEY DEFAULT_DEVICE
                   DEFAULT_SIM_SLOT json_loads post' input).
  { unfold test_sms_api.test_send_single_message. by rewrite Hsend. }
  unfold test_sms_api.main. by rewrite H1, H2, H3.
Qed.

(** X22.  The analyzer makes no request but for the device list (the key
    alone, 15 seconds): a run is the same for two gateways that answer
    every such request alike.  It never sends a message. *)
Theorem X22_analyzer_requests (files : list N -> option (list N))
    (post post' : post_request -> res response) (input : res (list N)) :
  (forall server_url api_key,
      post (Report.devices_post server_url api_key)
      = post' (Report.devices_post server_url api_key)) ->
  forall enter_backend : res unit,
    analyze_sms_config.main files json_loads post input enter_backend
    = analyze_sms_config.main files json_loads post' input enter_backend.
Proof.
  unfold Report.devices_post. intros Hdevices.
  assert (H : forall api_key server_url,
             analyze_sms_config.test_sms_api_devices json_loads post api_key server_url
             = analyze_sms_config.test_sms_api_devices json_loads post' api_key server_url).
  { intros api_key server_url. unfold analyze_sms_config.test_sms_api_devices.
    by rewrite Hdevices. }
  intros enter_backend. unfold analyze_sms_config.main.
  destruct enter_backend as [[]|e]; [|reflexivity].
  destruct (analysis_returns files) as (out & r & -> & _).
  destruct (check_returns files) as (out' & issues & ->).
  destruct r as [cfg|]; [|reflexivity].
  cbn [bind print ret]. by rewrite H.
Qed.

End Requests.

(** X21 with two gateways out of reach for the three requests. *)
Lemma X21_tester_requests_witness :
  test_sms_api.main test_sms_api.Configured.SERVER test_sms_api.Configured.API_KEY
    test_sms_api.Configured.DEFAULT_DEVICE test_sms_api.Configured.DEFAULT_SIM_SLOT
    (fun _ => Undecoded JSONDecodeError) (fun _ => Raise (Error ConnectionError)) (Ret (lit "y"))
  = test_sms_api.main test_sms_api.Configured.SERVER test_sms_api.Configured.API_KEY
      test_sms_api.Configured.DEFAULT_DEVICE test_sms_api.Configured.DEFAULT_SIM_SLOT
      (fun _ => Undecoded JSONDecodeError) Report.unreachable_for_scripts (Ret (lit "y")).
Proof.
  apply (X21_tester_requests (fun _ => Undecoded JSONDecodeError) test_sms_api.Configured.SERVER
           test_sms_api.Configured.API_KEY test_sms_api.Configured.DEFAULT_DEVICE
           test_sms_api.Configured.DEFAULT_SIM_SLOT
           (fun _ => Raise (Error ConnectionError)) Report.unreachable_for_scripts
           (Ret (lit "y"))); reflexivity.
Defined.

(** X22 with the same two gateways. *)
Lemma X22_analyzer_requests_witness :
  analyze_sms_config.main (fun _ => Some (lit "SMS_API_KEY=abc"))
    (fun _ => Undecoded JSONDecodeError)
    (fun _ => Raise (Error ConnectionError)) (Ret (lit "y")) (Ret tt)
  = analyze_sms_config.main (fun _ => Some (lit "SMS_API_KEY=abc"))
      (fun _ => Undecoded JSONDecodeError)
      Report.unreachable_for_scripts (Ret (lit "y")) (Ret tt).
Proof.
  apply (X22_analyzer_requests (fun _ => Undecoded JSONDecodeError)
           (fun _ => Some (lit "SMS_API_KEY=abc"))
           (fun _ => Raise (Error ConnectionError)) Report.unreachable_for_scripts
           (Ret (lit "y"))).
  intros server_url api_key. reflexivity.
Defined.

(** ** The requests the Places tester can make *)

Section PlacesRequests.
Import test_places_api.

Variable files : list N -> option (list N).
Variable environ : gmap (list N) (list N).
Variable json_loads : list N -> decoding.
Variable json_dumps : json -> list N.
Variable urlencode : list (string * list N) -> list N.
Variable float_of_str : list N -> option spec_float.
Variable str_of_float : spec_float -> list N.

(** X23.  With a non-empty [--backend] the Places tester only posts JSON to
    [/places/autocomplete] and [/places/textsearch] under the base URL, and
    never contacts Google; without one it only sends [GET] requests to the
    two Places endpoints of Google.  A run is the same for two transports
    that answer these requests alike. *)
Theorem X23_places_requests (a : args) (urlopen urlopen' : request -> res (Z * list N)) :
  (forall backend, arg_backend a = Some backend -> backend <> [] ->
     (forall r, Invocation.backend_post backend r -> urlopen r = urlopen' r) ->
     main files environ json_loads json_dumps urlopen urlencode float_of_str
       str_of_float a
     = main files environ json_loads json_dumps urlopen' urlencode float_of_str
         str_of_float a)
  /\ (Spec.absent_or_empty (arg_backend a) ->
      (forall r, Invocation.google_get r -> urlopen r = urlopen' r) ->
      main files environ json_loads json_dumps urlopen urlencode float_of_str
        str_of_float a
      = main files environ json_loads json_dumps urlopen' urlencode float_of_str
          str_of_float a).
Proof.
  split.
  - intros backend Hb Hne Hsame.
    assert (H1 : forall query session lat lng radius,
               do_backend_autocomplete json_loads json_dumps urlopen backend query
                 session lat lng radius
               = do_backend_autocomplete json_loads json_dumps urlopen' backend query
                   session lat lng radius).
    { intros. unfold do_backend_autocomplete, http_post_json. cbv zeta.
      rewrite Hsame; [done|]. eexists. left. reflexivity. }
    assert (H2 : forall query lat lng radius,
               do_backend_textsearch json_loads json_dumps urlopen backend query
                 lat lng radius
               = do_backend_textsearch json_loads json_dumps urlopen' backend query
                   lat lng radius).
    { intros. unfold do_backend_textsearch, http_post_json. cbv zeta.
      rewrite Hsame; [done|]. eexists. right. reflexivity. }
    unfold main. rewrite Hb.
    destruct (parse_location_outcome float_of_str (arg_location a))
      as [(lat & lng & ->) | ->]; [|reflexivity].
    rewrite !bind_ret_l. destruct backend as [|c backend]; [done|].
    cbn [truthy_opt nonempty default]. by rewrite H1, H2.
  - intros Hb Hsame. apply truthy_opt_false in Hb.
    assert (H1 : forall key query session lat lng radius,
               do_google_autocomplete json_loads urlopen urlencode str_of_float key
                 query session lat lng radius
               = do_google_autocomplete json_loads urlopen' urlencode str_of_float key
                   query session lat lng radius).
    { intros. unfold do_google_autocomplete, http_get. cbv zeta.
      rewrite Hsame; [done|]. eexists. left. reflexivity. }
    assert (H2 : forall key query lat lng radius,
               do_google_textsearch json_loads urlopen urlencode str_of_float key
                 query lat lng radius
               = do_google_textsearch json_loads urlopen' urlencode str_of_float key
                   query lat lng radius).
    { intros. unfold do_google_textsearch, http_get. cbv zeta.
      rewrite Hsame; [done|]. eexists. right. reflexivity. }
    unfold main. rewrite Hb.
    destruct (parse_location_outcome float_of_str (arg_location a))
      as [(lat & lng & ->) | ->]; [|reflexivity].
    rewrite !bind_ret_l.
    destruct (resolve_api_key_outcome files environ (arg_key a) (arg_env a))
      as [(key & ->) | ->]; [|reflexivity].
    rewrite !bind_ret_l. by rewrite H1, H2.
Qed.

End PlacesRequests.

(** X23 with a transport that reaches the backend only, and one that
    reaches everything. *)
Lemma X23_places_requests_witness :
  test_places_api.main (fun _ => None) ∅ (fun _ => Undecoded JSONDecodeError) (fun _ => [])
    (Invocation.only_backend (lit "http://localhost:5000/api/v1/")) (fun _ => [])
    (fun _ => Some (S754_zero false)) (fun _ => [])
    (Invocation.with_backend (Some (lit "http://localhost:5000/api/v1/"))
       (Invocation.defaults (lit "UST")))
  = test_places_api.main (fun _ => None) ∅ (fun _ => Undecoded JSONDecodeError) (fun _ => [])
      (fun _ => Ret (200%Z, lit "{}")) (fun _ => [])
      (fun _ => Some (S754_zero false)) (fun _ => [])
      (Invocation.with_backend (Some (lit "http://localhost:5000/api/v1/"))
         (Invocation.defaults (lit "UST"))).
Proof.
  destruct (X23_places_requests (fun _ => None) ∅ (fun _ => Undecoded JSONDecodeError) (fun _ => [])
              (fun _ => []) (fun _ => Some (S754_zero false)) (fun _ => [])
              (Invocation.with_backend (Some (lit "http://localhost:5000/api/v1/"))
                 (Invocation.defaults (lit "UST")))
              (Invocation.only_backend (lit "http://localhost:5000/api/v1/"))
              (fun _ => Ret (200%Z, lit "{}"))) as [H _].
  apply (H (lit "http://localhost:5000/api/v1/")); [reflexivity | vm_compute; discriminate |].
  intros r (data & [-> | ->]); unfold Invocation.only_backend;
    cbn [test_places_api.req_url].
  - by rewrite bool_decide_eq_true_2.
  - rewrite (bool_decide_eq_true_2
               (rstrip_char 47 (lit "http://localhost:5000/api/v1/")
                  ++ lit "/places/textsearch"
                = rstrip_char 47 (lit "http://localhost:5000/api/v1/")
                  ++ lit "/places/textsearch")) by done.
    by rewrite orb_true_r.
Defined.

(** ** The recommendation of the analyzer's device test *)

Section Recommendation.
Import Requests analyze_sms_config.

Variable json_loads : list N -> decoding.

Lemma analyzer_show_device_returns (d : gmap (list N) json) :
  Spec.sims_well_formed d -> (show_device (JObj d)).2 = Ret tt.
Proof.
  intros Hwf. unfold show_device.
  cbn [attr_get attr_get_or bind print ret snd].
  assert (Hsim : forall key, key = lit "sim1" \/ key = lit "sim2" ->
            truthy (dict_get_or d key (JObj ∅)) = false
            \/ exists sim, dict_get_or d key (JObj ∅) = JObj sim).
  { intros key Hkey. unfold dict_get_or. destruct (d !! key) as [v|] eqn:E; cbn.
    - destruct (truthy v) eqn:Hv; [right; by eapply Hwf | by left].
    - by left. }
  destruct (Hsim (lit "sim1")) as [-> | [s1 ->]]; [by left| |];
    destruct (Hsim (lit "sim2")) as [-> | [s2 ->]]; try (by right);
    repeat (match goal with |- context [truthy ?v] => destruct (truthy v) end);
    reflexivity.
Qed.

(** X24.  On a successful reply that lists device records, the device test
    of the analyzer ends by recommending the id of the first record listed,
    whatever that record says about being enabled; on a successful reply
    with an empty list it ends with "No devices found!".  It returns
    normally both times. *)
Theorem X24_analyzer_recommends_first (post : post_request -> res response)
    (api_key server_url body : list N) (data inner : gmap (list N) json)
    (l : list (gmap (list N) json)) :
  api_key <> NOT_SET ->
  post (Report.devices_post server_url api_key) = Ret (Response 200 body) ->
  json_loads body = Decoded (JObj data) ->
  truthy (dict_get data (lit "success")) = true ->
  data !! lit "data" = Some (JObj inner) ->
  inner !! lit "devices" = Some (JArr (JObj <$> l)) ->
  (forall d, d ∈ l -> Spec.sims_well_formed d) ->
  test_sms_api_devices json_loads post api_key server_url
  = (Report.device_test_intro server_url api_key (JObj data) (length l)
       ++ (for_each (JObj <$> l) show_device).1
       ++ match l with
          | d :: _ => Report.recommendation (dict_get d (lit "id"))
          | [] => Report.no_devices
          end,
     Ret tt).
Proof.
  intros Hkey Hpost Hjson Hsuccess Hdata Hdevices Hwf.
  unfold test_sms_api_devices, Report.devices_post in *.
  rewrite (bool_decide_eq_false_2 _ Hkey).
  cbn [bind print print_header print_info ret]. rewrite Hpost.
  cbn [bind print print_info ret Requests.status_code Z.eqb Pos.eqb].
  unfold response_json. cbn [Requests.text]. rewrite Hjson.
  cbn [bind ret print print_success attr_get attr_get_or]. rewrite Hsuccess.
  unfold dict_get_or. rewrite Hdata. cbn [default from_option id attr_get_or].
  unfold dict_get_or. rewrite Hdevices.
  cbn [default from_option id bind print ret py_len py_iter].
  rewrite (returns_eta (for_each (JObj <$> l) show_device) tt).
  2:{ apply for_each_returns. intros x (d & -> & Hd)%list_elem_of_fmap.
      by apply analyzer_show_device_returns, Hwf. }
  rewrite length_fmap. destruct l as [|d l']; [reflexivity|].
  cbn [fmap list_fmap truthy py_first bind ret print attr_get try_except app fst].
  reflexivity.
Qed.

End Recommendation.

(** X24 with a reply that lists the sample devices 1 and 2. *)
Lemma X24_analyzer_recommends_first_witness :
  let reply : gmap (list N) json :=
    {[ lit "success" := JBool true;
       lit "data" := JObj {[ lit "devices" := JArr [JObj Spec.device_1;
                                                     JObj Spec.device_2] ]} ]} in
  analyze_sms_config.test_sms_api_devices (fun _ => Decoded (JObj reply))
    (fun _ => Ret (Requests.Response 200 [])) (lit "abc") (lit "https://sms.parktayo.com")
  = (Report.device_test_intro (lit "https://sms.parktayo.com") (lit "abc") (JObj reply) 2
       ++ (for_each [JObj Spec.device_1; JObj Spec.device_2]
             analyze_sms_config.show_device).1
       ++ Report.recommendation (JInt 1),
     Ret tt).
Proof.
  intros reply.
  apply (X24_analyzer_recommends_first (fun _ => Decoded (JObj reply))
           (fun _ => Ret (Requests.Response 200 [])) (lit "abc")
           (lit "https://sms.parktayo.com") [] reply
           {[ lit "devices" := JArr [JObj Spec.device_1; JObj Spec.device_2] ]}
           [Spec.device_1; Spec.device_2]); try reflexivity.
  - vm_compute. discriminate.
  - intros d Hd key v Hkey Hv Htruthy.
    apply elem_of_cons in Hd as [-> | Hd];
      [|apply elem_of_cons in Hd as [-> | Hd]; [|by apply elem_of_nil in Hd]];
      destruct Hkey as [-> | ->]; vm_compute in Hv;
      first [discriminate Hv | injection Hv as <-; eexists; reflexivity].
Defined.

(** ** The send test, once confirmed *)

Section SendReplies.
Import Requests test_sms_api.

Variables (SERVER API_KEY : list N) (DEFAULT_DEVICE DEFAULT_SIM_SLOT : Z).
Variable json_loads : list N -> decoding.

(** X25.  Once the operator has confirmed, [test_send_single_message]
    returns the first message record of a successful reply, and [None] in
    every other case: a status other than 200 (the whole body is printed,
    uncut), a reply without a true [success] (the [message] of a dict
    [error], "Unknown error" when the dict has none or [error] is absent,
    and any other [error] as it is), and a successful reply with no
    message. *)
Theorem X25_send_replies (post : post_request -> res response) (input : res (list N))
    (answer : list N) (status : Z) (body : list N) :
  input = Ret answer -> lower (strip answer) = lit "y" ->
  post (Report.send_post SERVER API_KEY DEFAULT_DEVICE DEFAULT_SIM_SLOT)
    = Ret (Response status body) ->
  let run := test_send_single_message SERVER API_KEY DEFAULT_DEVICE DEFAULT_SIM_SLOT
               json_loads post input in
  (status <> 200%Z ->
   run.2 = Ret JNull
   /\ wrote run (Stdout [Lit "[ERROR] "; Lit "HTTP Error: "; Int status])
   /\ wrote run (Stdout [Lit "Response: "; Txt body]))
  /\ (forall data, status = 200%Z -> json_loads body = Decoded (JObj data) ->
        truthy (dict_get data (lit "success")) = false ->
        run.2 = Ret JNull
        /\ wrote run
             (Stdout [Lit "[ERROR] "; Lit "API Error: ";
                      Val match dict_get_or data (lit "error") (JObj ∅) with
                          | JObj e => dict_get_or e (lit "message")
                                        (JStr (lit "Unknown error"))
                          | other => other
                          end]))
  /\ (forall data inner, status = 200%Z -> json_loads body = Decoded (JObj data) ->
        truthy (dict_get data (lit "success")) = true ->
        dict_get_or data (lit "data") (JObj ∅) = JObj inner ->
        (forall m rest,
            inner !! lit "messages" = Some (JArr (JObj m :: rest)) ->
            run.2 = Ret (JObj m))
        /\ (dict_get_or inner (lit "messages") (JArr []) = JArr [] ->
            run.2 = Ret JNull)).
Proof.
  intros -> Hyes Hpost. cbv zeta. unfold Report.send_post in Hpost.
  unfold test_send_single_message.
  cbn [bind print print_header print_info ret]. rewrite Hyes.
  rewrite bool_decide_eq_true_2 by done. cbn [negb]. rewrite Hpost.
  cbn [bind print print_info ret status_code text].
  split; [|split].
  - intros Hstatus. rewrite (proj2 (Z.eqb_neq status 200) Hstatus).
    unfold wrote. cbn. split; [done|]. split; printed.
  - intros data -> Hjson Hsuccess. unfold response_json. cbn [text Z.eqb Pos.eqb].
    rewrite Hjson. cbn [bind ret print attr_get attr_get_or]. rewrite Hsuccess.
    unfold wrote.
    destruct (dict_get_or data (lit "error") (JObj ∅)); cbn; (split; [done | printed]).
  - intros data inner -> Hjson Hsuccess Hinner. unfold response_json.
    cbn [text Z.eqb Pos.eqb]. rewrite Hjson.
    cbn [bind ret print print_success attr_get attr_get_or]. rewrite Hsuccess, Hinner.
    split.
    + intros m rest Hm. unfold attr_get_or, dict_get_or. rewrite Hm. reflexivity.
    + intros Hnone. unfold attr_get_or. rewrite Hnone. reflexivity.
Qed.

End SendReplies.

(** X25 with a gateway that answers 503. *)
Lemma X25_send_replies_witness :
  (test_sms_api.test_send_single_message test_sms_api.Configured.SERVER
     test_sms_api.Configured.API_KEY test_sms_api.Configured.DEFAULT_DEVICE
     test_sms_api.Configured.DEFAULT_SIM_SLOT (fun _ => Undecoded JSONDecodeError)
     (fun _ => Ret (Requests.Response 503 (lit "Service Unavailable")))
     (Ret (lit " Y "))).2
  = Ret JNull.
Proof.
  destruct (X25_send_replies test_sms_api.Configured.SERVER
              test_sms_api.Configured.API_KEY test_sms_api.Configured.DEFAULT_DEVICE
              test_sms_api.Configured.DEFAULT_SIM_SLOT (fun _ => Undecoded JSONDecodeError)
              (fun _ => Ret (Requests.Response 503 (lit "Service Unavailable")))
              (Ret (lit " Y ")) (lit " Y ") 503 (lit "Service Unavailable")
              eq_refl eq_refl eq_refl) as [H _].
  apply H. discriminate.
Defined.
